(** * duckdb_azure: a shallow embedding of the Azure blob filesystem adapter

    The development follows [src/azure_filesystem.cpp] (URL parser, glob
    matcher, glob driver, context cache, buffered read engine) and the
    credential resolver behind [azure_storage_account_client.hpp]
    ([ConnectToStorageAccount] and its helpers).

    Conventions.
    - [std::string] is [string]; positions are [nat], and [std::string::npos]
      is [None], except where the code does arithmetic on a position
      ([rfind(..) * rfind(..)]), which is done on 64-bit values.
    - [idx_t] is a 64-bit unsigned integer: a [Z] in [[0, 2^64)] whose
      subtraction and addition wrap around; [int64_t] is its signed reading.
    - C++ exceptions are values of [exception]; a function that can throw
      returns [result].
    - Remote calls (ranged download, blob listing, blob properties) are
      oracles that answer or throw, with a [StorageException] or with an
      exception of another type; every call is recorded in a trace, so that
      "how many fetches" is a property of the returned trace.
    - Running out of memory is not modelled, except for the one allocation
      whose size is a session setting, the read-ahead buffer of a handle,
      which is an oracle as well. *)

From Stdlib Require Import ZArith Ascii String List Lia Bool.
From stdpp Require Import base option list gmap strings.

Local Open Scope string_scope.
Local Open Scope list_scope.

(** ** std::string operations used by the sources *)

Module StdString.

Definition empty (s : string) : bool :=
  match s with EmptyString => true | _ => false end.

(** [s.find(needle, pos)]: first occurrence at or after [pos]. *)
Definition find (s needle : string) (pos : nat) : option nat :=
  String.index pos needle s.

(** [s.find(c, pos)] for a single character. *)
Definition find_char (s : string) (c : ascii) (pos : nat) : option nat :=
  String.index pos (String c EmptyString) s.

(** [s.substr(pos, len)]; every call site passes [pos <= s.size()], and the
    length is clamped to what is left, as [std::string::substr] does. *)
Definition substr (s : string) (pos len : nat) : string :=
  String.substring pos len s.

(** [s.substr(pos)]: the rest of the string. *)
Definition substr_from (s : string) (pos : nat) : string :=
  String.substring pos (String.length s - pos) s.

Definition npos : Z := 2 ^ 64 - 1.

(** [s.rfind(needle, 0)]: the last occurrence starting at or before
    position 0, that is 0 when [s] starts with [needle] and [npos]
    otherwise. *)
Definition rfind0 (s needle : string) : Z :=
  if String.prefix needle s then 0%Z else npos.

Fixpoint mem_char (c : ascii) (chars : string) : bool :=
  match chars with
  | EmptyString => false
  | String d rest => if Ascii.eqb c d then true else mem_char c rest
  end.

(** [s.find_first_of(chars)]. *)
Fixpoint find_first_of (s chars : string) : option nat :=
  match s with
  | EmptyString => None
  | String c rest =>
      if mem_char c chars then Some 0
      else match find_first_of rest chars with
           | Some n => Some (S n)
           | None => None
           end
  end.

(** [0 == s.compare(pos, len, other)]: the at most [len] characters of [s]
    from [pos] are exactly [other]. *)
Definition compare_eq (s : string) (pos len : nat) (other : string) : bool :=
  String.eqb (substr s pos len) other.

End StdString.

(** ** Host-engine string utilities *)

Module StringUtil.

(** The pieces of [input] between separators, in order, without the empty
    ones; [cur] is the piece being read. *)
Fixpoint split_acc (input : string) (sep : ascii) (cur : string) : list string :=
  match input with
  | EmptyString => if StdString.empty cur then [] else [cur]
  | String c rest =>
      if Ascii.eqb c sep then
        (if StdString.empty cur then [] else [cur]) ++ split_acc rest sep EmptyString
      else split_acc rest sep (cur ++ String c EmptyString)
  end.

(** Modelled from the spec: [StringUtil::Split(input, "/")] belongs to the
    host engine and is not among the sources; the spec speaks of
    "slash-split segment sequences". The pieces between separators are
    returned in order, empty pieces are dropped, and an input without any
    non-empty piece yields the input itself as only element. *)
Definition Split (input : string) (sep : ascii) : list string :=
  match split_acc input sep EmptyString with
  | [] => [input]
  | l => l
  end.

End StringUtil.

(** ** Per-segment shell glob of the host engine *)

Module LikeFun.

Inductive glob_token : Type :=
| GStar
| GAny
| GChar (c : ascii)
| GClass (negate : bool) (items : list (ascii * ascii)).

(** The inside of a bracket expression: single characters and [a-b] ranges
    up to the closing bracket; a closing bracket in first position is a
    literal. Returns the items and what follows the bracket. *)
Fixpoint parse_class (p : list ascii) (first : bool)
  : option (list (ascii * ascii) * list ascii) :=
  match p with
  | [] => None
  | c :: p1 =>
      if Ascii.eqb c "]" && negb first then Some ([], p1)
      else
        match p1 with
        | d :: hi :: p2 =>
            if Ascii.eqb d "-" then
              match parse_class p2 false with
              | Some (items, rest) => Some ((c, hi) :: items, rest)
              | None => None
              end
            else
              match parse_class p1 false with
              | Some (items, rest) => Some ((c, c) :: items, rest)
              | None => None
              end
        | _ =>
            match parse_class p1 false with
            | Some (items, rest) => Some ((c, c) :: items, rest)
            | None => None
            end
        end
  end.

Fixpoint tokenize (fuel : nat) (p : list ascii) : option (list glob_token) :=
  match p with
  | [] => Some []
  | c :: p1 =>
      match fuel with
      | O => None
      | S fuel' =>
          if Ascii.eqb c "*" then cons GStar <$> tokenize fuel' p1
          else if Ascii.eqb c "?" then cons GAny <$> tokenize fuel' p1
          else if Ascii.eqb c "\" then
            match p1 with
            | [] => None
            | e :: p2 => cons (GChar e) <$> tokenize fuel' p2
            end
          else if Ascii.eqb c "[" then
            let '(negate, body) :=
              match p1 with
              | b :: p2 => if Ascii.eqb b "!" then (true, p2) else (false, p1)
              | [] => (false, p1)
              end in
            match parse_class body true with
            | Some (items, rest) => cons (GClass negate items) <$> tokenize fuel' rest
            | None => None
            end
          else cons (GChar c) <$> tokenize fuel' p1
      end
  end.

Definition in_range (s : ascii) (item : ascii * ascii) : bool :=
  (N.leb (N_of_ascii (fst item)) (N_of_ascii s))
  && (N.leb (N_of_ascii s) (N_of_ascii (snd item))).

Definition class_matches (negate : bool) (items : list (ascii * ascii)) (s : ascii) : bool :=
  xorb negate (existsb (in_range s) items).

Fixpoint glob_tokens (ts : list glob_token) (s : list ascii) {struct ts} : bool :=
  match ts with
  | [] => match s with [] => true | _ => false end
  | GStar :: ts' =>
      (fix star (s : list ascii) : bool :=
         if glob_tokens ts' s then true
         else match s with
              | [] => false
              | _ :: s' => star s'
              end) s
  | GAny :: ts' =>
      match s with
      | [] => false
      | _ :: s' => glob_tokens ts' s'
      end
  | GChar c :: ts' =>
      match s with
      | [] => false
      | d :: s' => Ascii.eqb c d && glob_tokens ts' s'
      end
  | GClass negate items :: ts' =>
      match s with
      | [] => false
      | d :: s' => class_matches negate items d && glob_tokens ts' s'
      end
  end.

(** Modelled from the spec: [LikeFun::Glob(str, pattern)] is the host
    engine's matcher and is not among the sources; the spec describes it as
    "shell-style glob on each segment ([*], [?], [[...]])". A star matches
    any run of characters, a question mark any one character, a bracket
    expression one character of the class (negated by a leading [!]), a
    backslash makes the next character literal; a pattern with an
    unterminated bracket or a trailing backslash matches nothing. *)
Definition Glob (str pattern : string) : bool :=
  let p := list_ascii_of_string pattern in
  match tokenize (length p) p with
  | Some ts => glob_tokens ts (list_ascii_of_string str)
  | None => false
  end.

End LikeFun.

(** ** The glob matcher over slash-split segments *)

Section GlobMatcher.

(** The per-segment matcher the code calls ([LikeFun::Glob]). *)
Variable Glob : string -> string -> bool.

(** [Match(key, key_end, pattern, pattern_end)]. The outer [while] advances
    both iterators; at a [**] segment either the pattern ends there
    (success) or the rest of the pattern is tried at [key], [key+1], ...
    while [key != key_end]. *)
Fixpoint Match (key pattern : list string) {struct pattern} : bool :=
  match key, pattern with
  | k :: key', p :: pattern' =>
      if String.eqb p "**" then
        match pattern' with
        | [] => true
        | _ :: _ =>
            (fix scan (key : list string) : bool :=
               match key with
               | [] => false
               | _ :: key'' =>
                   if Match key pattern' then true else scan key''
               end) (k :: key')
        end
      else if negb (Glob k p) then false
      else Match key' pattern'
  | [], [] => true
  | _, _ => false
  end.

(** All suffixes of a segment sequence, the whole sequence first and the
    empty one last. *)
Fixpoint suffixes (key : list string) : list (list string) :=
  match key with
  | [] => [[]]
  | _ :: key' => key :: suffixes key'
  end.

(** The matcher as the specification words it: segment by segment, a [**]
    segment standing for zero or more whole key segments. *)
Fixpoint match_spec (key pattern : list string) {struct pattern} : bool :=
  match pattern with
  | [] => match key with [] => true | _ => false end
  | p :: pattern' =>
      if String.eqb p "**" then
        existsb (fun suffix => match_spec suffix pattern') (suffixes key)
      else
        match key with
        | [] => false
        | k :: key' => Glob k p && match_spec key' pattern'
        end
  end.

End GlobMatcher.

(** ** Exceptions and results *)

Inductive exception : Type :=
| IOException (msg : string)
| InvalidInputException (msg : string)
| InternalException (msg : string)
| NotImplementedException (msg : string)
(* An exception that is not one of the host's: the SDK or the C++ runtime
   threw it, with this [what()], and the code lets it through as it is. *)
| OtherException (what : string)
(* Not a C++ exception: the model stops here because the code's behaviour is
   undefined (a null pointer is dereferenced, or a registered state of
   another kind is cast to [AzureContextState]). *)
| UndefinedBehaviour (what : string).

Inductive result (A : Type) : Type :=
| Ok (a : A)
| Throw (e : exception).
Arguments Ok {A} a.
Arguments Throw {A} e.

#[global] Instance result_ret : MRet result := fun A a => Ok a.
#[global] Instance result_bind : MBind result := fun A B f m =>
  match m with
  | Ok a => f a
  | Throw e => Throw e
  end.

Definition is_ok {A} (r : result A) : bool :=
  match r with Ok _ => true | Throw _ => false end.

(** ** 64-bit machine integers *)

Module U64.

Definition modulus : Z := 2 ^ 64.

(** Conversion to [idx_t] (also of a negative [int64_t]). *)
Definition wrap (z : Z) : Z := z mod modulus.

Definition add (a b : Z) : Z := wrap (a + b).
Definition sub (a b : Z) : Z := wrap (a - b).
Definition mul (a b : Z) : Z := wrap (a * b).

(** Conversion of an [idx_t] to [int64_t]. *)
Definition to_int64 (z : Z) : Z := (z + 2 ^ 63) mod modulus - 2 ^ 63.

End U64.

(** ** URL parser *)

Module AzureParsedUrl.
Record t : Type := Build {
  container : string;
  storage_account_name : string;
  endpoint : string;
  prefix : string;
  path : string
}.
End AzureParsedUrl.

Definition invalid_url_format (url : string) : string :=
  "The URL " ++ url ++ " does not match the expected formats: (azure|az)://<container>/[<path>] or the fully qualified one: (azure|az)://<storage account>.<endpoint>/<container>/[<path>]".

Definition invalid_scheme_message : string :=
  "URL needs to start with azure:// or az://".

(** [AzureStorageFileSystem::ParseUrl]. [url.find("//") + 2] is computed on
    [size_t]: were the search to fail, [npos + 2] would wrap to 1. *)
Definition ParseUrl (url : string) : result AzureParsedUrl.t :=
  if negb (Z.eqb (U64.mul (StdString.rfind0 url "azure://") (StdString.rfind0 url "az://")) 0)
  then Throw (IOException invalid_scheme_message)
  else
    let prefix_end_pos :=
      match StdString.find url "//" 0 with
      | Some p => p + 2
      | None => 1
      end in
    let dot_pos := StdString.find_char url "." prefix_end_pos in
    let slash_pos := StdString.find_char url "/" prefix_end_pos in
    match slash_pos with
    | None => Throw (IOException (invalid_url_format url))
    | Some slash_pos =>
        let prefix := StdString.substr url 0 prefix_end_pos in
        (* (azure|az)://<container>/[<path>] *)
        let short_form :=
          let container := StdString.substr url prefix_end_pos (slash_pos - prefix_end_pos) in
          if StdString.empty container then Throw (IOException (invalid_url_format url))
          else Ok (AzureParsedUrl.Build container "" "" prefix
                     (StdString.substr_from url (slash_pos + 1))) in
        match dot_pos with
        | Some dot_pos =>
            if (dot_pos <? slash_pos)%nat then
              (* (azure|az)://<storage account>.<endpoint>/<container>/[<path>] *)
              match StdString.find_char url "/" dot_pos with
              | None => Throw (IOException (invalid_url_format url))
              | Some container_slash_pos =>
                  match StdString.find_char url "/" (container_slash_pos + 1) with
                  | None => Throw (IOException (invalid_url_format url))
                  | Some path_slash_pos =>
                      Ok (AzureParsedUrl.Build
                            (StdString.substr url (container_slash_pos + 1)
                               (path_slash_pos - container_slash_pos - 1))
                            (StdString.substr url prefix_end_pos (dot_pos - prefix_end_pos))
                            (StdString.substr url (dot_pos + 1) (container_slash_pos - dot_pos - 1))
                            prefix
                            (StdString.substr_from url (path_slash_pos + 1)))
                  end
              end
            else short_form
        | None => short_form
        end
    end.

(** The URL a glob result is rebuilt from: [path_result_prefix + '/' + key]
    in [AzureStorageFileSystem::Glob]. *)
Definition path_result_prefix (u : AzureParsedUrl.t) : string :=
  if StdString.empty (AzureParsedUrl.storage_account_name u)
  then AzureParsedUrl.prefix u ++ AzureParsedUrl.container u
  else AzureParsedUrl.prefix u ++ AzureParsedUrl.storage_account_name u ++ "."
       ++ AzureParsedUrl.endpoint u ++ "/" ++ AzureParsedUrl.container u.

Definition result_full_url (u : AzureParsedUrl.t) (key : string) : string :=
  path_result_prefix u ++ "/" ++ key.

(** The two spellings of the scheme. *)
Definition valid_scheme (scheme : string) : Prop :=
  scheme = "az://" \/ scheme = "azure://".

(** [ParseUrl] as seen from the text that follows the scheme: the same
    searches and cuts, with positions counted from the end of the scheme. *)
Definition parse_after_scheme (scheme rest : string) : result AzureParsedUrl.t :=
  let url := (scheme ++ rest)%string in
  match StdString.find_char rest "/" 0 with
  | None => Throw (IOException (invalid_url_format url))
  | Some slash_pos =>
      let short_form :=
        let container := StdString.substr rest 0 slash_pos in
        if StdString.empty container then Throw (IOException (invalid_url_format url))
        else Ok (AzureParsedUrl.Build container "" "" scheme
                   (StdString.substr_from rest (slash_pos + 1))) in
      match StdString.find_char rest "." 0 with
      | Some dot_pos =>
          if (dot_pos <? slash_pos)%nat then
            match StdString.find_char rest "/" dot_pos with
            | None => Throw (IOException (invalid_url_format url))
            | Some container_slash_pos =>
                match StdString.find_char rest "/" (container_slash_pos + 1) with
                | None => Throw (IOException (invalid_url_format url))
                | Some path_slash_pos =>
                    Ok (AzureParsedUrl.Build
                          (StdString.substr rest (container_slash_pos + 1)
                             (path_slash_pos - container_slash_pos - 1))
                          (StdString.substr rest 0 dot_pos)
                          (StdString.substr rest (dot_pos + 1)
                             (container_slash_pos - dot_pos - 1))
                          scheme
                          (StdString.substr_from rest (path_slash_pos + 1)))
                end
            end
          else short_form
      | None => short_form
      end
  end.

(** ** Credential resolver *)

(** The SDK objects the resolver builds, as data: what was constructed and
    from which arguments. *)
Module Azure.

Record CurlTransportOptions : Type := {
  curl_Proxy : option string;
  curl_ProxyUsername : option string;
  curl_ProxyPassword : option string;
  curl_CAInfo : option string;
  curl_CAPath : option string
}.

Record TransportOptions : Type := {
  HttpProxy : option string;
  ProxyUserName : option string;
  ProxyPassword : option string;
  Transport : option CurlTransportOptions
}.

#[warnings="-register-all"]
Inductive TokenCredential : Type :=
| AzureCliCredential (options : TransportOptions)
| ManagedIdentityCredential (options : TransportOptions)
| EnvironmentCredential (options : TransportOptions)
| DefaultAzureCredential (options : TransportOptions)
| ChainedTokenCredential (sources : list TokenCredential)
| ClientSecretCredential (tenant_id client_id client_secret : string)
    (options : TransportOptions)
| ClientCertificateCredential (tenant_id client_id client_certificate_path : string)
    (options : TransportOptions).

Record BlobClientOptions : Type := {
  blob_Transport : TransportOptions;
  (* the HTTP-statistics policy, when one is registered *)
  PerOperationPolicies : list nat
}.

Inductive BlobServiceClient : Type :=
| CreateFromConnectionString (connection_string : string) (options : BlobClientOptions)
| AnonymousClient (account_url : string) (options : BlobClientOptions)
| CredentialClient (account_url : string) (credential : TokenCredential)
    (options : BlobClientOptions).

End Azure.

Record KeyValueSecret : Type := {
  provider : string;
  secret_map : gmap string string
}.

(** The part of the host's client context the resolver reads: the secret
    manager's lookup of a secret of type "azure" for a path. *)
Record ClientContext : Type := {
  LookupSecret : string -> option KeyValueSecret
}.

(** The file opener: the typed session settings, the client context and the
    HTTP statistics state, each of which may be absent. *)
Record FileOpener : Type := {
  bool_settings : gmap string bool;
  int_settings : gmap string Z;
  string_settings : gmap string string;
  client_context : option ClientContext;
  http_state : option nat
}.

(** What [CreateCurlTransport] consults: the environment variables, which
    files [fopen(path, "r")] opens, and the two platform macros that its
    [#if !defined(_WIN32) && !defined(__APPLE__)] tests. *)
Record ProcessEnv : Type := {
  getenv : string -> option string;
  fopen_readable : string -> bool;
  _WIN32 : bool;
  __APPLE__ : bool
}.

Definition DEFAULT_ENDPOINT : string := "blob.core.windows.net".

Definition invalid_connection_string_message : string :=
  "A invalid connection string has been provided.".

Definition connection_string_mismatch_message (provided_storage_account : string) : string :=
  "The provided connection string does not match the storage account named "
  ++ provided_storage_account.

Definition missing_client_credential_message : string :=
  "Failed to fetch key 'client_secret' or 'client_certificate_path' from secret 'service_principal' of type 'azure'".

Definition no_credentials_message : string := "No valid Azure credentials found!".

(** Modelled from the spec: [KeyValueSecret::TryGetValue(key, error_on_missing)]
    belongs to the host engine and is not among the sources. A missing key
    gives a null value, or, with [error_on_missing], the error the spec calls
    [MissingField]. *)
Definition missing_field (key : string) : exception :=
  InvalidInputException ("Failed to fetch key '" ++ key ++ "' from secret").

Definition TryGetValue (secret : KeyValueSecret) (key : string) : option string :=
  secret_map secret !! key.

Definition TryGetValue_required (secret : KeyValueSecret) (key : string) : result string :=
  match secret_map secret !! key with
  | Some v => Ok v
  | None => Throw (missing_field key)
  end.

(** Modelled from the spec: [StringUtil::Split(str, ';')], the host's
    character-delimited split (a [getline] loop): every piece closed by a
    delimiter is kept, a last piece only when it is not empty. *)
Fixpoint split_lines (str : string) (delimiter : ascii) (cur : string) : list string :=
  match str with
  | EmptyString => if StdString.empty cur then [] else [cur]
  | String c rest =>
      if Ascii.eqb c delimiter then cur :: split_lines rest delimiter EmptyString
      else split_lines rest delimiter (cur ++ String c EmptyString)
  end.

Section CredentialResolver.

Variable env : ProcessEnv.

(** The static [TryGetCurrentSetting(opener, name)]: the setting as a
    string, empty when it is not set. *)
Definition TryGetCurrentSetting (opener : FileOpener) (name : string) : string :=
  default "" (string_settings opener !! name).

Definition ConnectionStringMatchStorageAccountName
    (connection_string provided_storage_account : string) : result bool :=
  if StdString.empty provided_storage_account then Ok true
  else
    match StdString.find connection_string "AccountName=" 0 with
    | None => Throw (InvalidInputException invalid_connection_string_message)
    | Some storage_account_name_pos =>
        Ok (StdString.compare_eq connection_string (storage_account_name_pos + 12)
              (String.length provided_storage_account) provided_storage_account)
    end.

Definition KVSEndpoint (secret : KeyValueSecret) (provided_endpoint : string) : string :=
  if StdString.empty provided_endpoint then
    match TryGetValue secret "endpoint" with
    | None => DEFAULT_ENDPOINT
    | Some endpoint_value => endpoint_value
    end
  else provided_endpoint.

Definition KVSStorageAccount (secret : KeyValueSecret) (provided_storage_account : string)
  : result string :=
  if StdString.empty provided_storage_account then TryGetValue_required secret "account_name"
  else Ok provided_storage_account.

Definition AccountUrl (secret : KeyValueSecret)
    (provided_storage_account provided_endpoint : string) : result string :=
  account ← KVSStorageAccount secret provided_storage_account;
  mret ("https://" ++ account ++ "." ++ KVSEndpoint secret provided_endpoint)%string.

Definition ToBlobClientOptions (transport_options : Azure.TransportOptions)
    (http_state : option nat) : Azure.BlobClientOptions :=
  {| Azure.blob_Transport := transport_options;
     Azure.PerOperationPolicies :=
       match http_state with Some st => [st] | None => [] end |}.

Definition GetHttpState (opener : FileOpener) : option nat :=
  let enable_http_stats := default false (bool_settings opener !! "azure_http_stats") in
  if enable_http_stats then http_state opener else None.

Definition unknown_credential_provider_message (item : string) : string :=
  "Unknown credential provider found: " ++ item.

Fixpoint chain_sources (chain_list : list string) (options : Azure.TransportOptions)
  : result (list Azure.TokenCredential) :=
  match chain_list with
  | [] => Ok []
  | item :: rest =>
      source ←
        (if String.eqb item "cli" then Ok (Azure.AzureCliCredential options)
         else if String.eqb item "managed_identity" then Ok (Azure.ManagedIdentityCredential options)
         else if String.eqb item "env" then Ok (Azure.EnvironmentCredential options)
         else if String.eqb item "default" then Ok (Azure.DefaultAzureCredential options)
         else Throw (InvalidInputException (unknown_credential_provider_message item)));
      sources ← chain_sources rest options;
      mret (source :: sources)
  end.

Definition CreateChainedTokenCredential (chain : string)
    (transport_options : Azure.TransportOptions) : result Azure.TokenCredential :=
  sources ← chain_sources (split_lines chain ";" EmptyString) transport_options;
  mret (Azure.ChainedTokenCredential sources).

Definition CreateClientCredential (tenant_id client_id client_secret client_certificate_path : string)
    (transport_options : Azure.TransportOptions) : result Azure.TokenCredential :=
  if negb (StdString.empty client_secret) then
    Ok (Azure.ClientSecretCredential tenant_id client_id client_secret transport_options)
  else if negb (StdString.empty client_certificate_path) then
    Ok (Azure.ClientCertificateCredential tenant_id client_id client_certificate_path
          transport_options)
  else Throw (InvalidInputException missing_client_credential_message).

Definition nonempty_opt (s : string) : option string :=
  if StdString.empty s then None else Some s.

Definition ca_bundle_candidates : list string :=
  [ "/etc/ssl/certs/ca-certificates.crt";
    "/etc/pki/tls/certs/ca-bundle.crt";
    "/etc/ssl/ca-bundle.pem";
    "/etc/pki/tls/cacert.pem";
    "/etc/pki/ca-trust/extracted/pem/tls-ca-bundle.pem";
    "/etc/ssl/cert.pem" ].

Definition CreateCurlTransport (proxy proxy_username proxy_password : string)
  : Azure.CurlTransportOptions :=
  let ca_info :=
    match getenv env "CURL_CA_INFO" with
    | Some ca => Some ca
    | None =>
        if negb (_WIN32 env) && negb (__APPLE__ env)
        then List.find (fopen_readable env) ca_bundle_candidates
        else None
    end in
  {| Azure.curl_Proxy := nonempty_opt proxy;
     Azure.curl_ProxyUsername := nonempty_opt proxy_username;
     Azure.curl_ProxyPassword := nonempty_opt proxy_password;
     Azure.curl_CAInfo := ca_info;
     Azure.curl_CAPath := getenv env "CURL_CA_PATH" |}.

Definition invalid_transport_message (transport_option_type : string) : string :=
  "transport_option_type cannot take value '" ++ transport_option_type ++ "'".

Definition GetTransportOptions (transport_option_type proxy proxy_username proxy_password : string)
  : result Azure.TransportOptions :=
  if String.eqb transport_option_type "default" then
    Ok {| Azure.HttpProxy := nonempty_opt proxy;
          Azure.ProxyUserName := nonempty_opt proxy_username;
          Azure.ProxyPassword := nonempty_opt proxy_password;
          Azure.Transport := None |}
  else if String.eqb transport_option_type "curl" then
    Ok {| Azure.HttpProxy := None;
          Azure.ProxyUserName := None;
          Azure.ProxyPassword := None;
          Azure.Transport := Some (CreateCurlTransport proxy proxy_username proxy_password) |}
  else Throw (InvalidInputException (invalid_transport_message transport_option_type)).

(** [GetTransportOptions(opener, secret)]: proxy settings of the secret, the
    [HTTP_PROXY] variable standing in for a missing [http_proxy]. *)
Definition GetTransportOptions_secret (opener : FileOpener) (secret : KeyValueSecret)
  : result Azure.TransportOptions :=
  let transport_option_type := TryGetCurrentSetting opener "azure_transport_option_type" in
  let http_proxy :=
    match TryGetValue secret "http_proxy" with
    | Some v => v
    | None => default "" (getenv env "HTTP_PROXY")
    end in
  let http_proxy_username := default "" (TryGetValue secret "proxy_user_name") in
  let http_proxy_password := default "" (TryGetValue secret "proxy_password") in
  GetTransportOptions transport_option_type http_proxy http_proxy_username http_proxy_password.

Definition GetStorageAccountClientFromConfigProvider (opener : FileOpener)
    (secret : KeyValueSecret) (provided_storage_account provided_endpoint : string)
  : result Azure.BlobServiceClient :=
  transport_options ← GetTransportOptions_secret opener secret;
  match TryGetValue secret "connection_string" with
  | Some connection_string =>
      matches ← ConnectionStringMatchStorageAccountName connection_string
                  provided_storage_account;
      if negb matches then
        Throw (InvalidInputException
                 (connection_string_mismatch_message provided_storage_account))
      else
        Ok (Azure.CreateFromConnectionString connection_string
              (ToBlobClientOptions transport_options (GetHttpState opener)))
  | None =>
      (* no connection string: public storage account *)
      account_url ← AccountUrl secret provided_storage_account provided_endpoint;
      mret (Azure.AnonymousClient account_url
              (ToBlobClientOptions transport_options (GetHttpState opener)))
  end.

Definition GetStorageAccountClientFromCredentialChainProvider (opener : FileOpener)
    (secret : KeyValueSecret) (provided_storage_account provided_endpoint : string)
  : result Azure.BlobServiceClient :=
  transport_options ← GetTransportOptions_secret opener secret;
  let chain := default "default" (TryGetValue secret "chain") in
  credential ← CreateChainedTokenCredential chain transport_options;
  account_url ← AccountUrl secret provided_storage_account provided_endpoint;
  mret (Azure.CredentialClient account_url credential
          (ToBlobClientOptions transport_options (GetHttpState opener))).

Definition GetStorageAccountClientFromServicePrincipalProvider (opener : FileOpener)
    (secret : KeyValueSecret) (provided_storage_account provided_endpoint : string)
  : result Azure.BlobServiceClient :=
  transport_options ← GetTransportOptions_secret opener secret;
  tenant_id ← TryGetValue_required secret "tenant_id";
  client_id ← TryGetValue_required secret "client_id";
  let client_secret := default "" (TryGetValue secret "client_secret") in
  let client_certificate_path := default "" (TryGetValue secret "client_certificate_path") in
  token_credential ← CreateClientCredential tenant_id client_id client_secret
                       client_certificate_path transport_options;
  account_url ← AccountUrl secret provided_storage_account provided_endpoint;
  mret (Azure.CredentialClient account_url token_credential
          (ToBlobClientOptions transport_options (GetHttpState opener))).

Definition unsupported_provider_message (provider : string) : string :=
  "Unsupported provider type " ++ provider ++ " for azure".

(** [GetStorageAccountClient(opener, secret, ...)]: dispatch on the secret's
    provider. *)
Definition GetStorageAccountClient_secret (opener : FileOpener) (secret : KeyValueSecret)
    (provided_storage_account provided_endpoint : string) : result Azure.BlobServiceClient :=
  if String.eqb (provider secret) "config" then
    GetStorageAccountClientFromConfigProvider opener secret provided_storage_account
      provided_endpoint
  else if String.eqb (provider secret) "credential_chain" then
    GetStorageAccountClientFromCredentialChainProvider opener secret provided_storage_account
      provided_endpoint
  else if String.eqb (provider secret) "service_principal" then
    GetStorageAccountClientFromServicePrincipalProvider opener secret provided_storage_account
      provided_endpoint
  else Throw (InvalidInputException (unsupported_provider_message (provider secret))).

Definition GetTransportOptions_opener (opener : FileOpener) : result Azure.TransportOptions :=
  GetTransportOptions
    (TryGetCurrentSetting opener "azure_transport_option_type")
    (TryGetCurrentSetting opener "azure_http_proxy")
    (TryGetCurrentSetting opener "azure_proxy_user_name")
    (TryGetCurrentSetting opener "azure_proxy_password").

(** [GetStorageAccountClient(opener, account, endpoint)]: the fallback on
    session variables when no secret matches. *)
Definition GetStorageAccountClient (opener : FileOpener)
    (provided_storage_account provided_endpoint : string) : result Azure.BlobServiceClient :=
  transport_options ← GetTransportOptions_opener opener;
  let blob_options := ToBlobClientOptions transport_options (GetHttpState opener) in
  let connection_string := TryGetCurrentSetting opener "azure_storage_connection_string" in
  use_connection_string ←
    (if negb (StdString.empty connection_string)
     then ConnectionStringMatchStorageAccountName connection_string provided_storage_account
     else Ok false);
  if (use_connection_string : bool) then
    Ok (Azure.CreateFromConnectionString connection_string blob_options)
  else
    let endpoint :=
      if StdString.empty provided_endpoint then
        let endpoint := TryGetCurrentSetting opener "azure_endpoint" in
        if StdString.empty endpoint then DEFAULT_ENDPOINT else endpoint
      else provided_endpoint in
    let azure_account_name :=
      if StdString.empty provided_storage_account
      then TryGetCurrentSetting opener "azure_account_name"
      else provided_storage_account in
    if StdString.empty azure_account_name then
      Throw (InvalidInputException no_credentials_message)
    else
      let account_url := ("https://" ++ azure_account_name ++ "." ++ endpoint)%string in
      let credential_chain := TryGetCurrentSetting opener "azure_credential_chain" in
      if negb (StdString.empty credential_chain) then
        credential ← CreateChainedTokenCredential credential_chain transport_options;
        mret (Azure.CredentialClient account_url credential blob_options)
      else Ok (Azure.AnonymousClient account_url blob_options).

Definition ConnectToStorageAccount (opener : FileOpener) (path : string)
    (azure_parsed_url : AzureParsedUrl.t) : result Azure.BlobServiceClient :=
  let from_variables :=
    GetStorageAccountClient opener
      (AzureParsedUrl.storage_account_name azure_parsed_url)
      (AzureParsedUrl.endpoint azure_parsed_url) in
  match client_context opener with
  | Some context =>
      match LookupSecret context path with
      | Some secret =>
          GetStorageAccountClient_secret opener secret
            (AzureParsedUrl.storage_account_name azure_parsed_url)
            (AzureParsedUrl.endpoint azure_parsed_url)
      | None => from_variables
      end
  | None => from_variables
  end.

End CredentialResolver.

(** ** Context cache *)

Module AzureReadOptions.
Record t : Type := Build {
  transfer_concurrency : Z;
  transfer_chunk_size : Z;
  buffer_size : Z
}.
End AzureReadOptions.

Definition ParseAzureReadOptions (opener : FileOpener) : AzureReadOptions.t :=
  AzureReadOptions.Build
    (default 5%Z (int_settings opener !! "azure_read_transfer_concurrency"))
    (default (1 * 1024 * 1024)%Z (int_settings opener !! "azure_read_transfer_chunk_size"))
    (default (1 * 1024 * 1024)%Z (int_settings opener !! "azure_read_buffer_size")).

Module AzureContextState.
Record t : Type := Build {
  read_options : AzureReadOptions.t;
  service_client : Azure.BlobServiceClient;
  is_valid : bool
}.

(** The constructor: a new context is valid. *)
Definition make (client : Azure.BlobServiceClient) (azure_read_options : AzureReadOptions.t) : t :=
  Build azure_read_options client true.

Definition IsValid (c : t) : bool := is_valid c.

Definition QueryEnd (c : t) : t := Build (read_options c) (service_client c) false.
End AzureContextState.

(** The mutable part of the client context. A [shared_ptr] is the address of
    the object it shares: [registered_state] maps an account name to an
    address, [contexts] holds the [AzureContextState] objects. An address
    that holds no [AzureContextState] stands for a registered state of
    another kind. *)
Record Session : Type := {
  registered_state : gmap string nat;
  contexts : gmap nat AzureContextState.t
}.

(** The addresses in use: those of the [AzureContextState] objects, and
    those that [registered_state] holds, for states of any kind. An address
    names an object: objects are never freed here, so that no address is
    used twice. *)
Definition in_use (σ : Session) : gset nat :=
  dom (contexts σ) ∪ map_img (registered_state σ).

(** [std::make_shared]: a new object at an address not in use. *)
Definition make_shared (c : AzureContextState.t) (σ : Session) : nat * Session :=
  let l := fresh (in_use σ) in
  (l, {| registered_state := registered_state σ; contexts := <[l := c]> (contexts σ) |}).

Definition register (key : string) (l : nat) (σ : Session) : Session :=
  {| registered_state := <[key := l]> (registered_state σ); contexts := contexts σ |}.

(** Modelled from the spec: the session-end event is raised by the host
    engine, which is not among the sources: "invalidated exactly once, at
    session end". The host calls [QueryEnd] on every state registered in the
    client context. *)
Definition session_end (σ : Session) : Session :=
  let registered := (map_to_list (registered_state σ)).*2 in
  {| registered_state := registered_state σ;
     contexts :=
       map_imap (fun l c =>
                   Some (if bool_decide (l ∈ registered)
                         then AzureContextState.QueryEnd c else c))
                (contexts σ) |}.

(** The [azure_context_caching] setting, on unless set otherwise. *)
Definition azure_context_caching (opener : FileOpener) : bool :=
  default true (bool_settings opener !! "azure_context_caching").

Section ContextCache.

Variable env : ProcessEnv.

Definition CreateStorageContext (opener : FileOpener) (path : string)
    (parsed_url : AzureParsedUrl.t) : result AzureContextState.t :=
  let azure_read_options := ParseAzureReadOptions opener in
  client ← ConnectToStorageAccount env opener path parsed_url;
  mret (AzureContextState.make client azure_read_options).

Definition GetOrCreateStorageContext (opener : FileOpener) (path : string)
    (parsed_url : AzureParsedUrl.t) (σ : Session) : result nat * Session :=
  let key := AzureParsedUrl.storage_account_name parsed_url in
  if azure_context_caching opener then
    match client_context opener with
    | None => (Throw (UndefinedBehaviour "client_context->registered_state"), σ)
    | Some _ =>
        match registered_state σ !! key with
        | None =>
            match CreateStorageContext opener path parsed_url with
            | Throw e => (Throw e, σ)
            | Ok c =>
                let '(result, σ1) := make_shared c σ in
                (Ok result, register key result σ1)
            end
        | Some l =>
            match contexts σ !! l with
            | None => (Throw (UndefinedBehaviour "static_cast<AzureContextState *>"), σ)
            | Some azure_context_state =>
                if negb (AzureContextState.IsValid azure_context_state) then
                  match CreateStorageContext opener path parsed_url with
                  | Throw e => (Throw e, σ)
                  | Ok c =>
                      let '(result, σ1) := make_shared c σ in
                      (Ok result, register key result σ1)
                  end
                else (Ok l, σ)
            end
        end
    end
  else
    match CreateStorageContext opener path parsed_url with
    | Throw e => (Throw e, σ)
    | Ok c =>
        let '(result, σ1) := make_shared c σ in
        (Ok result, σ1)
    end.

End ContextCache.

(** ** Read engine *)

Module FileFlags.
(** Modelled from the spec: the open flags (read, write, direct I/O) are the
    host engine's and are not among the sources; each is one bit of the
    flags byte. *)
Definition FILE_FLAGS_READ : Z := 1.
Definition FILE_FLAGS_WRITE : Z := 2.
Definition FILE_FLAGS_DIRECT_IO : Z := 4.
End FileFlags.

Record StorageException : Type := {
  ErrorCode : string;
  ReasonPhrase : string;
  Message : string
}.

(** What a call into the SDK throws: an [Azure::Storage::StorageException],
    or an exception of another type (a transport error, a failed
    authentication, ...), of which its [what()] is kept. *)
Inductive sdk_failure : Type :=
| StorageFailure (e : StorageException)
| OtherFailure (what : string).

Module AzureStorageFileHandle.
Record t : Type := Build {
  path : string;
  flags : Z;
  length : Z;
  last_modified : Z;
  (* Read info *)
  buffer_available : Z;
  buffer_idx : Z;
  file_offset : Z;
  buffer_start : Z;
  buffer_end : Z;
  read_options : AzureReadOptions.t
}.

(** The handle as the constructor leaves it once the blob size is known. *)
Definition make (path : string) (flags : Z) (blob_size : Z) (read_options : AzureReadOptions.t) : t :=
  Build path flags blob_size 0 0 0 0 0 0 read_options.

(** Assignment to the read-info fields; nothing else of a handle is ever
    written after construction. *)
Definition set_read_info (h : t) (available idx offset start end_ : Z) : t :=
  Build (path h) (flags h) (length h) (last_modified h)
        available idx offset start end_ (read_options h).

Definition set_file_offset (h : t) (offset : Z) : t :=
  set_read_info h (buffer_available h) (buffer_idx h) offset (buffer_start h) (buffer_end h).
End AzureStorageFileHandle.

Module ReadEngine.
Import AzureStorageFileHandle.

(** Where a ranged download writes: into the caller's buffer at an offset,
    or into the handle's read-ahead buffer. *)
Inductive destination : Type :=
| CallerBuffer (buffer_offset : Z)
| ReadBuffer.

(** What a read does besides updating the handle: ranged fetches, and copies
    out of the read-ahead buffer. *)
Inductive event : Type :=
| Fetch (file_offset : Z) (buffer_out : destination) (buffer_out_len : Z)
| Memcpy (buffer_offset : Z) (buffer_idx : Z) (len : Z).

Definition is_fetch (e : event) : bool :=
  match e with Fetch _ _ _ => true | Memcpy _ _ _ => false end.

Definition fetches (trace : list event) : list event := List.filter is_fetch trace.

Definition read_failed_message (path : string) (e : StorageException) : string :=
  "AzureStorageFileSystem Read to " ++ path ++ " failed with " ++ ErrorCode e
  ++ "Reason Phrase: " ++ ReasonPhrase e.

(** What [ReadRange] throws when the download has failed. *)
Definition download_exception (path : string) (failure : sdk_failure) : exception :=
  match failure with
  | StorageFailure e => IOException (read_failed_message path e)
  | OtherFailure what => OtherException what
  end.

Section Engine.

(** The blob client's [DownloadTo] for a range [(Offset, Length)]: it
    succeeds, or throws. *)
Variable DownloadTo : Z -> Z -> option sdk_failure.

(** [ReadRange]: only a [StorageException] is caught and turned into an
    [IOException]; any other exception of the download leaves the function
    as it was thrown. *)
Definition ReadRange (afh : t) (file_offset : Z) (buffer_out : destination)
    (buffer_out_len : Z) : result unit * list event :=
  (match DownloadTo (U64.to_int64 file_offset) buffer_out_len with
   | None => Ok tt
   | Some failure => Throw (download_exception (path afh) failure)
   end,
   [Fetch file_offset buffer_out buffer_out_len]).

Definition Seek (handle : t) (location : Z) : t := set_file_offset handle location.

(** The copy out of the read-ahead buffer at the head of the loop body:
    [buffer_read_len] bytes go to the caller at [buffer_offset], and the
    cursor, the available count, the file offset and the loop's counters
    move by as much. *)
Definition copy_from_buffer (hfh : t) (to_read buffer_offset : Z) (trace : list event)
    : t * Z * Z * list event :=
  let buffer_read_len := Z.min (buffer_available hfh) to_read in
  if (0 <? buffer_read_len)%Z then
    (set_read_info hfh
       (U64.sub (buffer_available hfh) buffer_read_len)
       (U64.add (buffer_idx hfh) buffer_read_len)
       (U64.add (file_offset hfh) buffer_read_len)
       (buffer_start hfh) (buffer_end hfh),
     U64.sub to_read buffer_read_len,
     U64.add buffer_offset buffer_read_len,
     trace ++ [Memcpy buffer_offset (buffer_idx hfh) buffer_read_len])
  else (hfh, to_read, buffer_offset, trace).

(** What a refill of the whole buffer would provide at the handle's file
    offset. *)
Definition new_buffer_available (hfh : t) : Z :=
  Z.min (AzureReadOptions.buffer_size (read_options hfh))
        (U64.sub (length hfh) (file_offset hfh)).

(** The [while (to_read > 0)] loop of the offset form of [Read]. One unit of
    fuel is one iteration; [None] is running out of fuel. *)
Fixpoint Read_loop (fuel : nat) (location : Z) (hfh : t) (to_read buffer_offset : Z)
    (trace : list event) : option (result unit * t * list event) :=
  if negb (0 <? to_read)%Z then Some (Ok tt, hfh, trace)
  else
    match fuel with
    | O => None
    | S fuel' =>
        let '(hfh, to_read, buffer_offset, trace) :=
          copy_from_buffer hfh to_read buffer_offset trace in
        if (0 <? to_read)%Z && (buffer_available hfh =? 0)%Z then
          if (new_buffer_available hfh <? to_read)%Z then
            (* Bypass buffer if we read more than buffer size *)
            let '(r, ev) := ReadRange hfh (U64.add location buffer_offset)
                              (CallerBuffer buffer_offset) to_read in
            match r with
            | Throw e => Some (Throw e, hfh, trace ++ ev)
            | Ok _ =>
                Some (Ok tt,
                      set_read_info hfh 0 0 (U64.add (file_offset hfh) to_read)
                        (buffer_start hfh) (buffer_end hfh),
                      trace ++ ev)
            end
          else
            let '(r, ev) := ReadRange hfh (file_offset hfh) ReadBuffer
                              (new_buffer_available hfh) in
            match r with
            | Throw e => Some (Throw e, hfh, trace ++ ev)
            | Ok _ =>
                Read_loop fuel' location
                  (set_read_info hfh (new_buffer_available hfh) 0 (file_offset hfh)
                     (file_offset hfh)
                     (U64.add (file_offset hfh) (new_buffer_available hfh)))
                  to_read buffer_offset (trace ++ ev)
            end
        else Read_loop fuel' location hfh to_read buffer_offset trace
    end.

(** The positioning step of the buffered path: inside the buffer window the
    cursor and the available count are recomputed, outside the window is
    invalidated. *)
Definition position (hfh : t) (location : Z) : t :=
  if (buffer_start hfh <=? location)%Z && (location <? buffer_end hfh)%Z then
    let idx := U64.sub location (buffer_start hfh) in
    set_read_info hfh
      (U64.sub (U64.sub (buffer_end hfh) (buffer_start hfh)) idx)
      idx location (buffer_start hfh) (buffer_end hfh)
  else
    set_read_info hfh 0 0 location (buffer_start hfh) (buffer_end hfh).

Definition direct_io (hfh : t) : bool :=
  negb (Z.land (flags hfh) FileFlags.FILE_FLAGS_DIRECT_IO =? 0)%Z.

(** [Read(handle, buffer, nr_bytes, location)]. [nr_bytes] is an [int64_t],
    [location] an [idx_t]. *)
Definition Read (fuel : nat) (hfh : t) (nr_bytes : Z) (location : Z)
    : option (result unit * t * list event) :=
  let to_read := U64.wrap nr_bytes in
  if direct_io hfh && (0 <? to_read)%Z then
    (* Don't buffer when DirectIO is set. *)
    let '(r, ev) := ReadRange hfh location (CallerBuffer 0) to_read in
    match r with
    | Throw e => Some (Throw e, hfh, ev)
    | Ok _ =>
        Some (Ok tt,
              set_read_info hfh 0 0 (U64.wrap (location + nr_bytes))
                (buffer_start hfh) (buffer_end hfh),
              ev)
    end
  else Read_loop fuel location (position hfh location) to_read 0 [].

(** [Read(handle, buffer, nr_bytes)]: the form that reads at the handle's
    current offset and returns the byte count. *)
Definition Read_at_offset (fuel : nat) (hfh : t) (nr_bytes : Z)
    : option (result Z * t * list event) :=
  let max_read := U64.sub (length hfh) (file_offset hfh) in
  let nr_bytes := U64.to_int64 (Z.min max_read (U64.wrap nr_bytes)) in
  match Read fuel hfh nr_bytes (file_offset hfh) with
  | None => None
  | Some (Ok _, hfh', trace) => Some (Ok nr_bytes, hfh', trace)
  | Some (Throw e, hfh', trace) => Some (Throw e, hfh', trace)
  end.

End Engine.

(** The values an [idx_t] can hold, and the handles whose fields are. *)
Definition idx_t (z : Z) : Prop := (0 <= z < U64.modulus)%Z.

Definition well_typed (h : t) : Prop :=
  idx_t (length h) /\ idx_t (buffer_available h) /\ idx_t (buffer_idx h)
  /\ idx_t (file_offset h) /\ idx_t (buffer_start h) /\ idx_t (buffer_end h)
  /\ idx_t (AzureReadOptions.buffer_size (read_options h)).

(** The values an [int64_t] can hold. *)
Definition int64_t (z : Z) : Prop := (- 2 ^ 63 <= z < 2 ^ 63)%Z.

End ReadEngine.

(** ** Sample inputs *)

Module Samples.

(** A download oracle that always succeeds. *)
Definition download_ok : Z -> Z -> option sdk_failure := fun _ _ => None.

(** A 100-byte blob opened for reading with a 10-byte read-ahead buffer. *)
Definition small_buffer_options : AzureReadOptions.t := AzureReadOptions.Build 5 10 10.

Definition fresh_handle : AzureStorageFileHandle.t :=
  AzureStorageFileHandle.make "az://container/blob" FileFlags.FILE_FLAGS_READ 100
    small_buffer_options.

(** The same handle after a first read of 10 bytes at offset 0: the window
    is [[0, 10)] and fully consumed. *)
Definition handle_after_first_read : AzureStorageFileHandle.t :=
  AzureStorageFileHandle.Build "az://container/blob" FileFlags.FILE_FLAGS_READ 100 0
    0 10 10 0 10 small_buffer_options.

End Samples.

(** ** Listing and glob driver *)

Module Listing.

Record ListBlobsOptions : Type := {
  Prefix : string;
  ContinuationToken : option string
}.

(** A page of a listing: the names of the blobs and, when more remain, the
    token of the next page. *)
Record ListBlobsPagedResponse : Type := {
  Blobs : list string;
  NextPageToken : option string
}.

(** The blobs of a sequence of requested pages, in listing order. *)
Definition listed (pages : list (ListBlobsOptions * ListBlobsPagedResponse)) : list string :=
  flat_map (fun page => Blobs (snd page)) pages.

Definition missing_opener_message : string :=
  "Cannot do Azure storage Glob without FileOpener".

Definition list_failed_message (path : string) (e : StorageException) : string :=
  "AzureStorageFileSystem Read to " ++ path ++ " failed with " ++ ErrorCode e
  ++ " Reason Phrase: " ++ ReasonPhrase e.

(** The characters whose presence makes [Glob] list the container. *)
Definition wildcard_chars : string := "*[\".

Section Driver.

Variable env : ProcessEnv.

(** The per-segment matcher ([LikeFun::Glob]). *)
Variable SegmentGlob : string -> string -> bool.

(** The container client's [ListBlobs]: a page, or a failure. The service
    client and the container name identify the container. *)
Variable ListBlobs :
  Azure.BlobServiceClient -> string -> ListBlobsOptions ->
  sdk_failure + ListBlobsPagedResponse.

(** The keys of a page that match the pattern, as fully-qualified URLs. *)
Definition matching_urls (azure_url : AzureParsedUrl.t) (pattern_splits : list string)
    (blobs : list string) : list string :=
  List.map (result_full_url azure_url)
    (List.filter
       (fun key => Match SegmentGlob (StringUtil.Split key "/") pattern_splits)
       blobs).

(** What [Glob] throws when a listing call has failed: the [IOException] it
    makes of a [StorageException]; any other exception as it was thrown. *)
Definition listing_exception (path : string) (failure : sdk_failure) : exception :=
  match failure with
  | StorageFailure e => IOException (list_failed_message path e)
  | OtherFailure what => OtherException what
  end.

(** The [while (true)] pagination loop; the trace lists the options of every
    [ListBlobs] call, in order. One unit of fuel is one iteration. *)
Fixpoint Glob_loop (fuel : nat) (path : string) (client : Azure.BlobServiceClient)
    (azure_url : AzureParsedUrl.t) (pattern_splits : list string)
    (options : ListBlobsOptions) (found : list string) (trace : list ListBlobsOptions)
    : option (result (list string) * list ListBlobsOptions) :=
  match fuel with
  | O => None
  | S fuel' =>
      match ListBlobs client (AzureParsedUrl.container azure_url) options with
      | inl failure => Some (Throw (listing_exception path failure), trace ++ [options])
      | inr res =>
          let found := found ++ matching_urls azure_url pattern_splits (Blobs res) in
          match NextPageToken res with
          | Some token =>
              Glob_loop fuel' path client azure_url pattern_splits
                {| Prefix := Prefix options; ContinuationToken := Some token |}
                found (trace ++ [options])
          | None => Some (Ok found, trace ++ [options])
          end
      end
  end.

(** The pages a listing walks through from given options: each page is
    requested with the continuation token of the page before, and the walk
    ends at the first page without a token. *)
Inductive pagination (client : Azure.BlobServiceClient) (container : string)
  : ListBlobsOptions -> list (ListBlobsOptions * ListBlobsPagedResponse) -> Prop :=
| pagination_last options res :
    ListBlobs client container options = inr res ->
    NextPageToken res = None ->
    pagination client container options [(options, res)]
| pagination_next options res token pages :
    ListBlobs client container options = inr res ->
    NextPageToken res = Some token ->
    pagination client container
      {| Prefix := Prefix options; ContinuationToken := Some token |} pages ->
    pagination client container options ((options, res) :: pages).

(** [AzureStorageFileSystem::Glob(path, opener)]. The result comes with the
    session as the context lookup leaves it and with the trace of listing
    calls. *)
Definition Glob (fuel : nat) (path : string) (opener : option FileOpener) (σ : Session)
    : option (result (list string) * Session * list ListBlobsOptions) :=
  match opener with
  | None => Some (Throw (InternalException missing_opener_message), σ, [])
  | Some opener =>
      match ParseUrl path with
      | Throw e => Some (Throw e, σ, [])
      | Ok azure_url =>
          match GetOrCreateStorageContext env opener path azure_url σ with
          | (Throw e, σ1) => Some (Throw e, σ1, [])
          | (Ok storage_context, σ1) =>
              match StdString.find_first_of (AzureParsedUrl.path azure_url) wildcard_chars with
              | None => Some (Ok [path], σ1, [])
              | Some first_wildcard_pos =>
                  let shared_path :=
                    StdString.substr (AzureParsedUrl.path azure_url) 0 first_wildcard_pos in
                  match contexts σ1 !! storage_context with
                  | None => Some (Throw (UndefinedBehaviour "storage_context"), σ1, [])
                  | Some ctx =>
                      let pattern_splits :=
                        StringUtil.Split (AzureParsedUrl.path azure_url) "/" in
                      match Glob_loop fuel path (AzureContextState.service_client ctx)
                              azure_url pattern_splits
                              {| Prefix := shared_path; ContinuationToken := None |} [] [] with
                      | None => None
                      | Some (r, trace) => Some (r, σ1, trace)
                      end
                  end
              end
          end
      end
  end.

End Driver.
End Listing.

(** ** The error taxonomy of the specification

    The specification names kinds of failure; the code throws exceptions
    with messages. A kind is the set of exceptions thrown at the sites the
    specification files under it. *)

Module ErrorKind.

Definition InvalidFormat (e : exception) : Prop :=
  e = IOException invalid_scheme_message
  \/ exists url, e = IOException (invalid_url_format url).

Definition MissingField (e : exception) : Prop :=
  exists key, e = missing_field key.

Definition InvalidConfig (e : exception) : Prop :=
  e = InvalidInputException missing_client_credential_message
  \/ exists item, e = InvalidInputException (unknown_credential_provider_message item).

Definition InvalidCredentials (e : exception) : Prop :=
  e = InvalidInputException invalid_connection_string_message
  \/ exists account, e = InvalidInputException (connection_string_mismatch_message account).

End ErrorKind.

(** The opener with the [azure_storage_connection_string] setting removed. *)
Definition without_connection_string (opener : FileOpener) : FileOpener :=
  {| bool_settings := bool_settings opener;
     int_settings := int_settings opener;
     string_settings := delete "azure_storage_connection_string" (string_settings opener);
     client_context := client_context opener;
     http_state := http_state opener |}.

(** The text of a connection string that follows its first [AccountName=],
    cut to the length of the requested account name: what
    [ConnectionStringMatchStorageAccountName] compares with that name. *)
Definition account_name_field (connection_string provided_storage_account : string)
    : option string :=
  match StdString.find connection_string "AccountName=" 0 with
  | None => None
  | Some pos =>
      Some (StdString.substr connection_string (pos + 12)
              (String.length provided_storage_account))
  end.

(** ** Sample session *)

Module SessionSamples.

Definition env : ProcessEnv :=
  {| getenv := fun _ => None; fopen_readable := fun _ => false;
     _WIN32 := false; __APPLE__ := false |}.

Definition no_secrets : ClientContext := {| LookupSecret := fun _ => None |}.

(** An opener with the default transport and nothing else set: context
    caching is on by default. *)
Definition opener : FileOpener :=
  {| bool_settings := ∅;
     int_settings := ∅;
     string_settings := {[ "azure_transport_option_type" := "default" ]};
     client_context := Some no_secrets;
     http_state := None |}.

(** The same opener with context caching switched off. *)
Definition opener_no_caching : FileOpener :=
  {| bool_settings := {[ "azure_context_caching" := false ]};
     int_settings := ∅;
     string_settings := {[ "azure_transport_option_type" := "default" ]};
     client_context := Some no_secrets;
     http_state := None |}.

Definition path : string := "az://acct.ep/container/data/**/*.csv".

Definition parsed_url : AzureParsedUrl.t :=
  AzureParsedUrl.Build "container" "acct" "ep" "az://" "data/**/*.csv".

Definition empty_session : Session := {| registered_state := ∅; contexts := ∅ |}.

(** The client the resolver builds for [acct.ep] with that opener: no secret,
    no connection string, no credential chain. *)
Definition client : Azure.BlobServiceClient :=
  Azure.AnonymousClient "https://acct.ep"
    {| Azure.blob_Transport :=
         {| Azure.HttpProxy := None; Azure.ProxyUserName := None;
            Azure.ProxyPassword := None; Azure.Transport := None |};
       Azure.PerOperationPolicies := [] |}.

Definition context : AzureContextState.t :=
  AzureContextState.make client
    (AzureReadOptions.Build 5 (1 * 1024 * 1024) (1 * 1024 * 1024)).

(** A URL of the short shape: it names no account, and the sample opener
    has no account name set either. *)
Definition short_url : AzureParsedUrl.t :=
  AzureParsedUrl.Build "container" "" "" "az://" "blob".

(** A connection string for another account than [acct]. *)
Definition other_connection_string : string :=
  "DefaultEndpointsProtocol=https;AccountName=other;AccountKey=a2V5;EndpointSuffix=core.windows.net".

(** The opener with that connection string among the session settings. *)
Definition opener_with_connection_string : FileOpener :=
  {| bool_settings := ∅;
     int_settings := ∅;
     string_settings :=
       {[ "azure_transport_option_type" := "default";
          "azure_storage_connection_string" := other_connection_string ]};
     client_context := Some no_secrets;
     http_state := None |}.

(** A [config] secret carrying that connection string. *)
Definition config_secret : KeyValueSecret :=
  {| provider := "config";
     secret_map := {[ "connection_string" := other_connection_string ]} |}.

(** A [service_principal] secret with tenant and client but neither a client
    secret nor a certificate path. *)
Definition service_principal_secret : KeyValueSecret :=
  {| provider := "service_principal";
     secret_map := {[ "tenant_id" := "tenant"; "client_id" := "client" ]} |}.

(** A [service_principal] secret with a client secret but no tenant id. *)
Definition service_principal_without_tenant : KeyValueSecret :=
  {| provider := "service_principal";
     secret_map := {[ "client_id" := "client"; "client_secret" := "secret" ]} |}.

Definition default_blob_options : Azure.BlobClientOptions :=
  {| Azure.blob_Transport :=
       {| Azure.HttpProxy := None; Azure.ProxyUserName := None;
          Azure.ProxyPassword := None; Azure.Transport := None |};
     Azure.PerOperationPolicies := [] |}.

(** A container listing in two pages: under the prefix [data/] the first
    page has two blobs and a continuation token, the second page one blob
    and no token. *)
Definition ListBlobs (client : Azure.BlobServiceClient) (container : string)
    (options : Listing.ListBlobsOptions)
    : sdk_failure + Listing.ListBlobsPagedResponse :=
  if String.eqb container "container" && String.eqb (Listing.Prefix options) "data/" then
    match Listing.ContinuationToken options with
    | None =>
        inr {| Listing.Blobs := ["data/a/x.csv"; "data/a/x.parquet"];
               Listing.NextPageToken := Some "page-2" |}
    | Some token =>
        if String.eqb token "page-2" then
          inr {| Listing.Blobs := ["data/b/c/y.csv"]; Listing.NextPageToken := None |}
        else inl (StorageFailure {| ErrorCode := "InvalidQueryParameterValue";
                                    ReasonPhrase := "Bad Request"; Message := "" |})
    end
  else inl (StorageFailure {| ErrorCode := "ContainerNotFound"; ReasonPhrase := "Not Found";
                              Message := "" |}).

(** A path whose only wildcard is a question mark. *)
Definition question_mark_path : string := "az://acct.ep/container/data/file?.csv".

Definition question_mark_url : AzureParsedUrl.t :=
  AzureParsedUrl.Build "container" "acct" "ep" "az://" "data/file?.csv".

(** The sample path under the other scheme spelling. *)
Definition path_azure : string := "azure://acct.ep/container/data/**/*.csv".

Definition first_page_options : Listing.ListBlobsOptions :=
  {| Listing.Prefix := "data/"; Listing.ContinuationToken := None |}.

Definition second_page_options : Listing.ListBlobsOptions :=
  {| Listing.Prefix := "data/"; Listing.ContinuationToken := Some "page-2" |}.

(** The session after a first lookup for [acct]: the context is at address
    0 and registered under the account name. *)
Definition session_after_lookup : Session :=
  {| registered_state := {[ "acct" := 0%nat ]}; contexts := {[ 0%nat := context ]} |}.

End SessionSamples.

(** ** File names the filesystem claims, and the shapes of URL *)

(** [AzureStorageFileSystem::CanHandleFile]. *)
Definition CanHandleFile (fpath : string) : bool :=
  Z.eqb (U64.mul (StdString.rfind0 fpath "azure://") (StdString.rfind0 fpath "az://")) 0.

(** A parsed URL with another blob path: what a key found by a listing is
    under the container of the pattern. *)
Definition with_path (u : AzureParsedUrl.t) (key : string) : AzureParsedUrl.t :=
  AzureParsedUrl.Build (AzureParsedUrl.container u) (AzureParsedUrl.storage_account_name u)
    (AzureParsedUrl.endpoint u) (AzureParsedUrl.prefix u) key.

(** The two shapes of URL the error message of [ParseUrl] speaks of, as
    relations between a URL and its parts. *)
Definition short_shape (url : string) (u : AzureParsedUrl.t) : Prop :=
  valid_scheme (AzureParsedUrl.prefix u)
  /\ AzureParsedUrl.storage_account_name u = ""
  /\ AzureParsedUrl.endpoint u = ""
  /\ AzureParsedUrl.container u ≠ ""
  /\ StdString.mem_char "/" (AzureParsedUrl.container u) = false
  /\ StdString.mem_char "." (AzureParsedUrl.container u) = false
  /\ url = (AzureParsedUrl.prefix u ++ AzureParsedUrl.container u
            ++ String "/" (AzureParsedUrl.path u))%string.

Definition fully_qualified_shape (url : string) (u : AzureParsedUrl.t) : Prop :=
  valid_scheme (AzureParsedUrl.prefix u)
  /\ StdString.mem_char "." (AzureParsedUrl.storage_account_name u) = false
  /\ StdString.mem_char "/" (AzureParsedUrl.storage_account_name u) = false
  /\ StdString.mem_char "/" (AzureParsedUrl.endpoint u) = false
  /\ StdString.mem_char "/" (AzureParsedUrl.container u) = false
  /\ url = (AzureParsedUrl.prefix u ++ AzureParsedUrl.storage_account_name u
            ++ String "." (AzureParsedUrl.endpoint u
            ++ String "/" (AzureParsedUrl.container u
            ++ String "/" (AzureParsedUrl.path u))))%string.

(** ** Listings that honour the prefix *)

(** A container with three blobs, listed in one page: the answer to a
    request is the blobs whose names start with the prefix asked for. *)
Definition ListBlobs_by_prefix (client : Azure.BlobServiceClient) (container : string)
    (options : Listing.ListBlobsOptions)
    : sdk_failure + Listing.ListBlobsPagedResponse :=
  inr {| Listing.Blobs :=
           List.filter (String.prefix (Listing.Prefix options))
             ["data/fil?/y.csv"; "data/file/x.csv"; "data/file1.csv"];
         Listing.NextPageToken := None |}.

(** The sample opener with the account name among the session settings. *)
Definition opener_with_account_name : FileOpener :=
  {| bool_settings := ∅;
     int_settings := ∅;
     string_settings :=
       {[ "azure_transport_option_type" := "default"; "azure_account_name" := "acct" ]};
     client_context := Some SessionSamples.no_secrets;
     http_state := None |}.

(** ** Listings that fail *)

(** The requests of a listing walk that ends on a failure: every page but
    the last is answered with a continuation token, the last request
    fails. *)
Inductive pagination_fails
    (ListBlobs : Azure.BlobServiceClient -> string -> Listing.ListBlobsOptions ->
                 sdk_failure + Listing.ListBlobsPagedResponse)
    (client : Azure.BlobServiceClient) (container : string)
  : Listing.ListBlobsOptions -> list Listing.ListBlobsOptions -> sdk_failure -> Prop :=
| pagination_fails_here options e :
    ListBlobs client container options = inl e ->
    pagination_fails ListBlobs client container options [options] e
| pagination_fails_later options res token requests e :
    ListBlobs client container options = inr res ->
    Listing.NextPageToken res = Some token ->
    pagination_fails ListBlobs client container
      {| Listing.Prefix := Listing.Prefix options;
         Listing.ContinuationToken := Some token |} requests e ->
    pagination_fails ListBlobs client container options (options :: requests) e.

(** A container whose listing answers the first page and fails on the
    second. *)
Definition ListBlobs_failing_second_page (client : Azure.BlobServiceClient)
    (container : string) (options : Listing.ListBlobsOptions)
    : sdk_failure + Listing.ListBlobsPagedResponse :=
  match Listing.ContinuationToken options with
  | None =>
      inr {| Listing.Blobs := ["data/a/x.csv"]; Listing.NextPageToken := Some "page-2" |}
  | Some _ =>
      inl (StorageFailure {| ErrorCode := "ServerBusy"; ReasonPhrase := "Service Unavailable";
                             Message := "" |})
  end.

(** ** Outcomes of a read, and the bytes it moves *)

Module ReadOutcome.
Import AzureStorageFileHandle ReadEngine.
Local Open Scope Z_scope.

(** The handle once the bytes left in the read-ahead buffer have been copied
    out. *)
Definition drained (hfh : t) : t :=
  set_read_info hfh 0
    (U64.add (buffer_idx hfh) (buffer_available hfh))
    (U64.add (file_offset hfh) (buffer_available hfh))
    (buffer_start hfh) (buffer_end hfh).

(** What the loop of [Read] does from an exhausted buffer with [to_read]
    bytes still required: the result, the handle and the events. *)
Inductive exhausted_outcome (location : Z) (hfh : t) (to_read buffer_offset : Z)
  : result unit -> t -> list event -> Prop :=
| bypass_ok :
    new_buffer_available hfh < to_read ->
    exhausted_outcome location hfh to_read buffer_offset (Ok tt)
      (set_read_info hfh 0 0 (U64.add (file_offset hfh) to_read)
         (buffer_start hfh) (buffer_end hfh))
      [Fetch (U64.add location buffer_offset) (CallerBuffer buffer_offset) to_read]
| bypass_failed e :
    new_buffer_available hfh < to_read ->
    exhausted_outcome location hfh to_read buffer_offset (Throw e) hfh
      [Fetch (U64.add location buffer_offset) (CallerBuffer buffer_offset) to_read]
| refill_ok :
    to_read <= new_buffer_available hfh ->
    exhausted_outcome location hfh to_read buffer_offset (Ok tt)
      (set_read_info hfh (new_buffer_available hfh - to_read)
         (U64.add 0 to_read) (U64.add (file_offset hfh) to_read)
         (file_offset hfh) (U64.add (file_offset hfh) (new_buffer_available hfh)))
      [Fetch (file_offset hfh) ReadBuffer (new_buffer_available hfh);
       Memcpy buffer_offset 0 to_read]
| refill_failed e :
    to_read <= new_buffer_available hfh ->
    exhausted_outcome location hfh to_read buffer_offset (Throw e) hfh
      [Fetch (file_offset hfh) ReadBuffer (new_buffer_available hfh)].

(** The ways a call of the offset form of [Read] for [nr_bytes >= 0] bytes
    ends. *)
Inductive read_outcome (hfh : t) (nr_bytes location : Z)
  : result unit -> t -> list event -> Prop :=
| direct_ok :
    direct_io hfh = true -> 0 < nr_bytes ->
    read_outcome hfh nr_bytes location (Ok tt)
      (set_read_info hfh 0 0 (U64.wrap (location + nr_bytes))
         (buffer_start hfh) (buffer_end hfh))
      [Fetch location (CallerBuffer 0) nr_bytes]
| direct_failed e :
    direct_io hfh = true -> 0 < nr_bytes ->
    read_outcome hfh nr_bytes location (Throw e) hfh
      [Fetch location (CallerBuffer 0) nr_bytes]
| nothing_to_read :
    nr_bytes = 0 ->
    read_outcome hfh nr_bytes location (Ok tt) (position hfh location) []
| from_buffer :
    direct_io hfh = false ->
    0 < nr_bytes <= buffer_available (position hfh location) ->
    read_outcome hfh nr_bytes location (Ok tt)
      (set_read_info (position hfh location)
         (buffer_available (position hfh location) - nr_bytes)
         (U64.add (buffer_idx (position hfh location)) nr_bytes)
         (U64.add (file_offset (position hfh location)) nr_bytes)
         (buffer_start (position hfh location)) (buffer_end (position hfh location)))
      [Memcpy 0 (buffer_idx (position hfh location)) nr_bytes]
| exhausted r hfh' trace :
    direct_io hfh = false ->
    buffer_available (position hfh location) = 0 -> 0 < nr_bytes ->
    exhausted_outcome location (position hfh location) nr_bytes 0 r hfh' trace ->
    read_outcome hfh nr_bytes location r hfh' trace
| buffer_then_exhausted r hfh' trace :
    direct_io hfh = false ->
    0 < buffer_available (position hfh location) < nr_bytes ->
    exhausted_outcome location (drained (position hfh location))
      (nr_bytes - buffer_available (position hfh location))
      (buffer_available (position hfh location)) r hfh' trace ->
    read_outcome hfh nr_bytes location r hfh'
      (Memcpy 0 (buffer_idx (position hfh location))
         (buffer_available (position hfh location)) :: trace).

(** The window of the read-ahead buffer is no larger than the buffer. *)
Definition window_fits (hfh : t) : Prop :=
  buffer_end hfh - buffer_start hfh <= AzureReadOptions.buffer_size (read_options hfh).

(** An event stays inside the [nr_bytes] bytes of the caller's buffer and
    the [buffer_size] bytes of the read-ahead buffer. *)
Definition event_in_bounds (nr_bytes buffer_size : Z) (e : event) : Prop :=
  match e with
  | Fetch _ (CallerBuffer buffer_offset) len =>
      0 <= buffer_offset /\ 0 <= len /\ buffer_offset + len <= nr_bytes
  | Fetch _ ReadBuffer len => 0 <= len <= buffer_size
  | Memcpy buffer_offset buffer_idx len =>
      0 <= buffer_offset /\ 0 <= len /\ buffer_offset + len <= nr_bytes
      /\ 0 <= buffer_idx /\ buffer_idx + len <= buffer_size
  end.

Section Memory.

(** The bytes: of the blob at each offset, of the caller's buffer and of the
    read-ahead buffer at each index. *)
Variable byte : Type.
Variable blob : Z -> byte.

Record memory : Type := {
  caller_buffer : Z -> byte;
  read_buffer : Z -> byte
}.

(** [len] bytes of [src] written at index [at_]. *)
Definition write_range (buffer : Z -> byte) (at_ len : Z) (src : Z -> byte) : Z -> byte :=
  fun k => if (at_ <=? k) && (k <? at_ + len) then src (k - at_) else buffer k.

(** What an event does to the two buffers: a ranged download that succeeds
    delivers the bytes of the blob in that range, a copy moves bytes of the
    read-ahead buffer to the caller's buffer. *)
Definition apply_event (m : memory) (e : event) : memory :=
  match e with
  | Fetch file_offset (CallerBuffer buffer_offset) len =>
      {| caller_buffer :=
           write_range (caller_buffer m) buffer_offset len (fun i => blob (file_offset + i));
         read_buffer := read_buffer m |}
  | Fetch file_offset ReadBuffer len =>
      {| caller_buffer := caller_buffer m;
         read_buffer := write_range (read_buffer m) 0 len (fun i => blob (file_offset + i)) |}
  | Memcpy buffer_offset buffer_idx len =>
      {| caller_buffer :=
           write_range (caller_buffer m) buffer_offset len
             (fun i => read_buffer m (buffer_idx + i));
         read_buffer := read_buffer m |}
  end.

Definition run (trace : list event) (m : memory) : memory :=
  List.fold_left apply_event trace m.

(** The read-ahead buffer holds the bytes of the blob in the window. *)
Definition buffer_valid (hfh : t) (m : memory) : Prop :=
  forall i, 0 <= i < buffer_end hfh - buffer_start hfh ->
            read_buffer m i = blob (buffer_start hfh + i).

End Memory.

Arguments caller_buffer {byte} m _.
Arguments read_buffer {byte} m _.
Arguments write_range {byte} buffer at_ len src _.
Arguments apply_event {byte} blob m e.
Arguments run {byte} blob trace m.
Arguments buffer_valid {byte} blob hfh m.

End ReadOutcome.

(** An event whose download, if it is one, succeeds. *)
Definition download_succeeds (DownloadTo : Z -> Z -> option sdk_failure)
    (e : ReadEngine.event) : Prop :=
  match e with
  | ReadEngine.Fetch file_offset _ len => DownloadTo (U64.to_int64 file_offset) len = None
  | ReadEngine.Memcpy _ _ _ => True
  end.

(** A download and a listing that never reach the service: the transport
    throws. *)
Definition download_unreachable (offset len : Z) : option sdk_failure :=
  Some (OtherFailure "Couldn't resolve host name").

Definition ListBlobs_unreachable (client : Azure.BlobServiceClient) (container : string)
    (options : Listing.ListBlobsOptions)
    : sdk_failure + Listing.ListBlobsPagedResponse :=
  inl (OtherFailure "Couldn't resolve host name").

(** A download oracle that fails for ranges that start at offset 10. *)
Definition download_fails_at_10 (offset len : Z) : option sdk_failure :=
  if (offset =? 10)%Z
  then Some (StorageFailure {| ErrorCode := "ServerBusy";
                               ReasonPhrase := "Service Unavailable"; Message := "" |})
  else None.

(** ** Opening files *)

Module FileSystem.
Import AzureStorageFileHandle.

Definition open_failed_message (path : string) (e : StorageException) : string :=
  "AzureStorageFileSystem open file '" ++ path ++ "' failed with code'" ++ ErrorCode e
  ++ "',Reason Phrase: '" ++ ReasonPhrase e ++ "', Message: '" ++ Message e ++ "'".

Definition open_unknown_error_message (path what : string) : string :=
  "AzureStorageFileSystem could not open file: '" ++ path
  ++ "', unknown error occurred, this could mean the credentials used were wrong. Original error message: '"
  ++ what ++ "' ".

Definition missing_opener_message : string :=
  "Cannot do Azure storage CreateHandle without FileOpener".

Definition write_not_supported_message : string :=
  "Writing to Azure containers is currently not supported".

Definition file_sync_message : string :=
  "FileSync for Azure Storage files not implemented".

(** A [GetProperties] call: the service client, the container and the blob
    it is made on. *)
Record properties_request : Type := {
  request_client : Azure.BlobServiceClient;
  request_container : string;
  request_blob : string
}.

(** What the constructor of a handle does besides filling its fields: the
    [GetProperties] call, and [new data_t[size]] for the read-ahead
    buffer. *)
Inductive open_event : Type :=
| GetPropertiesCall (request : properties_request)
| NewReadBuffer (size : Z).

Definition has_read_flag (flags : Z) : bool :=
  negb (Z.land flags FileFlags.FILE_FLAGS_READ =? 0)%Z.

(** Nothing of a handle but its read-info fields differs. *)
Definition same_file (h h' : t) : Prop :=
  path h' = path h /\ flags h' = flags h /\ length h' = length h
  /\ last_modified h' = last_modified h /\ read_options h' = read_options h.

(** [GetFileSize]: the length as an [int64_t]. *)
Definition GetFileSize (handle : t) : Z := U64.to_int64 (length handle).

Definition GetLastModifiedTime (handle : t) : Z := last_modified handle.

Definition FileSync (handle : t) : result unit :=
  Throw (NotImplementedException file_sync_message).

Section Open.

Variable env : ProcessEnv.

(** The blob client's [GetProperties]: the blob size ([int64_t]), or a
    failure. *)
Variable GetProperties : Azure.BlobServiceClient -> string -> string -> sdk_failure + Z.

(** [new data_t[size]]: the array is obtained, or the allocation throws
    ([std::bad_alloc], with its [what()]). *)
Variable Allocate : Z -> option string.

(** The constructor of [AzureStorageFileHandle]: the length is the blob
    size converted to [idx_t]. A failure of [GetProperties] is caught and
    wrapped, whatever its type. The read-ahead buffer is allocated after
    that, outside the [try] block, when the read flag is set: an allocation
    that fails leaves the constructor as it was thrown. The buffer itself is
    not a field of the handle record; its allocation is an event. *)
Definition new_handle (path : string) (flags : Z) (client : Azure.BlobServiceClient)
    (container blob : string) (read_options : AzureReadOptions.t)
    : result t * list open_event :=
  let request :=
    GetPropertiesCall {| request_client := client; request_container := container;
                         request_blob := blob |} in
  match GetProperties client container blob with
  | inl (StorageFailure e) => (Throw (IOException (open_failed_message path e)), [request])
  | inl (OtherFailure what) =>
      (Throw (IOException (open_unknown_error_message path what)), [request])
  | inr blob_size =>
      let handle := make path flags (U64.wrap blob_size) read_options in
      if has_read_flag flags then
        let size := AzureReadOptions.buffer_size read_options in
        match Allocate size with
        | None => (Ok handle, [request; NewReadBuffer size])
        | Some what => (Throw (OtherException what), [request; NewReadBuffer size])
        end
      else (Ok handle, [request])
  end.

(** [CreateHandle]; the lock type and the compression type are passed along
    unused (the assertion on the compression type is a debug-build check).
    The result comes with the session as the context lookup leaves it and
    with the events of the constructor. *)
Definition CreateHandle (path : string) (flags : Z) (opener : option FileOpener) (σ : Session)
    : result t * Session * list open_event :=
  match opener with
  | None => (Throw (InternalException missing_opener_message), σ, [])
  | Some opener =>
      match ParseUrl path with
      | Throw e => (Throw e, σ, [])
      | Ok parsed_url =>
          match GetOrCreateStorageContext env opener path parsed_url σ with
          | (Throw e, σ1) => (Throw e, σ1, [])
          | (Ok storage_context, σ1) =>
              match contexts σ1 !! storage_context with
              | None => (Throw (UndefinedBehaviour "storage_context"), σ1, [])
              | Some ctx =>
                  let '(handle, events) :=
                    new_handle path flags (AzureContextState.service_client ctx)
                      (AzureParsedUrl.container parsed_url) (AzureParsedUrl.path parsed_url)
                      (AzureContextState.read_options ctx) in
                  (handle, σ1, events)
              end
          end
      end
  end.

(** [OpenFile]; the assertion on the compression type is a debug-build
    check. *)
Definition OpenFile (path : string) (flags : Z) (opener : option FileOpener) (σ : Session)
    : result t * Session * list open_event :=
  if negb (Z.land flags FileFlags.FILE_FLAGS_WRITE =? 0)%Z then
    (Throw (NotImplementedException write_not_supported_message), σ, [])
  else CreateHandle path flags opener σ.

(** [FileExists]: [OpenFile] is called with the file name and the read flag
    only, so that the opener is its default, the null pointer; [catch (...)]
    turns every exception into [false]. *)
Definition FileExists (filename : string) (σ : Session)
    : result bool * Session * list open_event :=
  match OpenFile filename FileFlags.FILE_FLAGS_READ None σ with
  | (Ok sfh, σ1, events) => (Ok (negb (length sfh =? 0)%Z), σ1, events)
  | (Throw (UndefinedBehaviour what), σ1, events) =>
      (Throw (UndefinedBehaviour what), σ1, events)
  | (Throw _, σ1, events) => (Ok false, σ1, events)
  end.

End Open.

End FileSystem.

(** A session in which the host has registered a state of another kind, at
    address 0, and no Azure context yet. *)
Definition session_with_other_state : Session :=
  {| registered_state := {[ "http_state" := 0%nat ]}; contexts := ∅ |}.

(** A [GetProperties] that finds a blob of 100 bytes everywhere. *)
Definition GetProperties_100 (client : Azure.BlobServiceClient) (container blob : string)
    : sdk_failure + Z := inr 100%Z.

(** An allocator that never fails, and one that cannot provide more than a
    gibibyte. *)
Definition Allocate_ok (size : Z) : option string := None.

Definition Allocate_up_to_1GiB (size : Z) : option string :=
  if (size <=? 1024 * 1024 * 1024)%Z then None else Some "std::bad_alloc".

(** A [GetProperties] that finds nothing. *)
Definition GetProperties_not_found (client : Azure.BlobServiceClient) (container blob : string)
    : sdk_failure + Z :=
  inl (StorageFailure
         {| ErrorCode := "BlobNotFound"; ReasonPhrase := "The specified blob does not exist.";
            Message := "Not Found" |}).

(** The sample opener with a read-ahead buffer of a tebibyte asked for. *)
Definition opener_huge_buffer : FileOpener :=
  {| bool_settings := ∅;
     int_settings := {[ "azure_read_buffer_size" := (2 ^ 40)%Z ]};
     string_settings := {[ "azure_transport_option_type" := "default" ]};
     client_context := Some SessionSamples.no_secrets;
     http_state := None |}.

(** The sample opener with a read-ahead buffer of 10 bytes asked for. *)
Definition opener_small_buffer : FileOpener :=
  {| bool_settings := ∅;
     int_settings := {[ "azure_read_buffer_size" := 10%Z ]};
     string_settings := {[ "azure_transport_option_type" := "default" ]};
     client_context := Some SessionSamples.no_secrets;
     http_state := None |}.

(** ** Credential chains and sample secrets *)

(** The credential that a known item of a credential chain stands for. *)
Definition chain_source (item : string) (options : Azure.TransportOptions)
    : option Azure.TokenCredential :=
  if String.eqb item "cli" then Some (Azure.AzureCliCredential options)
  else if String.eqb item "managed_identity" then Some (Azure.ManagedIdentityCredential options)
  else if String.eqb item "env" then Some (Azure.EnvironmentCredential options)
  else if String.eqb item "default" then Some (Azure.DefaultAzureCredential options)
  else None.

(** The providers a secret of type [azure] may have. *)
Definition supported_provider (provider : string) : Prop :=
  provider = "config" \/ provider = "credential_chain" \/ provider = "service_principal".

(** A client context whose secret manager finds the sample [config] secret
    for every path. *)
Definition secret_context : ClientContext :=
  {| LookupSecret := fun _ => Some SessionSamples.config_secret |}.

(** An opener under that context, with nothing but the transport type
    set. *)
Definition opener_with_secret : FileOpener :=
  {| bool_settings := ∅;
     int_settings := ∅;
     string_settings := {[ "azure_transport_option_type" := "default" ]};
     client_context := Some secret_context;
     http_state := None |}.

(** The same opener with the session variables of the fallback set as
    well. *)
Definition opener_with_secret_and_variables : FileOpener :=
  {| bool_settings := ∅;
     int_settings := ∅;
     string_settings :=
       {[ "azure_transport_option_type" := "default";
          "azure_storage_connection_string" := "AccountName=oth;AccountKey=a2V5";
          "azure_account_name" := "elsewhere";
          "azure_credential_chain" := "cli";
          "azure_http_proxy" := "http://proxy:3128" ]};
     client_context := Some secret_context;
     http_state := None |}.

(** A [service_principal] secret with both a client secret and a
    certificate path. *)
Definition service_principal_with_both : KeyValueSecret :=
  {| provider := "service_principal";
     secret_map :=
       {[ "tenant_id" := "tenant"; "client_id" := "client";
          "client_secret" := "secret"; "client_certificate_path" := "/cert.pem" ]} |}.

(** A [config] secret with an empty account name and nothing else. *)
Definition config_secret_empty_account : KeyValueSecret :=
  {| provider := "config"; secret_map := {[ "account_name" := "" ]} |}.

(** A [config] secret that names an account and nothing else. *)
Definition secret_for_account (name : string) : KeyValueSecret :=
  {| provider := "config"; secret_map := {[ "account_name" := name ]} |}.

(** A client context whose secret manager has one secret for the paths
    under [az://first/] and another one for all other paths. *)
Definition two_secrets_context : ClientContext :=
  {| LookupSecret := fun path =>
       if String.prefix "az://first/" path
       then Some (secret_for_account "one")
       else Some (secret_for_account "two") |}.

Definition opener_two_secrets : FileOpener :=
  {| bool_settings := ∅;
     int_settings := ∅;
     string_settings := {[ "azure_transport_option_type" := "default" ]};
     client_context := Some two_secrets_context;
     http_state := None |}.


(** * Properties *)

(** ** Glob matcher *)

Section GlobMatcherFacts.

Variable Glob : string -> string -> bool.

Lemma Match_nil_l (pattern : list string) :
  Match Glob [] pattern = match pattern with [] => true | _ => false end.
Proof. destruct pattern; reflexivity. Qed.

Lemma Match_nil_r (key : list string) :
  Match Glob key [] = match key with [] => true | _ => false end.
Proof. destruct key; reflexivity. Qed.

(** The inner [while (key != key_end)] of a [**] segment that is not last
    tries the rest of the pattern on each suffix; the empty suffix, which the
    loop does not try, cannot match a pattern that is not empty. *)
Lemma Match_scan_suffixes (p : string) (ps key : list string) :
  (fix scan (key : list string) : bool :=
     match key with
     | [] => false
     | _ :: key'' => if Match Glob key (p :: ps) then true else scan key''
     end) key
  = existsb (fun suffix => Match Glob suffix (p :: ps)) (suffixes key).
Proof.
  induction key as [|k key IH].
  - reflexivity.
  - cbn [suffixes existsb]. rewrite <- IH.
    destruct (Match Glob (k :: key) (p :: ps)); reflexivity.
Qed.

Lemma Match_double_star_last (k : string) (ks : list string) :
  Match Glob (k :: ks) ["**"] = true.
Proof. reflexivity. Qed.

Lemma Match_double_star_inner (k p : string) (ks ps : list string) :
  Match Glob (k :: ks) ("**" :: p :: ps)
  = existsb (fun suffix => Match Glob suffix (p :: ps)) (suffixes (k :: ks)).
Proof. rewrite <- Match_scan_suffixes. reflexivity. Qed.

Lemma Match_segment (k p : string) (ks ps : list string) :
  p ≠ "**" ->
  Match Glob (k :: ks) (p :: ps) = Glob k p && Match Glob ks ps.
Proof.
  intros Hp. cbn [Match].
  destruct (String.eqb_spec p "**") as [->|_]; [contradiction|].
  destruct (Glob k p); reflexivity.
Qed.

(** What the code accepts, the specification's reading accepts. *)
Lemma Match_sound (key pattern : list string) :
  Match Glob key pattern = true -> match_spec Glob key pattern = true.
Proof.
  revert key. induction pattern as [|p ps IH]; intros key H.
  - destruct key; [reflexivity | discriminate].
  - destruct key as [|k ks]; [discriminate|].
    cbn [match_spec].
    destruct (String.eqb_spec p "**") as [->|Hp].
    + destruct ps as [|q qs].
      * clear. induction (k :: ks) as [|a l IHl]; [reflexivity|].
        cbn [suffixes existsb]. rewrite IHl. apply orb_true_r.
      * rewrite Match_double_star_inner in H.
        apply existsb_exists in H as (suffix & Hin & Hm).
        apply existsb_exists. exists suffix. split; [exact Hin | apply IH, Hm].
    + rewrite Match_segment in H by exact Hp.
      apply andb_true_iff in H as [Hg Hm].
      rewrite Hg, (IH _ Hm). reflexivity.
Qed.

End GlobMatcherFacts.

(** C4, as stated, fails: a [**] segment in last position does not match
    zero key segments. For key [a] and pattern [a/**] the specification's
    reading ([**] stands for zero or more whole segments) accepts, while
    [Match] leaves its loop with the key consumed and the pattern not, and
    rejects. *)
Lemma Match_trailing_double_star_rejects_zero_segments :
  match_spec LikeFun.Glob ["a"] ["a"; "**"] = true
  /\ Match LikeFun.Glob ["a"] ["a"; "**"] = false.
Proof. split; reflexivity. Qed.

(** C4, amended: [Match] compares the two segment sequences segment by
    segment with the per-segment glob; success requires both sequences
    consumed; a [**] in last position succeeds at once when at least one key
    segment remains (and fails when none remains); a [**] elsewhere tries the
    rest of the pattern on every suffix of the remaining key; and the six
    examples of the specification hold for every per-segment matcher that
    accepts [a] for [a] and [b] for [*] and rejects [x] for [a]. *)
Theorem Match_amended (Glob : string -> string -> bool) :
  Glob "a" "a" = true ->
  Glob "b" "*" = true ->
  Glob "x" "a" = false ->
  (Match Glob [] [] = true)
  /\ (forall k ks, Match Glob (k :: ks) [] = false)
  /\ (forall p ps, Match Glob [] (p :: ps) = false)
  /\ (forall k ks, Match Glob (k :: ks) ["**"] = true)
  /\ (forall k ks p ps,
        Match Glob (k :: ks) ("**" :: p :: ps)
        = existsb (fun suffix => Match Glob suffix (p :: ps)) (suffixes (k :: ks)))
  /\ (forall k ks p ps,
        p ≠ "**" -> Match Glob (k :: ks) (p :: ps) = Glob k p && Match Glob ks ps)
  /\ (forall key pattern, Match Glob key pattern = true -> match_spec Glob key pattern = true)
  /\ Match Glob ["a"; "b"; "c"] ["a"; "**"] = true
  /\ Match Glob ["a"; "b"; "c"] ["**"] = true
  /\ Match Glob ["x"] ["a"; "**"; "b"] = false
  /\ Match Glob ["a"; "b"] ["a"; "*"] = true
  /\ Match Glob [] [] = true
  /\ Match Glob ["a"] [] = false.
Proof.
  intros Haa Hb Hxa.
  split; [reflexivity|].
  split; [reflexivity|].
  split; [reflexivity|].
  split; [intros; apply Match_double_star_last|].
  split; [intros; apply Match_double_star_inner|].
  split; [intros; apply Match_segment; assumption|].
  split; [intros; apply Match_sound; assumption|].
  repeat split.
  - cbn. rewrite Haa. reflexivity.
  - cbn. rewrite Hxa. reflexivity.
  - cbn. rewrite Haa, Hb. reflexivity.
Qed.

Lemma Match_amended_witness :
  LikeFun.Glob "a" "a" = true
  /\ LikeFun.Glob "b" "*" = true
  /\ LikeFun.Glob "x" "a" = false
  /\ Match LikeFun.Glob ["a"; "b"; "c"] ["a"; "**"] = true
  /\ Match LikeFun.Glob ["x"] ["a"; "**"; "b"] = false
  /\ Match LikeFun.Glob ["a"; "b"] ["a"; "*"] = true.
Proof.
  split; [reflexivity|].
  split; [reflexivity|].
  split; [reflexivity|].
  pose proof (Match_amended LikeFun.Glob eq_refl eq_refl eq_refl) as H.
  split; [apply H|].
  split; apply H.
Defined.

(** ** Read engine *)

Module ReadEngineFacts.
Import AzureStorageFileHandle ReadEngine.
Local Open Scope Z_scope.

Ltac u64 :=
  unfold well_typed, idx_t, int64_t, U64.add, U64.sub, U64.wrap, U64.modulus in *;
  change (2 ^ 64)%Z with 18446744073709551616%Z in *;
  change (2 ^ 63)%Z with 9223372036854775808%Z in *.

Lemma wrap_small (z : Z) : idx_t z -> U64.wrap z = z.
Proof. intros H. u64. apply Z.mod_small. lia. Qed.

Lemma wrap_idx_t (z : Z) : idx_t (U64.wrap z).
Proof. u64. apply Z.mod_pos_bound. lia. Qed.

Lemma to_int64_small (z : Z) : (0 <= z < 2 ^ 63)%Z -> U64.to_int64 z = z.
Proof.
  intros H. unfold U64.to_int64. u64. rewrite Z.mod_small by lia. lia.
Qed.

Section LoopFacts.

Variable DownloadTo : Z -> Z -> option sdk_failure.

Lemma Read_loop_done fuel location hfh to_read buffer_offset trace :
  (to_read <= 0)%Z ->
  Read_loop DownloadTo fuel location hfh to_read buffer_offset trace = Some (Ok tt, hfh, trace).
Proof.
  intros H. destruct fuel; cbn [Read_loop];
    destruct (Z.ltb_spec 0 to_read); try lia; reflexivity.
Qed.

(** Enough buffered bytes: one copy and the loop ends. *)
Lemma Read_loop_from_buffer fuel location hfh to_read buffer_offset trace :
  idx_t (buffer_available hfh) ->
  (0 < to_read <= buffer_available hfh)%Z ->
  Read_loop DownloadTo (S fuel) location hfh to_read buffer_offset trace
  = Some (Ok tt,
          set_read_info hfh (buffer_available hfh - to_read)
            (U64.add (buffer_idx hfh) to_read) (U64.add (file_offset hfh) to_read)
            (buffer_start hfh) (buffer_end hfh),
          trace ++ [Memcpy buffer_offset (buffer_idx hfh) to_read]).
Proof.
  intros Hav Hr. cbn [Read_loop].
  destruct (Z.ltb_spec 0 to_read) as [_|]; [|lia]. cbn [negb].
  unfold copy_from_buffer. rewrite Z.min_r by lia.
  destruct (Z.ltb_spec 0 to_read) as [_|]; [|lia].
  replace (U64.sub to_read to_read) with 0%Z by (u64; rewrite Z.sub_diag; reflexivity).
  cbn [Z.ltb Z.compare andb].
  rewrite Read_loop_done by lia.
  replace (U64.sub (buffer_available hfh) to_read) with (buffer_available hfh - to_read)%Z
    by (symmetry; apply wrap_small; u64; lia).
  reflexivity.
Qed.

(** Fewer buffered bytes than required: they are copied, and the loop goes on
    from an exhausted buffer, in the same iteration. *)
Lemma Read_loop_drain fuel location hfh to_read buffer_offset trace :
  idx_t to_read ->
  (0 < buffer_available hfh < to_read)%Z ->
  Read_loop DownloadTo (S fuel) location hfh to_read buffer_offset trace
  = Read_loop DownloadTo (S fuel) location
      (set_read_info hfh 0
         (U64.add (buffer_idx hfh) (buffer_available hfh))
         (U64.add (file_offset hfh) (buffer_available hfh))
         (buffer_start hfh) (buffer_end hfh))
      (to_read - buffer_available hfh)
      (U64.add buffer_offset (buffer_available hfh))
      (trace ++ [Memcpy buffer_offset (buffer_idx hfh) (buffer_available hfh)]).
Proof.
  intros Ht Hav. cbn [Read_loop].
  destruct (Z.ltb_spec 0 to_read) as [_|]; [|lia].
  destruct (Z.ltb_spec 0 (to_read - buffer_available hfh)) as [_|]; [|lia].
  cbn [negb]. unfold copy_from_buffer at 1. rewrite Z.min_l by lia.
  destruct (Z.ltb_spec 0 (buffer_available hfh)) as [_|]; [|lia].
  replace (U64.sub (buffer_available hfh) (buffer_available hfh)) with 0%Z
    by (u64; rewrite Z.sub_diag; reflexivity).
  replace (U64.sub to_read (buffer_available hfh)) with (to_read - buffer_available hfh)%Z
    by (symmetry; apply wrap_small; u64; lia).
  unfold copy_from_buffer. cbn [buffer_available set_read_info].
  rewrite Z.min_l by lia. cbn [Z.ltb Z.compare].
  reflexivity.
Qed.

Lemma new_buffer_available_idx_t hfh :
  idx_t (AzureReadOptions.buffer_size (read_options hfh)) ->
  idx_t (new_buffer_available hfh).
Proof.
  intros H. unfold new_buffer_available.
  pose proof (wrap_idx_t (length hfh - file_offset hfh)) as Hw.
  fold (U64.sub (length hfh) (file_offset hfh)) in Hw.
  unfold idx_t in *. lia.
Qed.

(** Exhausted buffer, and more required than a refill would provide: one
    direct fetch into the caller's buffer, and the loop stops. *)
Lemma Read_loop_bypass fuel location hfh to_read buffer_offset trace :
  (0 < to_read)%Z ->
  buffer_available hfh = 0%Z ->
  (new_buffer_available hfh < to_read)%Z ->
  Read_loop DownloadTo (S fuel) location hfh to_read buffer_offset trace
  = Some (match DownloadTo (U64.to_int64 (U64.add location buffer_offset)) to_read with
          | None =>
              (Ok tt,
               set_read_info hfh 0 0 (U64.add (file_offset hfh) to_read)
                 (buffer_start hfh) (buffer_end hfh))
          | Some e => (Throw (download_exception (path hfh) e), hfh)
          end,
          trace ++ [Fetch (U64.add location buffer_offset) (CallerBuffer buffer_offset) to_read]).
Proof.
  intros Hr Hav Hn. cbn [Read_loop].
  destruct (Z.ltb_spec 0 to_read) as [_|]; [|lia]. cbn [negb].
  unfold copy_from_buffer. rewrite Hav, Z.min_l by lia. cbn [Z.ltb Z.compare].
  destruct (Z.ltb_spec 0 to_read) as [_|]; [|lia].
  rewrite Hav. cbn [Z.eqb andb].
  destruct (Z.ltb_spec (new_buffer_available hfh) to_read) as [_|]; [|lia].
  unfold ReadRange.
  destruct (DownloadTo _ to_read); reflexivity.
Qed.

(** Exhausted buffer, and a refill provides what is required: one fetch of
    the whole refill into the read-ahead buffer, and the loop continues. *)
Lemma Read_loop_refill fuel location hfh to_read buffer_offset trace :
  (0 < to_read)%Z ->
  buffer_available hfh = 0%Z ->
  (to_read <= new_buffer_available hfh)%Z ->
  Read_loop DownloadTo (S fuel) location hfh to_read buffer_offset trace
  = match DownloadTo (U64.to_int64 (file_offset hfh)) (new_buffer_available hfh) with
    | None =>
        Read_loop DownloadTo fuel location
          (set_read_info hfh (new_buffer_available hfh) 0 (file_offset hfh)
             (file_offset hfh) (U64.add (file_offset hfh) (new_buffer_available hfh)))
          to_read buffer_offset
          (trace ++ [Fetch (file_offset hfh) ReadBuffer (new_buffer_available hfh)])
    | Some e =>
        Some (Throw (download_exception (path hfh) e), hfh,
              trace ++ [Fetch (file_offset hfh) ReadBuffer (new_buffer_available hfh)])
    end.
Proof.
  intros Hr Hav Hn. cbn [Read_loop].
  destruct (Z.ltb_spec 0 to_read) as [_|]; [|lia]. cbn [negb].
  unfold copy_from_buffer. rewrite Hav, Z.min_l by lia. cbn [Z.ltb Z.compare].
  destruct (Z.ltb_spec 0 to_read) as [_|]; [|lia].
  rewrite Hav. cbn [Z.eqb andb].
  destruct (Z.ltb_spec (new_buffer_available hfh) to_read) as [|_]; [lia|].
  unfold ReadRange.
  destruct (DownloadTo _ (new_buffer_available hfh)); reflexivity.
Qed.

(** After a successful refill the required bytes are copied and the loop
    ends: the whole read took one fetch. *)
Lemma Read_loop_refill_ok fuel location hfh to_read buffer_offset trace :
  idx_t (AzureReadOptions.buffer_size (read_options hfh)) ->
  (0 < to_read)%Z ->
  buffer_available hfh = 0%Z ->
  (to_read <= new_buffer_available hfh)%Z ->
  DownloadTo (U64.to_int64 (file_offset hfh)) (new_buffer_available hfh) = None ->
  Read_loop DownloadTo (S (S fuel)) location hfh to_read buffer_offset trace
  = Some (Ok tt,
          set_read_info hfh (new_buffer_available hfh - to_read)
            (U64.add 0 to_read) (U64.add (file_offset hfh) to_read)
            (file_offset hfh) (U64.add (file_offset hfh) (new_buffer_available hfh)),
          trace ++ [Fetch (file_offset hfh) ReadBuffer (new_buffer_available hfh);
                    Memcpy buffer_offset 0 to_read]).
Proof.
  intros Hb Hr Hav Hn Hd.
  rewrite Read_loop_refill, Hd by assumption.
  rewrite Read_loop_from_buffer.
  - cbn [set_read_info buffer_available buffer_idx file_offset buffer_start buffer_end].
    rewrite <- app_assoc. reflexivity.
  - cbn [set_read_info buffer_available]. apply new_buffer_available_idx_t, Hb.
  - cbn [set_read_info buffer_available]. lia.
Qed.

(** Two iterations always suffice: the loop returns for every handle whose
    fields are [idx_t] values and every [idx_t] count. *)
Lemma Read_loop_total fuel location hfh to_read buffer_offset trace :
  well_typed hfh -> idx_t to_read ->
  exists r hfh' trace',
    Read_loop DownloadTo (S (S fuel)) location hfh to_read buffer_offset trace
    = Some (r, hfh', trace').
Proof.
  intros Hwt Ht.
  assert (Hbs : idx_t (AzureReadOptions.buffer_size (read_options hfh))) by apply Hwt.
  assert (Hav : idx_t (buffer_available hfh)) by apply Hwt.
  assert (exhausted : forall h tr bo tb,
             read_options h = read_options hfh -> (0 < tr)%Z -> buffer_available h = 0%Z ->
             exists r hfh' trace',
               Read_loop DownloadTo (S (S fuel)) location h tr bo tb = Some (r, hfh', trace')).
  { intros h tr bo tb Ho Hpos H0.
    destruct (Z.lt_ge_cases (new_buffer_available h) tr) as [Hlt|Hge].
    - rewrite Read_loop_bypass by assumption.
      destruct (DownloadTo _ tr); eauto.
    - destruct (DownloadTo (U64.to_int64 (file_offset h)) (new_buffer_available h)) eqn:Hd.
      + rewrite Read_loop_refill, Hd by assumption. eauto.
      + rewrite Read_loop_refill_ok; rewrite ?Ho; eauto. }
  destruct (Z.le_gt_cases to_read 0) as [Hz|Hpos].
  { rewrite Read_loop_done by assumption. eauto. }
  destruct (Z.le_gt_cases to_read (buffer_available hfh)) as [Hle|Hgt].
  { rewrite Read_loop_from_buffer by (auto; lia). eauto. }
  destruct (Z.eq_dec (buffer_available hfh) 0) as [H0|Hne].
  { apply exhausted; auto. }
  rewrite Read_loop_drain by (auto; unfold idx_t in *; lia).
  apply exhausted; [reflexivity | lia | reflexivity].
Qed.

Lemma Read_buffered fuel hfh nr_bytes location :
  direct_io hfh = false ->
  Read DownloadTo fuel hfh nr_bytes location
  = Read_loop DownloadTo fuel location (position hfh location) (U64.wrap nr_bytes) 0 [].
Proof. intros Hd. unfold Read. rewrite Hd. reflexivity. Qed.

Lemma position_inside hfh location :
  well_typed hfh ->
  (buffer_start hfh <= location < buffer_end hfh)%Z ->
  position hfh location
  = set_read_info hfh
      ((buffer_end hfh - buffer_start hfh) - (location - buffer_start hfh))
      (location - buffer_start hfh) location (buffer_start hfh) (buffer_end hfh).
Proof.
  intros Hwt Hin. unfold position.
  destruct (Z.leb_spec (buffer_start hfh) location) as [_|]; [|lia].
  destruct (Z.ltb_spec location (buffer_end hfh)) as [_|]; [|lia].
  cbn [andb].
  assert (U64.sub location (buffer_start hfh) = location - buffer_start hfh)%Z as ->
    by (apply wrap_small; u64; lia).
  assert (U64.sub (buffer_end hfh) (buffer_start hfh)
          = buffer_end hfh - buffer_start hfh)%Z as ->
    by (apply wrap_small; u64; lia).
  assert (U64.sub (buffer_end hfh - buffer_start hfh) (location - buffer_start hfh)
          = (buffer_end hfh - buffer_start hfh) - (location - buffer_start hfh))%Z as ->
    by (apply wrap_small; u64; lia).
  reflexivity.
Qed.

Lemma position_outside hfh location :
  ~ (buffer_start hfh <= location < buffer_end hfh)%Z ->
  position hfh location
  = set_read_info hfh 0 0 location (buffer_start hfh) (buffer_end hfh).
Proof.
  intros Hout. unfold position.
  destruct (Z.leb_spec (buffer_start hfh) location);
    destruct (Z.ltb_spec location (buffer_end hfh)); cbn [andb]; try reflexivity; lia.
Qed.

Lemma position_well_typed hfh location :
  well_typed hfh -> idx_t location -> well_typed (position hfh location).
Proof.
  intros (H1 & H2 & H3 & H4 & H5 & H6 & H7) Hl. unfold position.
  destruct (_ && _); unfold well_typed;
    cbn [set_read_info length buffer_available buffer_idx file_offset buffer_start
           buffer_end read_options];
    refine (conj _ (conj _ (conj _ (conj _ (conj _ (conj _ _))))));
    try assumption; try apply wrap_idx_t; u64; lia.
Qed.

(** The offset form of [Read] returns, whatever the download does. *)
Lemma Read_total fuel hfh nr_bytes location :
  well_typed hfh -> idx_t location ->
  exists r hfh' trace,
    Read DownloadTo (S (S fuel)) hfh nr_bytes location = Some (r, hfh', trace).
Proof.
  intros Hwt Hl. unfold Read.
  destruct (direct_io hfh && _).
  - unfold ReadRange. destruct (DownloadTo _ _); eauto.
  - apply Read_loop_total; [apply position_well_typed; assumption | apply wrap_idx_t].
Qed.

Lemma set_read_info_twice hfh a1 i1 o1 s1 e1 a2 i2 o2 s2 e2 :
  set_read_info (set_read_info hfh a1 i1 o1 s1 e1) a2 i2 o2 s2 e2
  = set_read_info hfh a2 i2 o2 s2 e2.
Proof. reflexivity. Qed.

End LoopFacts.




(** C2. For a buffered read: the read is the copy loop run from the
    positioned handle, with an empty trace; when the offset falls within the
    buffer window the cursor and the available count are recomputed from the
    window, and when it falls outside the window is invalidated and the
    logical offset jumps to the offset; a read whose bytes all lie inside the
    window returns without any fetch and changes nothing of the handle but
    [file_offset], [buffer_idx] and [buffer_available]. *)
Theorem Read_inside_window_no_fetch (DownloadTo : Z -> Z -> option sdk_failure)
    (fuel : nat) (hfh : t) (nr_bytes location : Z) :
  well_typed hfh -> idx_t location -> direct_io hfh = false ->
  Read DownloadTo fuel hfh nr_bytes location
  = Read_loop DownloadTo fuel location (position hfh location) (U64.wrap nr_bytes) 0 []
  /\ (buffer_start hfh <= location < buffer_end hfh ->
      position hfh location
      = set_read_info hfh
          ((buffer_end hfh - buffer_start hfh) - (location - buffer_start hfh))
          (location - buffer_start hfh) location (buffer_start hfh) (buffer_end hfh))
  /\ (~ (buffer_start hfh <= location < buffer_end hfh) ->
      position hfh location
      = set_read_info hfh 0 0 location (buffer_start hfh) (buffer_end hfh))
  /\ (0 <= nr_bytes -> buffer_start hfh <= location ->
      location + nr_bytes <= buffer_end hfh ->
      exists available idx trace,
        Read DownloadTo (S fuel) hfh nr_bytes location
        = Some (Ok tt,
                set_read_info hfh available idx (location + nr_bytes)
                  (buffer_start hfh) (buffer_end hfh),
                trace)
        /\ fetches trace = []
        /\ available = buffer_end hfh - (location + nr_bytes)
        /\ (location < buffer_end hfh -> idx = location + nr_bytes - buffer_start hfh)).
Proof.
  intros Hwt Hl Hd.
  split; [apply Read_buffered, Hd|].
  split; [apply position_inside, Hwt|].
  split; [apply position_outside|].
  intros Hn Hs He.
  assert (Hend : idx_t (buffer_end hfh)) by apply Hwt.
  assert (Hstart : idx_t (buffer_start hfh)) by apply Hwt.
  rewrite Read_buffered by assumption.
  rewrite wrap_small by (u64; lia).
  destruct (Z.eq_dec nr_bytes 0) as [->|Hnz].
  - rewrite Read_loop_done by lia.
    destruct (Z.lt_ge_cases location (buffer_end hfh)) as [Hlt|Hge].
    + rewrite position_inside by (auto; lia).
      do 3 eexists. split; [rewrite Z.add_0_r; reflexivity|].
      split; [reflexivity|]. split; lia.
    + rewrite position_outside by lia.
      do 3 eexists. split; [rewrite Z.add_0_r; reflexivity|].
      split; [reflexivity|]. split; lia.
  - rewrite position_inside by (auto; lia).
    rewrite Read_loop_from_buffer;
      cbn [set_read_info buffer_available buffer_idx file_offset buffer_start buffer_end];
      [| u64; lia | lia].
    rewrite set_read_info_twice.
    replace (U64.add location nr_bytes) with (location + nr_bytes)
      by (symmetry; apply wrap_small; u64; lia).
    do 3 eexists. split; [reflexivity|].
    split; [reflexivity|].
    split; [lia|].
    intros _. unfold U64.add. rewrite wrap_small by (u64; lia). lia.
Qed.

Lemma Read_inside_window_no_fetch_witness :
  well_typed Samples.handle_after_first_read
  /\ idx_t 2
  /\ direct_io Samples.handle_after_first_read = false
  /\ exists available idx trace,
       Read Samples.download_ok 1 Samples.handle_after_first_read 3 2
       = Some (Ok tt,
               set_read_info Samples.handle_after_first_read available idx (2 + 3) 0 10,
               trace)
       /\ fetches trace = [].
Proof.
  assert (Hwt : well_typed Samples.handle_after_first_read)
    by (vm_compute; intuition discriminate).
  assert (Hl : idx_t 2) by (vm_compute; intuition discriminate).
  split; [exact Hwt|].
  split; [exact Hl|].
  split; [reflexivity|].
  destruct (Read_inside_window_no_fetch Samples.download_ok 0
              Samples.handle_after_first_read 3 2 Hwt Hl eq_refl)
    as (_ & _ & _ & H).
  destruct H as (available & idx & trace & Hr & Hf & _);
    [vm_compute; discriminate | vm_compute; discriminate | vm_compute; discriminate |].
  exists available, idx, trace. split; [exact Hr | exact Hf].
Defined.

(** C3 fails on the code for a handle positioned past the end of the file:
    the remaining length [length - file_offset] is computed on unsigned
    64-bit values and wraps around, so nothing is clamped. On a 100-byte
    blob, after [Seek] to 101, the offset-less read of 10 bytes fetches 10
    bytes at offset 101 and returns 10. At the end of the file and before it
    the count is clamped. *)
Theorem Read_at_offset_past_end_not_clamped :
  U64.sub (length (Seek Samples.fresh_handle 101))
          (file_offset (Seek Samples.fresh_handle 101)) = 2 ^ 64 - 1
  /\ (exists hfh',
        Read_at_offset Samples.download_ok 2 (Seek Samples.fresh_handle 101) 10
        = Some (Ok 10, hfh', [Fetch 101 ReadBuffer 10; Memcpy 0 0 10]))
  /\ (exists hfh',
        Read_at_offset Samples.download_ok 2 (Seek Samples.fresh_handle 100) 10
        = Some (Ok 0, hfh', []))
  /\ (exists hfh',
        Read_at_offset Samples.download_ok 2 (Seek Samples.fresh_handle 95) 10
        = Some (Ok 5, hfh', [Fetch 95 ReadBuffer 5; Memcpy 0 0 5])).
Proof.
  split; [reflexivity|].
  split; [eexists; reflexivity|].
  split; eexists; reflexivity.
Qed.

Section ClampFacts.

Variable DownloadTo : Z -> Z -> option sdk_failure.

(** The clamp is right up to the end of the file. *)
Lemma Read_at_offset_clamps_before_end fuel hfh nr_bytes :
  well_typed hfh -> file_offset hfh <= length hfh < 2 ^ 63 -> 0 <= nr_bytes < 2 ^ 63 ->
  exists r hfh' trace,
    Read_at_offset DownloadTo (S (S fuel)) hfh nr_bytes = Some (r, hfh', trace)
    /\ forall n, r = Ok n -> n = Z.min (length hfh - file_offset hfh) nr_bytes.
Proof.
  intros Hwt Hlen Hn. unfold Read_at_offset.
  assert (Hfo : idx_t (file_offset hfh)) by apply Hwt.
  destruct (Read_total DownloadTo fuel hfh
              (U64.to_int64 (Z.min (U64.sub (length hfh) (file_offset hfh)) (U64.wrap nr_bytes)))
              (file_offset hfh) Hwt Hfo) as (r & hfh' & trace & ->).
  rewrite (wrap_small nr_bytes) by (u64; lia).
  assert (U64.sub (length hfh) (file_offset hfh) = length hfh - file_offset hfh) as ->
    by (apply wrap_small; u64; lia).
  rewrite to_int64_small by (u64; lia).
  destruct r as [[]|e]; do 3 eexists; (split; [reflexivity|]); intros n [=]; congruence.
Qed.

(** Past the end of the file the clamp does nothing. *)
Lemma Read_at_offset_unclamped_past_end fuel hfh nr_bytes :
  well_typed hfh -> length hfh < file_offset hfh < 2 ^ 63 -> 0 <= nr_bytes < 2 ^ 63 ->
  exists r hfh' trace,
    Read_at_offset DownloadTo (S (S fuel)) hfh nr_bytes = Some (r, hfh', trace)
    /\ forall n, r = Ok n -> n = nr_bytes.
Proof.
  intros Hwt Hlen Hn. unfold Read_at_offset.
  assert (Hfo : idx_t (file_offset hfh)) by apply Hwt.
  assert (Hl : idx_t (length hfh)) by apply Hwt.
  destruct (Read_total DownloadTo fuel hfh
              (U64.to_int64 (Z.min (U64.sub (length hfh) (file_offset hfh)) (U64.wrap nr_bytes)))
              (file_offset hfh) Hwt Hfo) as (r & hfh' & trace & ->).
  rewrite (wrap_small nr_bytes) by (u64; lia).
  assert (U64.sub (length hfh) (file_offset hfh)
          = 2 ^ 64 + (length hfh - file_offset hfh)) as ->.
  { unfold U64.sub, U64.wrap, U64.modulus.
    rewrite <- (Z.mod_add _ 1) by (u64; lia).
    rewrite Z.mod_small; u64; lia. }
  rewrite Z.min_r by (u64; lia).
  rewrite to_int64_small by lia.
  destruct r as [[]|e]; do 3 eexists; (split; [reflexivity|]); intros n [=]; congruence.
Qed.

End ClampFacts.
End ReadEngineFacts.

(** ** Context cache *)

Section ContextCacheFacts.

Variable env : ProcessEnv.

Lemma CreateStorageContext_valid opener path parsed_url c :
  CreateStorageContext env opener path parsed_url = Ok c ->
  AzureContextState.IsValid c = true.
Proof.
  unfold CreateStorageContext.
  destruct (ConnectToStorageAccount env opener path parsed_url); cbn; [|discriminate].
  intros [= <-]. reflexivity.
Qed.

(** [CreateStorageContext] is the credential resolver's client with the read
    options of the opener, and fails as the resolver fails. *)
Lemma CreateStorageContext_connect opener path parsed_url client :
  ConnectToStorageAccount env opener path parsed_url = Ok client ->
  CreateStorageContext env opener path parsed_url
  = Ok (AzureContextState.make client (ParseAzureReadOptions opener)).
Proof. unfold CreateStorageContext. intros ->. reflexivity. Qed.

Lemma CreateStorageContext_throw opener path parsed_url e :
  ConnectToStorageAccount env opener path parsed_url = Throw e ->
  CreateStorageContext env opener path parsed_url = Throw e.
Proof. unfold CreateStorageContext. intros ->. reflexivity. Qed.

Lemma CreateStorageContext_inv opener path parsed_url c :
  CreateStorageContext env opener path parsed_url = Ok c ->
  exists client,
    ConnectToStorageAccount env opener path parsed_url = Ok client
    /\ c = AzureContextState.make client (ParseAzureReadOptions opener).
Proof.
  unfold CreateStorageContext.
  destruct (ConnectToStorageAccount env opener path parsed_url) as [client|]; cbn;
    [|discriminate].
  intros [= <-]. eauto.
Qed.

(** The address [make_shared] picks holds no context and is registered
    under no name. *)
Lemma fresh_context_address (σ : Session) : fresh (in_use σ) ∉ dom (contexts σ).
Proof.
  pose proof (is_fresh (in_use σ)) as H. unfold in_use in H at 2.
  intros Hin. apply H, elem_of_union. left. exact Hin.
Qed.

Lemma fresh_address_not_registered (σ : Session) (key : string) :
  registered_state σ !! key ≠ Some (fresh (in_use σ)).
Proof.
  pose proof (is_fresh (in_use σ)) as H. unfold in_use in H at 2.
  intros Hreg. apply H, elem_of_union. right. eapply elem_of_map_img_2, Hreg.
Qed.

(** On a valid hit the cached object is returned and nothing changes. *)
Lemma GetOrCreateStorageContext_hit opener path parsed_url σ ctx l c :
  azure_context_caching opener = true ->
  client_context opener = Some ctx ->
  registered_state σ !! AzureParsedUrl.storage_account_name parsed_url = Some l ->
  contexts σ !! l = Some c ->
  AzureContextState.IsValid c = true ->
  GetOrCreateStorageContext env opener path parsed_url σ = (Ok l, σ).
Proof.
  unfold GetOrCreateStorageContext, azure_context_caching.
  intros -> -> -> -> ->. reflexivity.
Qed.

(** On a miss, and on an entry that was invalidated, a new object is built
    and registered under the account name. *)
Lemma GetOrCreateStorageContext_build opener path parsed_url σ ctx c :
  azure_context_caching opener = true ->
  client_context opener = Some ctx ->
  (registered_state σ !! AzureParsedUrl.storage_account_name parsed_url = None
   \/ exists l c0,
        registered_state σ !! AzureParsedUrl.storage_account_name parsed_url = Some l
        /\ contexts σ !! l = Some c0
        /\ AzureContextState.IsValid c0 = false) ->
  CreateStorageContext env opener path parsed_url = Ok c ->
  GetOrCreateStorageContext env opener path parsed_url σ
  = (Ok (fresh (in_use σ)),
     {| registered_state :=
          <[AzureParsedUrl.storage_account_name parsed_url := fresh (in_use σ)]>
            (registered_state σ);
        contexts := <[fresh (in_use σ) := c]> (contexts σ) |}).
Proof.
  unfold GetOrCreateStorageContext, azure_context_caching.
  intros -> -> Hstate ->.
  destruct Hstate as [-> | (l & c0 & -> & -> & ->)]; reflexivity.
Qed.

(** When the resolver fails there, so does the lookup, and nothing changes. *)
Lemma GetOrCreateStorageContext_build_throws opener path parsed_url σ ctx e :
  azure_context_caching opener = true ->
  client_context opener = Some ctx ->
  (registered_state σ !! AzureParsedUrl.storage_account_name parsed_url = None
   \/ exists l c0,
        registered_state σ !! AzureParsedUrl.storage_account_name parsed_url = Some l
        /\ contexts σ !! l = Some c0
        /\ AzureContextState.IsValid c0 = false) ->
  CreateStorageContext env opener path parsed_url = Throw e ->
  GetOrCreateStorageContext env opener path parsed_url σ = (Throw e, σ).
Proof.
  unfold GetOrCreateStorageContext, azure_context_caching.
  intros -> -> Hstate ->.
  destruct Hstate as [-> | (l & c0 & -> & -> & ->)]; reflexivity.
Qed.

Lemma GetOrCreateStorageContext_no_caching opener path parsed_url σ c :
  azure_context_caching opener = false ->
  CreateStorageContext env opener path parsed_url = Ok c ->
  GetOrCreateStorageContext env opener path parsed_url σ
  = (Ok (fresh (in_use σ)),
     {| registered_state := registered_state σ;
        contexts := <[fresh (in_use σ) := c]> (contexts σ) |}).
Proof.
  unfold GetOrCreateStorageContext, azure_context_caching.
  intros -> ->. reflexivity.
Qed.

Lemma GetOrCreateStorageContext_no_caching_throws opener path parsed_url σ e :
  azure_context_caching opener = false ->
  CreateStorageContext env opener path parsed_url = Throw e ->
  GetOrCreateStorageContext env opener path parsed_url σ = (Throw e, σ).
Proof.
  unfold GetOrCreateStorageContext, azure_context_caching.
  intros -> ->. reflexivity.
Qed.

(** A successful lookup with caching returns the address of a valid context
    that is registered under the account name. *)
Lemma GetOrCreateStorageContext_caching_ok opener path parsed_url σ l σ1 :
  azure_context_caching opener = true ->
  GetOrCreateStorageContext env opener path parsed_url σ = (Ok l, σ1) ->
  is_Some (client_context opener)
  /\ registered_state σ1 !! AzureParsedUrl.storage_account_name parsed_url = Some l
  /\ exists c, contexts σ1 !! l = Some c /\ AzureContextState.IsValid c = true.
Proof.
  unfold GetOrCreateStorageContext. intros ->.
  destruct (client_context opener) as [ctx|]; [|intros [=]].
  destruct (registered_state σ !! _) as [l0|] eqn:Hreg.
  - destruct (contexts σ !! l0) as [c0|] eqn:Hctx; [|intros [=]].
    destruct (AzureContextState.IsValid c0) eqn:Hv; cbn [negb].
    + intros [= <- <-]. eauto.
    + destruct (CreateStorageContext env opener path parsed_url) as [c|] eqn:Hcr;
        [|intros [=]].
      intros [= <- <-]. cbn. rewrite !lookup_insert_eq.
      split; [eauto|]. split; [reflexivity|]. exists c.
      split; [reflexivity | eapply CreateStorageContext_valid, Hcr].
  - destruct (CreateStorageContext env opener path parsed_url) as [c|] eqn:Hcr;
      [|intros [=]].
    intros [= <- <-]. cbn. rewrite !lookup_insert_eq.
    split; [eauto|]. split; [reflexivity|]. exists c.
    split; [reflexivity | eapply CreateStorageContext_valid, Hcr].
Qed.

(** A lookup never writes to an object that exists: it leaves the session
    alone or adds an object at a new address. *)
Lemma GetOrCreateStorageContext_preserves opener path parsed_url σ r σ1 l0 c0 :
  GetOrCreateStorageContext env opener path parsed_url σ = (r, σ1) ->
  contexts σ !! l0 = Some c0 ->
  contexts σ1 !! l0 = Some c0.
Proof.
  assert (Hnew : forall c, contexts σ !! l0 = Some c0 ->
                           <[fresh (in_use σ) := c]> (contexts σ) !! l0 = Some c0).
  { intros c H. rewrite lookup_insert_ne; [exact H|].
    intros <-. apply (fresh_context_address σ). apply elem_of_dom. eauto. }
  unfold GetOrCreateStorageContext.
  destruct (azure_context_caching opener).
  - destruct (client_context opener) as [ctx|]; [|intros [= <- <-]; auto].
    destruct (registered_state σ !! _) as [l1|].
    + destruct (contexts σ !! l1) as [c1|]; [|intros [= <- <-]; auto].
      destruct (negb _).
      * destruct (CreateStorageContext env opener path parsed_url);
          intros [= <- <-]; cbn; auto.
      * intros [= <- <-]; auto.
    + destruct (CreateStorageContext env opener path parsed_url);
        intros [= <- <-]; cbn; auto.
  - destruct (CreateStorageContext env opener path parsed_url);
      intros [= <- <-]; cbn; auto.
Qed.

(** The session-end event invalidates every registered context. *)
Lemma session_end_invalidates (σ : Session) (key : string) (l : nat) (c : AzureContextState.t) :
  registered_state σ !! key = Some l ->
  contexts σ !! l = Some c ->
  registered_state (session_end σ) !! key = Some l
  /\ contexts (session_end σ) !! l = Some (AzureContextState.QueryEnd c).
Proof.
  intros Hreg Hctx. split; [exact Hreg|].
  unfold session_end. cbn [contexts].
  rewrite map_lookup_imap, Hctx. cbn.
  rewrite bool_decide_eq_true_2; [reflexivity|].
  apply list_elem_of_fmap. exists (key, l). split; [reflexivity|].
  apply elem_of_map_to_list, Hreg.
Qed.

Lemma session_end_dom (σ : Session) : dom (contexts (session_end σ)) = dom (contexts σ).
Proof.
  apply set_eq. intros l. rewrite !elem_of_dom.
  unfold session_end. cbn [contexts]. rewrite map_lookup_imap.
  destruct (contexts σ !! l); cbn; split; intros [? ?]; eauto.
Qed.

End ContextCacheFacts.

(** C6. With caching enabled, a lookup that hits a valid context returns
    that very object and changes nothing; a miss, and a hit on an invalidated
    context, build a context from the client that the credential resolver
    ([ConnectToStorageAccount]) returns and the read options of the opener,
    at an address not in use, and register it under the account name; when
    the resolver fails the lookup fails with the resolver's error and
    nothing changes. Two lookups for the same account name in one session
    return the same object; after the session-end event the next lookup
    builds a new context at another address, the old one staying invalid.
    With caching disabled every lookup builds a context at a new address and
    registers nothing. Caching is on when the setting is not set. [QueryEnd]
    sets the flag to false, and no lookup writes to an existing context. *)
Theorem context_cache_lookup (env : ProcessEnv) :
  (forall opener path parsed_url σ ctx l c,
     azure_context_caching opener = true ->
     client_context opener = Some ctx ->
     registered_state σ !! AzureParsedUrl.storage_account_name parsed_url = Some l ->
     contexts σ !! l = Some c ->
     AzureContextState.IsValid c = true ->
     GetOrCreateStorageContext env opener path parsed_url σ = (Ok l, σ))
  /\ (forall opener path parsed_url σ ctx,
        azure_context_caching opener = true ->
        client_context opener = Some ctx ->
        (registered_state σ !! AzureParsedUrl.storage_account_name parsed_url = None
         \/ exists l c0,
              registered_state σ !! AzureParsedUrl.storage_account_name parsed_url = Some l
              /\ contexts σ !! l = Some c0
              /\ AzureContextState.IsValid c0 = false) ->
        (forall client,
           ConnectToStorageAccount env opener path parsed_url = Ok client ->
           GetOrCreateStorageContext env opener path parsed_url σ
           = (Ok (fresh (in_use σ)),
              {| registered_state :=
                   <[AzureParsedUrl.storage_account_name parsed_url := fresh (in_use σ)]>
                     (registered_state σ);
                 contexts :=
                   <[fresh (in_use σ) :=
                       AzureContextState.make client (ParseAzureReadOptions opener)]>
                     (contexts σ) |})
           /\ AzureContextState.IsValid
                (AzureContextState.make client (ParseAzureReadOptions opener)) = true)
        /\ (forall e,
              ConnectToStorageAccount env opener path parsed_url = Throw e ->
              GetOrCreateStorageContext env opener path parsed_url σ = (Throw e, σ)))
  /\ (forall σ : Session,
        (fresh (in_use σ) ∉ dom (contexts σ))
        /\ (forall key, registered_state σ !! key ≠ Some (fresh (in_use σ))))
  /\ (forall opener path1 url1 path2 url2 σ l σ1,
        azure_context_caching opener = true ->
        AzureParsedUrl.storage_account_name url2 = AzureParsedUrl.storage_account_name url1 ->
        GetOrCreateStorageContext env opener path1 url1 σ = (Ok l, σ1) ->
        GetOrCreateStorageContext env opener path2 url2 σ1 = (Ok l, σ1))
  /\ (forall opener path1 url1 path2 url2 σ l σ1 client,
        azure_context_caching opener = true ->
        AzureParsedUrl.storage_account_name url2 = AzureParsedUrl.storage_account_name url1 ->
        GetOrCreateStorageContext env opener path1 url1 σ = (Ok l, σ1) ->
        ConnectToStorageAccount env opener path2 url2 = Ok client ->
        exists l' σ2,
          GetOrCreateStorageContext env opener path2 url2 (session_end σ1) = (Ok l', σ2)
          /\ (l' ≠ l)
          /\ contexts σ2 !! l'
             = Some (AzureContextState.make client (ParseAzureReadOptions opener))
          /\ registered_state σ2 !! AzureParsedUrl.storage_account_name url2 = Some l'
          /\ exists c_old,
               contexts σ2 !! l = Some c_old /\ AzureContextState.IsValid c_old = false)
  /\ (forall opener path1 url1 path2 url2 σ client1 client2,
        azure_context_caching opener = false ->
        ConnectToStorageAccount env opener path1 url1 = Ok client1 ->
        ConnectToStorageAccount env opener path2 url2 = Ok client2 ->
        exists l1 σ1 l2 σ2,
          GetOrCreateStorageContext env opener path1 url1 σ = (Ok l1, σ1)
          /\ GetOrCreateStorageContext env opener path2 url2 σ1 = (Ok l2, σ2)
          /\ (l1 ≠ l2)
          /\ (l1 ∉ dom (contexts σ))
          /\ (l2 ∉ dom (contexts σ1))
          /\ contexts σ2 !! l1
             = Some (AzureContextState.make client1 (ParseAzureReadOptions opener))
          /\ contexts σ2 !! l2
             = Some (AzureContextState.make client2 (ParseAzureReadOptions opener))
          /\ registered_state σ2 = registered_state σ)
  /\ (forall opener path parsed_url σ e,
        azure_context_caching opener = false ->
        ConnectToStorageAccount env opener path parsed_url = Throw e ->
        GetOrCreateStorageContext env opener path parsed_url σ = (Throw e, σ))
  /\ (forall opener,
        bool_settings opener !! "azure_context_caching" = None ->
        azure_context_caching opener = true)
  /\ (forall c, AzureContextState.IsValid (AzureContextState.QueryEnd c) = false)
  /\ (forall opener path parsed_url σ r σ1 l0 c0,
        GetOrCreateStorageContext env opener path parsed_url σ = (r, σ1) ->
        contexts σ !! l0 = Some c0 ->
        contexts σ1 !! l0 = Some c0).
Proof.
  split; [intros; eapply GetOrCreateStorageContext_hit; eassumption|].
  split.
  { intros opener path parsed_url σ ctx Hc Hctx Hstate. split.
    - intros client Hcr. split; [|reflexivity].
      eapply GetOrCreateStorageContext_build; try eassumption.
      apply CreateStorageContext_connect, Hcr.
    - intros e Hcr.
      eapply GetOrCreateStorageContext_build_throws; try eassumption.
      apply CreateStorageContext_throw, Hcr. }
  split.
  { intros σ. split; [apply fresh_context_address|].
    intros key. apply fresh_address_not_registered. }
  split.
  { intros opener path1 url1 path2 url2 σ l σ1 Hc Hkey H1.
    destruct (GetOrCreateStorageContext_caching_ok env _ _ _ _ _ _ Hc H1)
      as ([ctx Hctx] & Hreg & c & Hl & Hv).
    eapply GetOrCreateStorageContext_hit; try eassumption.
    rewrite Hkey. exact Hreg. }
  split.
  { intros opener path1 url1 path2 url2 σ l σ1 client Hc Hkey H1 Hcr.
    destruct (GetOrCreateStorageContext_caching_ok env _ _ _ _ _ _ Hc H1)
      as ([ctx Hctx] & Hreg & c1 & Hl & Hv).
    destruct (session_end_invalidates σ1 _ l c1 Hreg Hl) as [Hreg' Hl'].
    rewrite (GetOrCreateStorageContext_build env opener path2 url2 (session_end σ1) ctx
               (AzureContextState.make client (ParseAzureReadOptions opener)));
      try assumption.
    - assert (Hne : fresh (in_use (session_end σ1)) ≠ l).
      { intros Heq. apply (fresh_context_address (session_end σ1)).
        rewrite Heq. apply elem_of_dom. eauto. }
      do 2 eexists. split; [reflexivity|]. cbn [contexts registered_state].
      split; [exact Hne|].
      split; [apply lookup_insert_eq|].
      split; [apply lookup_insert_eq|].
      exists (AzureContextState.QueryEnd c1).
      split; [|reflexivity].
      rewrite lookup_insert_ne by exact Hne. exact Hl'.
    - right. exists l, (AzureContextState.QueryEnd c1).
      rewrite Hkey. split; [exact Hreg'|]. split; [exact Hl' | reflexivity].
    - apply CreateStorageContext_connect, Hcr. }
  split.
  { intros opener path1 url1 path2 url2 σ client1 client2 Hc Hcr1 Hcr2.
    apply CreateStorageContext_connect in Hcr1, Hcr2.
    rewrite (GetOrCreateStorageContext_no_caching env opener path1 url1 σ _ Hc Hcr1).
    do 2 eexists.
    rewrite (GetOrCreateStorageContext_no_caching env opener path2 url2 _ _ Hc Hcr2).
    do 2 eexists. split; [reflexivity|]. split; [reflexivity|].
    cbn [contexts registered_state].
    set (c1 := AzureContextState.make client1 (ParseAzureReadOptions opener)).
    set (σ1 := {| registered_state := registered_state σ;
                  contexts := <[fresh (in_use σ) := c1]> (contexts σ) |}).
    pose proof (fresh_context_address σ1) as Hfresh2. cbn [σ1 contexts] in Hfresh2.
    assert (Hne : fresh (in_use σ) ≠ fresh (in_use σ1)).
    { intros Heq. apply Hfresh2. rewrite <- Heq.
      apply elem_of_dom. rewrite lookup_insert_eq. eauto. }
    split; [exact Hne|].
    split; [apply fresh_context_address|].
    split; [exact Hfresh2|].
    split; [rewrite lookup_insert_ne by congruence; apply lookup_insert_eq|].
    split; [apply lookup_insert_eq | reflexivity]. }
  split.
  { intros opener path parsed_url σ e Hc Hcr.
    eapply GetOrCreateStorageContext_no_caching_throws; [exact Hc|].
    apply CreateStorageContext_throw, Hcr. }
  split; [intros opener Hunset; unfold azure_context_caching; rewrite Hunset; reflexivity|].
  split; [reflexivity|].
  intros. eapply GetOrCreateStorageContext_preserves; eassumption.
Qed.

Lemma context_cache_lookup_witness :
  azure_context_caching SessionSamples.opener = true
  /\ ConnectToStorageAccount SessionSamples.env SessionSamples.opener SessionSamples.path
       SessionSamples.parsed_url = Ok SessionSamples.client
  /\ GetOrCreateStorageContext SessionSamples.env SessionSamples.opener SessionSamples.path
       SessionSamples.parsed_url SessionSamples.empty_session
     = (Ok 0%nat, SessionSamples.session_after_lookup)
  /\ contexts SessionSamples.session_after_lookup !! 0%nat
     = Some (AzureContextState.make SessionSamples.client
               (ParseAzureReadOptions SessionSamples.opener))
  /\ GetOrCreateStorageContext SessionSamples.env SessionSamples.opener SessionSamples.path
       SessionSamples.parsed_url SessionSamples.session_after_lookup
     = (Ok 0%nat, SessionSamples.session_after_lookup)
  /\ (exists l' σ2,
        GetOrCreateStorageContext SessionSamples.env SessionSamples.opener
          SessionSamples.path SessionSamples.parsed_url
          (session_end SessionSamples.session_after_lookup)
        = (Ok l', σ2)
        /\ l' ≠ 0%nat
        /\ contexts σ2 !! l'
           = Some (AzureContextState.make SessionSamples.client
                     (ParseAzureReadOptions SessionSamples.opener)))
  /\ azure_context_caching SessionSamples.opener_no_caching = false
  /\ ConnectToStorageAccount SessionSamples.env SessionSamples.opener_no_caching
       SessionSamples.path SessionSamples.parsed_url = Ok SessionSamples.client
  /\ (exists l1 σ1 l2 σ2,
        GetOrCreateStorageContext SessionSamples.env SessionSamples.opener_no_caching
          SessionSamples.path SessionSamples.parsed_url SessionSamples.empty_session
        = (Ok l1, σ1)
        /\ GetOrCreateStorageContext SessionSamples.env SessionSamples.opener_no_caching
             SessionSamples.path SessionSamples.parsed_url σ1
           = (Ok l2, σ2)
        /\ l1 ≠ l2
        /\ registered_state σ2 = registered_state SessionSamples.empty_session)
  /\ ConnectToStorageAccount SessionSamples.env SessionSamples.opener
       "az://container/blob" SessionSamples.short_url
     = Throw (InvalidInputException no_credentials_message)
  /\ GetOrCreateStorageContext SessionSamples.env SessionSamples.opener
       "az://container/blob" SessionSamples.short_url SessionSamples.empty_session
     = (Throw (InvalidInputException no_credentials_message), SessionSamples.empty_session).
Proof.
  assert (Hcr : ConnectToStorageAccount SessionSamples.env SessionSamples.opener
                  SessionSamples.path SessionSamples.parsed_url = Ok SessionSamples.client)
    by (vm_compute; reflexivity).
  assert (Hcr' : ConnectToStorageAccount SessionSamples.env SessionSamples.opener_no_caching
                   SessionSamples.path SessionSamples.parsed_url = Ok SessionSamples.client)
    by (vm_compute; reflexivity).
  assert (Hthrow : ConnectToStorageAccount SessionSamples.env SessionSamples.opener
                     "az://container/blob" SessionSamples.short_url
                   = Throw (InvalidInputException no_credentials_message))
    by (vm_compute; reflexivity).
  pose proof (context_cache_lookup SessionSamples.env)
    as (_ & Hbuild & _ & Htwice & Hend & Hoff & _).
  destruct (Hbuild SessionSamples.opener SessionSamples.path SessionSamples.parsed_url
              SessionSamples.empty_session SessionSamples.no_secrets eq_refl eq_refl
              (or_introl eq_refl)) as [Hok _].
  destruct (Hok SessionSamples.client Hcr) as [H1 _].
  change (GetOrCreateStorageContext SessionSamples.env SessionSamples.opener
            SessionSamples.path SessionSamples.parsed_url SessionSamples.empty_session
          = (Ok 0%nat, SessionSamples.session_after_lookup)) in H1.
  split; [reflexivity|].
  split; [exact Hcr|].
  split; [exact H1|].
  split; [reflexivity|].
  split.
  { exact (Htwice SessionSamples.opener SessionSamples.path SessionSamples.parsed_url
             SessionSamples.path SessionSamples.parsed_url SessionSamples.empty_session
             0%nat SessionSamples.session_after_lookup eq_refl eq_refl H1). }
  split.
  { destruct (Hend SessionSamples.opener SessionSamples.path SessionSamples.parsed_url
                SessionSamples.path SessionSamples.parsed_url SessionSamples.empty_session
                0%nat SessionSamples.session_after_lookup SessionSamples.client
                eq_refl eq_refl H1 Hcr) as (l' & σ2 & Hr & Hne & Hnew & _).
    exists l', σ2. split; [exact Hr|]. split; [exact Hne | exact Hnew]. }
  split; [reflexivity|].
  split; [exact Hcr'|].
  split.
  { destruct (Hoff SessionSamples.opener_no_caching SessionSamples.path
                SessionSamples.parsed_url SessionSamples.path SessionSamples.parsed_url
                SessionSamples.empty_session SessionSamples.client SessionSamples.client
                eq_refl Hcr' Hcr')
      as (l1 & σ1 & l2 & σ2 & Hr1 & Hr2 & Hne & _ & _ & _ & _ & Hreg).
    exists l1, σ1, l2, σ2.
    split; [exact Hr1|]. split; [exact Hr2|]. split; [exact Hne | exact Hreg]. }
  split; [exact Hthrow|].
  destruct (Hbuild SessionSamples.opener "az://container/blob"
              SessionSamples.short_url SessionSamples.empty_session SessionSamples.no_secrets
              eq_refl eq_refl (or_introl eq_refl)) as [_ Hfail].
  exact (Hfail _ Hthrow).
Defined.

(** ** Credential resolver *)

Section CredentialFacts.

Variable env : ProcessEnv.

Lemma empty_false_iff (s : string) : StdString.empty s = false <-> s ≠ "".
Proof. destruct s; cbn; split; congruence. Qed.

Lemma empty_true_iff (s : string) : StdString.empty s = true <-> s = "".
Proof. destruct s; cbn; split; congruence. Qed.

(** The check in terms of the compared field. *)
Lemma ConnectionStringMatchStorageAccountName_field connection_string account :
  account ≠ "" ->
  ConnectionStringMatchStorageAccountName connection_string account
  = match account_name_field connection_string account with
    | None => Throw (InvalidInputException invalid_connection_string_message)
    | Some field => Ok (String.eqb field account)
    end.
Proof.
  intros Hne. unfold ConnectionStringMatchStorageAccountName, account_name_field.
  apply empty_false_iff in Hne. rewrite Hne.
  destruct (StdString.find connection_string "AccountName=" 0); reflexivity.
Qed.

Lemma service_principal_dispatch opener secret account endpoint :
  provider secret = "service_principal" ->
  GetStorageAccountClient_secret env opener secret account endpoint
  = GetStorageAccountClientFromServicePrincipalProvider env opener secret account endpoint.
Proof. unfold GetStorageAccountClient_secret. intros ->. reflexivity. Qed.

Lemma config_dispatch opener secret account endpoint :
  provider secret = "config" ->
  GetStorageAccountClient_secret env opener secret account endpoint
  = GetStorageAccountClientFromConfigProvider env opener secret account endpoint.
Proof. unfold GetStorageAccountClient_secret. intros ->. reflexivity. Qed.

End CredentialFacts.

(** C9. For a secret whose provider is [service_principal]: without a tenant
    id or without a client id no client is built, and the failure is
    [MissingField]; without a client secret and without a certificate path
    (absent, or empty) no client is built, and, tenant id and client id being
    there, the failure is [InvalidConfig]. The transport options are
    resolved first: the kind of the failure is stated for an opener whose
    transport type resolves. *)
Theorem service_principal_requires_fields (env : ProcessEnv) (opener : FileOpener)
    (secret : KeyValueSecret) (account endpoint : string) :
  provider secret = "service_principal" ->
  (TryGetValue secret "tenant_id" = None \/ TryGetValue secret "client_id" = None ->
   is_ok (GetStorageAccountClient_secret env opener secret account endpoint) = false
   /\ (is_ok (GetTransportOptions_secret env opener secret) = true ->
       exists e,
         GetStorageAccountClient_secret env opener secret account endpoint = Throw e
         /\ ErrorKind.MissingField e))
  /\ (default "" (TryGetValue secret "client_secret") = "" ->
      default "" (TryGetValue secret "client_certificate_path") = "" ->
      is_ok (GetStorageAccountClient_secret env opener secret account endpoint) = false
      /\ (is_ok (GetTransportOptions_secret env opener secret) = true ->
          is_Some (TryGetValue secret "tenant_id") ->
          is_Some (TryGetValue secret "client_id") ->
          GetStorageAccountClient_secret env opener secret account endpoint
          = Throw (InvalidInputException missing_client_credential_message)
          /\ ErrorKind.InvalidConfig (InvalidInputException missing_client_credential_message))).
Proof.
  intros Hp. rewrite (service_principal_dispatch env _ _ _ _ Hp).
  unfold GetStorageAccountClientFromServicePrincipalProvider, TryGetValue_required, TryGetValue.
  split.
  - intros Hmissing.
    destruct (GetTransportOptions_secret env opener secret) as [t|e]; cbn;
      [|split; [reflexivity | discriminate]].
    destruct (secret_map secret !! "tenant_id") as [tenant|] eqn:Ht; cbn.
    + destruct (secret_map secret !! "client_id") as [client|] eqn:Hc; cbn.
      * destruct Hmissing; discriminate.
      * split; [reflexivity|]. intros _. eexists. split; [reflexivity|].
        exists "client_id". reflexivity.
    + split; [reflexivity|]. intros _. eexists. split; [reflexivity|].
      exists "tenant_id". reflexivity.
  - intros -> ->.
    destruct (GetTransportOptions_secret env opener secret) as [t|e]; cbn;
      [|split; [reflexivity | discriminate]].
    destruct (secret_map secret !! "tenant_id") as [tenant|]; cbn.
    + destruct (secret_map secret !! "client_id") as [client|]; cbn.
      * split; [reflexivity|]. intros _ _ _. split; [reflexivity|]. left. reflexivity.
      * split; [reflexivity|]. intros _ _ [? [=]].
    + split; [reflexivity|]. intros _ [? [=]].
Qed.

Lemma service_principal_requires_fields_witness :
  provider SessionSamples.service_principal_secret = "service_principal"
  /\ default "" (TryGetValue SessionSamples.service_principal_secret "client_secret") = ""
  /\ default "" (TryGetValue SessionSamples.service_principal_secret "client_certificate_path") = ""
  /\ GetStorageAccountClient_secret SessionSamples.env SessionSamples.opener
       SessionSamples.service_principal_secret "acct" "ep"
     = Throw (InvalidInputException missing_client_credential_message)
  /\ provider SessionSamples.service_principal_without_tenant = "service_principal"
  /\ TryGetValue SessionSamples.service_principal_without_tenant "tenant_id" = None
  /\ exists e,
       GetStorageAccountClient_secret SessionSamples.env SessionSamples.opener
         SessionSamples.service_principal_without_tenant "acct" "ep" = Throw e
       /\ ErrorKind.MissingField e.
Proof.
  split; [reflexivity|].
  split; [reflexivity|].
  split; [reflexivity|].
  split.
  { destruct (service_principal_requires_fields SessionSamples.env SessionSamples.opener
                SessionSamples.service_principal_secret "acct" "ep" eq_refl) as [_ H].
    destruct (H eq_refl eq_refl) as [_ H'].
    apply H'.
    - reflexivity.
    - eexists. reflexivity.
    - eexists. reflexivity. }
  split; [reflexivity|].
  split; [reflexivity|].
  destruct (service_principal_requires_fields SessionSamples.env SessionSamples.opener
              SessionSamples.service_principal_without_tenant "acct" "ep" eq_refl)
    as [H _].
  destruct (H (or_introl eq_refl)) as [_ H'].
  exact (H' eq_refl).
Defined.

Section ConnectionStringFacts.

Variable env : ProcessEnv.

Lemma TryGetCurrentSetting_without_connection_string opener name :
  name ≠ "azure_storage_connection_string" ->
  TryGetCurrentSetting (without_connection_string opener) name
  = TryGetCurrentSetting opener name.
Proof.
  intros Hne. unfold TryGetCurrentSetting, without_connection_string. cbn.
  rewrite lookup_delete_ne by congruence. reflexivity.
Qed.

Lemma connection_string_removed opener :
  TryGetCurrentSetting (without_connection_string opener) "azure_storage_connection_string" = "".
Proof.
  unfold TryGetCurrentSetting, without_connection_string. cbn.
  rewrite lookup_delete_eq. reflexivity.
Qed.

(** What the fallback does once the connection string is out of the way. *)
Lemma GetStorageAccountClient_without_connection_string opener account endpoint :
  GetStorageAccountClient env (without_connection_string opener) account endpoint
  = (transport_options ← GetTransportOptions_opener env opener;
     let blob_options := ToBlobClientOptions transport_options (GetHttpState opener) in
     let endpoint :=
       if StdString.empty endpoint then
         let endpoint := TryGetCurrentSetting opener "azure_endpoint" in
         if StdString.empty endpoint then DEFAULT_ENDPOINT else endpoint
       else endpoint in
     let azure_account_name :=
       if StdString.empty account
       then TryGetCurrentSetting opener "azure_account_name"
       else account in
     if StdString.empty azure_account_name then
       Throw (InvalidInputException no_credentials_message)
     else
       let account_url := ("https://" ++ azure_account_name ++ "." ++ endpoint)%string in
       let credential_chain := TryGetCurrentSetting opener "azure_credential_chain" in
       if negb (StdString.empty credential_chain) then
         credential ← CreateChainedTokenCredential credential_chain transport_options;
         mret (Azure.CredentialClient account_url credential blob_options)
       else Ok (Azure.AnonymousClient account_url blob_options)).
Proof.
  unfold GetStorageAccountClient, GetTransportOptions_opener.
  rewrite connection_string_removed.
  rewrite !TryGetCurrentSetting_without_connection_string by discriminate.
  reflexivity.
Qed.

Lemma fallback_skip opener account endpoint :
  account ≠ "" ->
  TryGetCurrentSetting opener "azure_storage_connection_string" ≠ "" ->
  is_ok (GetTransportOptions_opener env opener) = true ->
  forall field,
    account_name_field (TryGetCurrentSetting opener "azure_storage_connection_string") account
    = Some field ->
    field ≠ account ->
    GetStorageAccountClient env opener account endpoint
    = GetStorageAccountClient env (without_connection_string opener) account endpoint.
Proof.
  intros Ha Hcs Ht field Hf Hne.
  rewrite GetStorageAccountClient_without_connection_string.
  unfold GetStorageAccountClient.
  destruct (GetTransportOptions_opener env opener) as [t|e]; [|discriminate]. cbn.
  apply empty_false_iff in Hcs. rewrite Hcs. cbn [negb].
  rewrite ConnectionStringMatchStorageAccountName_field, Hf by assumption.
  destruct (String.eqb_spec field account); [contradiction|]. reflexivity.
Qed.

Lemma fallback_not_from_connection_string opener account endpoint cs o :
  GetStorageAccountClient env (without_connection_string opener) account endpoint
  ≠ Ok (Azure.CreateFromConnectionString cs o).
Proof.
  rewrite GetStorageAccountClient_without_connection_string.
  destruct (GetTransportOptions_opener env opener) as [t|e]; cbn; [|discriminate].
  repeat match goal with
         | |- context [if ?b then _ else _] => destruct b
         end; cbn; try discriminate.
  all: destruct (CreateChainedTokenCredential _ _); cbn; discriminate.
Qed.

End ConnectionStringFacts.

(** C8, as stated, fails for the session-configuration fallback: a
    connection string that names another account is skipped there, not
    rejected. With [azure_storage_connection_string] naming account [other]
    and the URL naming [acct], the resolver returns an anonymous client for
    [https://acct.ep]. *)
Lemma fallback_skips_mismatched_connection_string :
  TryGetCurrentSetting SessionSamples.opener_with_connection_string
    "azure_storage_connection_string" = SessionSamples.other_connection_string
  /\ account_name_field SessionSamples.other_connection_string "acct" = Some "othe"
  /\ GetStorageAccountClient SessionSamples.env SessionSamples.opener_with_connection_string
       "acct" "ep"
     = Ok (Azure.AnonymousClient "https://acct.ep" SessionSamples.default_blob_options).
Proof. repeat split. Qed.

(** The comparison is on as many characters as the requested name has: a
    connection string for [other] is taken for account [oth]. *)
Lemma connection_string_matches_on_prefix :
  ConnectionStringMatchStorageAccountName SessionSamples.other_connection_string "oth" = Ok true
  /\ GetStorageAccountClient_secret SessionSamples.env SessionSamples.opener
       SessionSamples.config_secret "oth" "ep"
     = Ok (Azure.CreateFromConnectionString SessionSamples.other_connection_string
             SessionSamples.default_blob_options).
Proof. split; reflexivity. Qed.

(** C8, amended. When an account name was requested in the URL, the field
    compared with it is the text that follows the first [AccountName=] of the
    connection string, cut to the length of the requested name. A client is
    built from a connection string only if that field is the requested name.
    A connection string without [AccountName=] fails with
    [InvalidCredentials], from a [config] secret and from the session
    configuration alike. A field that differs from the requested name fails
    with [InvalidCredentials] for a [config] secret; for the session
    configuration the connection string is then skipped, and resolution goes
    on as if it were not set, to the credential chain or the anonymous
    client. *)
Theorem connection_string_account_check (env : ProcessEnv) (opener : FileOpener)
    (account endpoint : string) :
  account ≠ "" ->
  (forall secret connection_string,
     provider secret = "config" ->
     TryGetValue secret "connection_string" = Some connection_string ->
     (forall client,
        GetStorageAccountClient_secret env opener secret account endpoint = Ok client ->
        account_name_field connection_string account = Some account
        /\ exists options, client = Azure.CreateFromConnectionString connection_string options)
     /\ (is_ok (GetTransportOptions_secret env opener secret) = true ->
         (account_name_field connection_string account = None ->
          GetStorageAccountClient_secret env opener secret account endpoint
          = Throw (InvalidInputException invalid_connection_string_message))
         /\ (forall field,
               account_name_field connection_string account = Some field ->
               field ≠ account ->
               GetStorageAccountClient_secret env opener secret account endpoint
               = Throw (InvalidInputException (connection_string_mismatch_message account)))))
  /\ (TryGetCurrentSetting opener "azure_storage_connection_string" ≠ "" ->
      (forall connection_string options,
         GetStorageAccountClient env opener account endpoint
         = Ok (Azure.CreateFromConnectionString connection_string options) ->
         connection_string = TryGetCurrentSetting opener "azure_storage_connection_string"
         /\ account_name_field connection_string account = Some account)
      /\ (is_ok (GetTransportOptions_opener env opener) = true ->
          (account_name_field
             (TryGetCurrentSetting opener "azure_storage_connection_string") account = None ->
           GetStorageAccountClient env opener account endpoint
           = Throw (InvalidInputException invalid_connection_string_message))
          /\ (forall field,
                account_name_field
                  (TryGetCurrentSetting opener "azure_storage_connection_string") account
                = Some field ->
                field ≠ account ->
                GetStorageAccountClient env opener account endpoint
                = GetStorageAccountClient env (without_connection_string opener)
                    account endpoint
                /\ forall connection_string options,
                     GetStorageAccountClient env opener account endpoint
                     ≠ Ok (Azure.CreateFromConnectionString connection_string options))))
  /\ ErrorKind.InvalidCredentials (InvalidInputException invalid_connection_string_message)
  /\ ErrorKind.InvalidCredentials
       (InvalidInputException (connection_string_mismatch_message account)).
Proof.
  intros Ha.
  split; [|split; [|split]].
  - intros secret cs Hp Hcs.
    rewrite (config_dispatch env _ _ _ _ Hp).
    unfold GetStorageAccountClientFromConfigProvider. rewrite Hcs.
    rewrite ConnectionStringMatchStorageAccountName_field by assumption.
    destruct (GetTransportOptions_secret env opener secret) as [t|e]; cbn.
    + destruct (account_name_field cs account) as [field|]; cbn.
      * destruct (String.eqb_spec field account) as [->|Hne]; cbn.
        -- split.
           ++ intros client [= <-]. split; [reflexivity | eauto].
           ++ intros _. split; [discriminate|]. intros f [= <-] Hc. contradiction.
        -- split; [discriminate|]. intros _. split; [discriminate|]. reflexivity.
      * split; [discriminate|]. intros _. split; [reflexivity|]. discriminate.
    + split; discriminate.
  - intros Hcs. split.
    + intros cs o.
      unfold GetStorageAccountClient.
      destruct (GetTransportOptions_opener env opener) as [t|e]; cbn; [|discriminate].
      pose proof Hcs as Hcs'. apply empty_false_iff in Hcs'. rewrite Hcs'. cbn [negb].
      rewrite ConnectionStringMatchStorageAccountName_field by assumption.
      destruct (account_name_field _ account) as [field|] eqn:Hf; cbn; [|discriminate].
      destruct (String.eqb_spec field account) as [->|Hne].
      * intros [= <- _]. split; [reflexivity | exact Hf].
      * repeat match goal with
               | |- context [if ?b then _ else _] => destruct b
               end; cbn; try discriminate.
        all: destruct (CreateChainedTokenCredential _ _); cbn; discriminate.
    + intros Ht. split.
      * intros Hnone. unfold GetStorageAccountClient.
        destruct (GetTransportOptions_opener env opener) as [t|e]; [|discriminate]. cbn.
        pose proof Hcs as Hcs'. apply empty_false_iff in Hcs'. rewrite Hcs'. cbn [negb].
        rewrite ConnectionStringMatchStorageAccountName_field, Hnone by assumption.
        reflexivity.
      * intros field Hf Hne.
        rewrite (fallback_skip env opener account endpoint Ha Hcs Ht field Hf Hne).
        split; [reflexivity|]. intros cs o. apply fallback_not_from_connection_string.
  - left. reflexivity.
  - right. eexists. reflexivity.
Qed.

Lemma connection_string_account_check_witness :
  "acct" ≠ ""
  /\ provider SessionSamples.config_secret = "config"
  /\ TryGetValue SessionSamples.config_secret "connection_string"
     = Some SessionSamples.other_connection_string
  /\ is_ok (GetTransportOptions_secret SessionSamples.env SessionSamples.opener
              SessionSamples.config_secret) = true
  /\ account_name_field SessionSamples.other_connection_string "acct" = Some "othe"
  /\ "othe" ≠ "acct"
  /\ GetStorageAccountClient_secret SessionSamples.env SessionSamples.opener
       SessionSamples.config_secret "acct" "ep"
     = Throw (InvalidInputException (connection_string_mismatch_message "acct"))
  /\ TryGetCurrentSetting SessionSamples.opener_with_connection_string
       "azure_storage_connection_string" ≠ ""
  /\ is_ok (GetTransportOptions_opener SessionSamples.env
              SessionSamples.opener_with_connection_string) = true
  /\ GetStorageAccountClient SessionSamples.env SessionSamples.opener_with_connection_string
       "acct" "ep"
     = GetStorageAccountClient SessionSamples.env
         (without_connection_string SessionSamples.opener_with_connection_string)
         "acct" "ep".
Proof.
  assert (Ha : "acct" ≠ "") by discriminate.
  assert (Hne : "othe" ≠ "acct") by discriminate.
  assert (Hcs : TryGetCurrentSetting SessionSamples.opener_with_connection_string
                  "azure_storage_connection_string" ≠ "") by (vm_compute; discriminate).
  split; [exact Ha|].
  split; [reflexivity|].
  split; [reflexivity|].
  split; [reflexivity|].
  split; [reflexivity|].
  split; [exact Hne|].
  split.
  { destruct (connection_string_account_check SessionSamples.env SessionSamples.opener
                "acct" "ep" Ha) as [Hsecret _].
    destruct (Hsecret SessionSamples.config_secret SessionSamples.other_connection_string
                eq_refl eq_refl) as [_ Hfail].
    destruct (Hfail eq_refl) as [_ Hmismatch].
    exact (Hmismatch "othe" eq_refl Hne). }
  split; [exact Hcs|].
  split; [reflexivity|].
  destruct (connection_string_account_check SessionSamples.env
              SessionSamples.opener_with_connection_string "acct" "ep" Ha)
    as (_ & Hfallback & _).
  destruct (Hfallback Hcs) as [_ Hfail].
  destruct (Hfail eq_refl) as [_ Hskip].
  exact (proj1 (Hskip "othe" eq_refl Hne)).
Defined.

(** ** Listing and glob driver *)

Module ListingFacts.
Import Listing.

Lemma mem_char_find_first_of (s chars : string) :
  StdString.find_first_of s chars = None
  <-> forall c, StdString.mem_char c s = true -> StdString.mem_char c chars = false.
Proof.
  induction s as [|a s IH]; cbn.
  - split; [intros _ c; discriminate | reflexivity].
  - destruct (StdString.mem_char a chars) eqn:Ha.
    + split; [discriminate|]. intros H.
      specialize (H a). rewrite Ascii.eqb_refl in H. specialize (H eq_refl). congruence.
    + destruct (StdString.find_first_of s chars) as [n|].
      * split; [discriminate|]. intros H.
        assert (Some n = None) as [=]. apply IH. intros c Hc. apply H.
        destruct (Ascii.eqb c a); [reflexivity | exact Hc].
      * split; [|reflexivity]. intros _ c.
        destruct (Ascii.eqb_spec c a) as [->|_]; [intros _; exact Ha|].
        apply IH. reflexivity.
Qed.

(** The three characters the driver looks for. *)
Lemma no_wildcard_chars (s : string) :
  StdString.mem_char "*" s = false ->
  StdString.mem_char "[" s = false ->
  StdString.mem_char "\" s = false ->
  StdString.find_first_of s wildcard_chars = None.
Proof.
  intros Hstar Hbracket Hbackslash. apply mem_char_find_first_of.
  intros c Hc. unfold wildcard_chars. cbn.
  destruct (Ascii.eqb_spec c "*") as [->|_]; [congruence|].
  destruct (Ascii.eqb_spec c "[") as [->|_]; [congruence|].
  destruct (Ascii.eqb_spec c "\") as [->|_]; [congruence|].
  reflexivity.
Qed.

Section DriverFacts.

Variable env : ProcessEnv.
Variable SegmentGlob : string -> string -> bool.
Variable ListBlobs :
  Azure.BlobServiceClient -> string -> ListBlobsOptions ->
  sdk_failure + ListBlobsPagedResponse.

Lemma matching_urls_app azure_url pattern_splits blobs1 blobs2 :
  matching_urls SegmentGlob azure_url pattern_splits (blobs1 ++ blobs2)
  = matching_urls SegmentGlob azure_url pattern_splits blobs1
    ++ matching_urls SegmentGlob azure_url pattern_splits blobs2.
Proof. unfold matching_urls. rewrite List.filter_app, List.map_app. reflexivity. Qed.

(** When the listing ends after finitely many pages, the loop returns with
    as much fuel as there are pages: it has requested exactly these pages and
    collected the matches of each. *)
Lemma Glob_loop_pagination path client azure_url pattern_splits options pages :
  pagination ListBlobs client (AzureParsedUrl.container azure_url) options pages ->
  forall fuel found trace,
    Glob_loop SegmentGlob ListBlobs (List.length pages + fuel) path client azure_url
      pattern_splits options found trace
    = Some (Ok (found ++ matching_urls SegmentGlob azure_url pattern_splits (listed pages)),
            trace ++ pages.*1).
Proof.
  induction 1 as [options res Hl Ht | options res token pages Hl Ht Hp IH];
    intros fuel found trace; cbn [List.length Nat.add Glob_loop]; rewrite Hl, Ht.
  - cbn. rewrite app_nil_r. reflexivity.
  - rewrite IH. unfold listed. cbn [flat_map snd fmap list_fmap fst].
    fold (listed pages). rewrite matching_urls_app, <- !app_assoc. reflexivity.
Qed.

(** Conversely, a loop that returns a result has walked a finite listing. *)
Lemma Glob_loop_returns path client azure_url pattern_splits fuel :
  forall options found trace res trace',
    Glob_loop SegmentGlob ListBlobs fuel path client azure_url pattern_splits
      options found trace = Some (Ok res, trace') ->
    exists pages,
      pagination ListBlobs client (AzureParsedUrl.container azure_url) options pages
      /\ (List.length pages <= fuel)%nat
      /\ res = found ++ matching_urls SegmentGlob azure_url pattern_splits (listed pages)
      /\ trace' = trace ++ pages.*1.
Proof.
  induction fuel as [|fuel IH]; intros options found trace res trace'; cbn [Glob_loop];
    [discriminate|].
  destruct (ListBlobs client (AzureParsedUrl.container azure_url) options)
    as [e|page] eqn:Hl; [discriminate|].
  destruct (NextPageToken page) as [token|] eqn:Ht.
  - intros H. apply IH in H as (pages & Hp & Hlen & -> & ->).
    exists ((options, page) :: pages).
    split; [eapply pagination_next; eassumption|].
    split; [cbn; lia|].
    unfold listed. cbn [flat_map snd fmap list_fmap fst]. fold (listed pages).
    rewrite matching_urls_app, <- !app_assoc. split; reflexivity.
  - intros [= <- <-]. exists [(options, page)].
    split; [apply pagination_last; assumption|].
    split; [cbn; lia|].
    unfold listed. cbn. rewrite app_nil_r. split; reflexivity.
Qed.

Lemma pagination_deterministic client container options pages1 :
  pagination ListBlobs client container options pages1 ->
  forall pages2,
    pagination ListBlobs client container options pages2 -> pages1 = pages2.
Proof.
  induction 1 as [options res Hl Ht | options res token pages Hl Ht Hp IH];
    intros pages2 H2; inversion H2 as [o r Hl' Ht' | o r token' pages' Hl' Ht' Hp'];
    subst; rewrite Hl in Hl'; injection Hl' as <-; try congruence.
  rewrite Ht in Ht'. injection Ht' as <-. f_equal. apply IH, Hp'.
Qed.

Lemma pagination_head client container options pages :
  pagination ListBlobs client container options pages ->
  exists res rest, pages = (options, res) :: rest.
Proof. destruct 1; eauto. Qed.

(** Every request of a walk starts the walk that remains. *)
Lemma pagination_from_request client container options pages :
  pagination ListBlobs client container options pages ->
  forall before request res after,
    pages = before ++ (request, res) :: after ->
    pagination ListBlobs client container request ((request, res) :: after).
Proof.
  induction 1 as [options res Hl Ht | options res token pages Hl Ht Hp IH];
    intros before request res' after Heq.
  - destruct before as [|? [|? ?]]; try discriminate.
    injection Heq as <- <- <-. apply pagination_last; assumption.
  - destruct before as [|first before].
    + injection Heq as <- <- <-. eapply pagination_next; eassumption.
    + injection Heq as _ Heq. eapply IH, Heq.
Qed.

(** No page is requested twice. *)
Lemma pagination_NoDup client container options pages :
  pagination ListBlobs client container options pages -> NoDup pages.*1.
Proof.
  induction 1 as [options res Hl Ht | options res token pages Hl Ht Hp IH]; cbn.
  - apply NoDup_singleton.
  - apply NoDup_cons. split; [|exact IH].
    intros Hin. apply list_elem_of_fmap in Hin as ([request res'] & Heq & Hin).
    cbn in Heq. subst request.
    apply list_elem_of_split in Hin as (before & after & Hsplit).
    pose proof (pagination_from_request _ _ _ _ Hp _ _ _ _ Hsplit) as Hagain.
    pose proof (pagination_next _ _ _ _ _ _ _ Hl Ht Hp) as Hwhole.
    pose proof (pagination_deterministic _ _ _ _ Hagain _ Hwhole) as Heq.
    injection Heq as _ Heq.
    apply (f_equal (@List.length _)) in Hsplit.
    rewrite <- Heq, length_app in Hsplit. cbn in Hsplit. lia.
Qed.

Lemma GetOrCreateStorageContext_returns_context opener path parsed_url σ l σ1 :
  GetOrCreateStorageContext env opener path parsed_url σ = (Ok l, σ1) ->
  is_Some (contexts σ1 !! l).
Proof.
  destruct (azure_context_caching opener) eqn:Hc.
  - intros H.
    destruct (GetOrCreateStorageContext_caching_ok env _ _ _ _ _ _ Hc H)
      as (_ & _ & c & Hl & _).
    eauto.
  - unfold GetOrCreateStorageContext. rewrite Hc.
    destruct (CreateStorageContext env opener path parsed_url); intros [= <- <-].
    cbn. rewrite lookup_insert_eq. eauto.
Qed.

Lemma Glob_no_wildcard fuel path opener σ azure_url l σ1 :
  ParseUrl path = Ok azure_url ->
  GetOrCreateStorageContext env opener path azure_url σ = (Ok l, σ1) ->
  StdString.find_first_of (AzureParsedUrl.path azure_url) wildcard_chars = None ->
  Glob env SegmentGlob ListBlobs fuel path (Some opener) σ = Some (Ok [path], σ1, []).
Proof. unfold Glob. intros -> -> ->. reflexivity. Qed.

Lemma Glob_wildcard fuel path opener σ azure_url l σ1 ctx first_wildcard_pos :
  ParseUrl path = Ok azure_url ->
  GetOrCreateStorageContext env opener path azure_url σ = (Ok l, σ1) ->
  contexts σ1 !! l = Some ctx ->
  StdString.find_first_of (AzureParsedUrl.path azure_url) wildcard_chars
  = Some first_wildcard_pos ->
  Glob env SegmentGlob ListBlobs fuel path (Some opener) σ
  = match Glob_loop SegmentGlob ListBlobs fuel path (AzureContextState.service_client ctx)
            azure_url (StringUtil.Split (AzureParsedUrl.path azure_url) "/")
            {| Prefix := StdString.substr (AzureParsedUrl.path azure_url) 0 first_wildcard_pos;
               ContinuationToken := None |} [] [] with
    | None => None
    | Some (r, trace) => Some (r, σ1, trace)
    end.
Proof. unfold Glob. intros -> -> -> ->. reflexivity. Qed.

End DriverFacts.

(** C5, as stated, fails for the question mark, which is a wildcard of the
    pattern language and none for the driver. The blob path
    [data/file?.csv] holds a wildcard, yet [Glob] returns the input path
    alone and lists nothing, although the container has the blob
    [data/file1.csv], which the matcher accepts. For [data/fil?/*.csv] the
    first wildcard is the question mark at position 8, yet the prefix of the
    listing is [data/fil?/], the text before the star, so that the blob
    [data/file/x.csv], which the matcher accepts, is not among the results.
    It fails also for a URL with an endpoint and an empty account name: the
    results are built from the scheme and the container only. *)
Lemma Glob_question_mark_is_no_wildcard_for_the_driver :
  Match LikeFun.Glob (StringUtil.Split "data/file1.csv" "/")
    (StringUtil.Split "data/file?.csv" "/") = true
  /\ (exists σ1,
        Glob SessionSamples.env LikeFun.Glob ListBlobs_by_prefix 1
          "az://acct.ep/container/data/file?.csv" (Some SessionSamples.opener)
          SessionSamples.empty_session
        = Some (Ok ["az://acct.ep/container/data/file?.csv"], σ1, []))
  /\ StdString.find_first_of "data/fil?/*.csv" "*?[\" = Some 8%nat
  /\ StdString.substr "data/fil?/*.csv" 0 8 = "data/fil"
  /\ Match LikeFun.Glob (StringUtil.Split "data/file/x.csv" "/")
       (StringUtil.Split "data/fil?/*.csv" "/") = true
  /\ ListBlobs_by_prefix SessionSamples.client "container"
       {| Prefix := "data/fil"; ContinuationToken := None |}
     = inr {| Blobs := ["data/fil?/y.csv"; "data/file/x.csv"; "data/file1.csv"];
              NextPageToken := None |}
  /\ (exists σ1,
        Glob SessionSamples.env LikeFun.Glob ListBlobs_by_prefix 1
          "az://acct.ep/container/data/fil?/*.csv" (Some SessionSamples.opener)
          SessionSamples.empty_session
        = Some (Ok ["az://acct.ep/container/data/fil?/y.csv"], σ1,
                [{| Prefix := "data/fil?/"; ContinuationToken := None |}]))
  /\ ParseUrl "az://.ep/container/data/**/*.csv"
     = Ok (AzureParsedUrl.Build "container" "" "ep" "az://" "data/**/*.csv")
  /\ (exists σ1,
        Glob SessionSamples.env LikeFun.Glob SessionSamples.ListBlobs 2
          "az://.ep/container/data/**/*.csv" (Some opener_with_account_name)
          SessionSamples.empty_session
        = Some (Ok ["az://container/data/a/x.csv"; "az://container/data/b/c/y.csv"], σ1,
                [SessionSamples.first_page_options; SessionSamples.second_page_options])).
Proof.
  split; [reflexivity|].
  split; [eexists; vm_compute; reflexivity|].
  split; [reflexivity|]. split; [reflexivity|]. split; [reflexivity|].
  split; [reflexivity|].
  split; [eexists; vm_compute; reflexivity|].
  split; [vm_compute; reflexivity|].
  eexists. vm_compute. reflexivity.
Qed.

(** C5, amended. For a path that parses: without any of the characters [*],
    [[] and [\] in the blob path, [Glob] performs no listing call, and, the
    storage context being obtained, returns the input path alone; otherwise
    it lists with the prefix up to the first of these characters, and
    whenever the listing ends after finitely many pages it requests each of
    them once, each with the continuation token of the page before, stops at
    the first page without a token, and returns, in listing order, the URLs
    of the keys the matcher accepts for the whole pattern, each built from
    the scheme, the account name and the endpoint when the account name is
    not empty, the container and the key; a result is returned in no other
    way. For [data/**/*.csv] and the keys [data/a/x.csv],
    [data/a/x.parquet], [data/b/c/y.csv], listed over two pages, the result
    is the two CSV URLs, under either scheme spelling. *)
Theorem Glob_short_circuit_or_paginate (env : ProcessEnv)
    (SegmentGlob : string -> string -> bool)
    (ListBlobs : Azure.BlobServiceClient -> string -> ListBlobsOptions ->
                 sdk_failure + ListBlobsPagedResponse)
    (path : string) (opener : FileOpener) (σ : Session) (azure_url : AzureParsedUrl.t) :
  ParseUrl path = Ok azure_url ->
  (StdString.find_first_of (AzureParsedUrl.path azure_url) "*[\" = None ->
   forall fuel,
     exists r σ',
       Glob env SegmentGlob ListBlobs fuel path (Some opener) σ = Some (r, σ', [])
       /\ forall l σ1,
            GetOrCreateStorageContext env opener path azure_url σ = (Ok l, σ1) ->
            r = Ok [path] /\ σ' = σ1)
  /\ (forall first_wildcard_pos l σ1,
        StdString.find_first_of (AzureParsedUrl.path azure_url) "*[\"
        = Some first_wildcard_pos ->
        GetOrCreateStorageContext env opener path azure_url σ = (Ok l, σ1) ->
        exists ctx,
          contexts σ1 !! l = Some ctx
          /\ (forall pages,
                pagination ListBlobs (AzureContextState.service_client ctx)
                  (AzureParsedUrl.container azure_url)
                  {| Prefix := StdString.substr (AzureParsedUrl.path azure_url) 0
                                 first_wildcard_pos;
                     ContinuationToken := None |} pages ->
                NoDup pages.*1
                /\ forall fuel,
                     Glob env SegmentGlob ListBlobs (List.length pages + fuel) path
                       (Some opener) σ
                     = Some (Ok (matching_urls SegmentGlob azure_url
                                   (StringUtil.Split (AzureParsedUrl.path azure_url) "/")
                                   (listed pages)),
                             σ1, pages.*1))
          /\ (forall fuel res σ' trace,
                Glob env SegmentGlob ListBlobs fuel path (Some opener) σ
                = Some (Ok res, σ', trace) ->
                exists pages,
                  pagination ListBlobs (AzureContextState.service_client ctx)
                    (AzureParsedUrl.container azure_url)
                    {| Prefix := StdString.substr (AzureParsedUrl.path azure_url) 0
                                   first_wildcard_pos;
                       ContinuationToken := None |} pages
                  /\ trace = pages.*1
                  /\ res = matching_urls SegmentGlob azure_url
                             (StringUtil.Split (AzureParsedUrl.path azure_url) "/")
                             (listed pages)
                  /\ σ' = σ1))
  /\ (forall key,
        result_full_url azure_url key
        = ((if StdString.empty (AzureParsedUrl.storage_account_name azure_url)
            then AzureParsedUrl.prefix azure_url ++ AzureParsedUrl.container azure_url
            else AzureParsedUrl.prefix azure_url
                 ++ AzureParsedUrl.storage_account_name azure_url ++ "."
                 ++ AzureParsedUrl.endpoint azure_url ++ "/"
                 ++ AzureParsedUrl.container azure_url)
           ++ "/" ++ key)%string)
  /\ Glob SessionSamples.env LikeFun.Glob SessionSamples.ListBlobs 2 SessionSamples.path
       (Some SessionSamples.opener) SessionSamples.empty_session
     = Some (Ok ["az://acct.ep/container/data/a/x.csv";
                 "az://acct.ep/container/data/b/c/y.csv"],
             SessionSamples.session_after_lookup,
             [SessionSamples.first_page_options; SessionSamples.second_page_options])
  /\ Glob SessionSamples.env LikeFun.Glob SessionSamples.ListBlobs 2 SessionSamples.path_azure
       (Some SessionSamples.opener) SessionSamples.empty_session
     = Some (Ok ["azure://acct.ep/container/data/a/x.csv";
                 "azure://acct.ep/container/data/b/c/y.csv"],
             SessionSamples.session_after_lookup,
             [SessionSamples.first_page_options; SessionSamples.second_page_options]).
Proof.
  intros Hparse.
  change "*[\" with wildcard_chars.
  split.
  { intros Hnone fuel. unfold Glob. rewrite Hparse.
    destruct (GetOrCreateStorageContext env opener path azure_url σ) as [[l|e] σ1].
    - rewrite Hnone. do 2 eexists. split; [reflexivity|].
      intros l' σ1' [= <- <-]. split; reflexivity.
    - do 2 eexists. split; [reflexivity|]. intros l σ1' [=]. }
  split; [|split; [reflexivity | split; vm_compute; reflexivity]].
  intros pos l σ1 Hpos Hctx.
  destruct (GetOrCreateStorageContext_returns_context env _ _ _ _ _ _ Hctx) as [ctx Hl].
  exists ctx. split; [exact Hl|]. split.
  - intros pages Hpages. split; [eapply pagination_NoDup, Hpages|].
    intros fuel.
    rewrite (Glob_wildcard env SegmentGlob ListBlobs _ _ _ _ _ _ _ _ _ Hparse Hctx Hl Hpos).
    rewrite (Glob_loop_pagination SegmentGlob ListBlobs _ _ _ _ _ _ Hpages).
    reflexivity.
  - intros fuel res σ' trace.
    rewrite (Glob_wildcard env SegmentGlob ListBlobs _ _ _ _ _ _ _ _ _ Hparse Hctx Hl Hpos).
    destruct (Glob_loop _ _ _ _ _ _ _ _ _ _) as [[r tr]|] eqn:Hloop; [|discriminate].
    intros [= -> <- <-].
    apply Glob_loop_returns in Hloop as (pages & Hp & _ & -> & ->).
    exists pages. repeat split; assumption || reflexivity.
Qed.

Lemma Glob_short_circuit_or_paginate_witness :
  ParseUrl SessionSamples.path = Ok SessionSamples.parsed_url
  /\ StdString.find_first_of (AzureParsedUrl.path SessionSamples.parsed_url) "*[\"
     = Some 5%nat
  /\ GetOrCreateStorageContext SessionSamples.env SessionSamples.opener SessionSamples.path
       SessionSamples.parsed_url SessionSamples.empty_session
     = (Ok 0%nat, SessionSamples.session_after_lookup)
  /\ exists ctx,
       contexts SessionSamples.session_after_lookup !! 0%nat = Some ctx
       /\ forall fuel res σ' trace,
            Glob SessionSamples.env LikeFun.Glob SessionSamples.ListBlobs fuel
              SessionSamples.path (Some SessionSamples.opener) SessionSamples.empty_session
            = Some (Ok res, σ', trace) ->
            exists pages,
              pagination SessionSamples.ListBlobs (AzureContextState.service_client ctx)
                "container" SessionSamples.first_page_options pages
              /\ trace = pages.*1.
Proof.
  assert (Hparse : ParseUrl SessionSamples.path = Ok SessionSamples.parsed_url)
    by (vm_compute; reflexivity).
  assert (Hctx : GetOrCreateStorageContext SessionSamples.env SessionSamples.opener
                   SessionSamples.path SessionSamples.parsed_url SessionSamples.empty_session
                 = (Ok 0%nat, SessionSamples.session_after_lookup))
    by (vm_compute; reflexivity).
  assert (Hpos : StdString.find_first_of (AzureParsedUrl.path SessionSamples.parsed_url)
                   "*[\" = Some 5%nat) by reflexivity.
  split; [exact Hparse|].
  split; [exact Hpos|].
  split; [exact Hctx|].
  destruct (Glob_short_circuit_or_paginate SessionSamples.env LikeFun.Glob
              SessionSamples.ListBlobs SessionSamples.path SessionSamples.opener
              SessionSamples.empty_session SessionSamples.parsed_url Hparse)
    as (_ & Hwild & _).
  destruct (Hwild 5%nat 0%nat SessionSamples.session_after_lookup Hpos Hctx)
    as (ctx & Hl & _ & Hinv).
  exists ctx. split; [exact Hl|].
  intros fuel res σ' trace Hglob.
  destruct (Hinv fuel res σ' trace Hglob) as (pages & Hp & Ht & _).
  exists pages. split; [exact Hp | exact Ht].
Defined.

(** C10. The short-circuit of [Glob] looks for [*], [[] and [\] only. For a
    path that parses, a blob path that contains a question mark and none of
    these three characters makes [Glob] perform no listing call and, the
    storage context being obtained, return the input path alone, whatever
    the per-segment matcher is; the question mark is not among the
    characters looked for, although the matcher takes it for any one
    character, so that the key [data/file1.csv] would match the pattern
    [data/file?.csv]. *)
Theorem Glob_question_mark_short_circuits (env : ProcessEnv)
    (SegmentGlob : string -> string -> bool)
    (ListBlobs : Azure.BlobServiceClient -> string -> ListBlobsOptions ->
                 sdk_failure + ListBlobsPagedResponse)
    (fuel : nat) (path : string) (opener : FileOpener) (σ : Session)
    (azure_url : AzureParsedUrl.t) :
  ParseUrl path = Ok azure_url ->
  StdString.mem_char "?" (AzureParsedUrl.path azure_url) = true ->
  StdString.mem_char "*" (AzureParsedUrl.path azure_url) = false ->
  StdString.mem_char "[" (AzureParsedUrl.path azure_url) = false ->
  StdString.mem_char "\" (AzureParsedUrl.path azure_url) = false ->
  (exists r σ',
     Glob env SegmentGlob ListBlobs fuel path (Some opener) σ = Some (r, σ', [])
     /\ forall l σ1,
          GetOrCreateStorageContext env opener path azure_url σ = (Ok l, σ1) ->
          r = Ok [path] /\ σ' = σ1)
  /\ StdString.mem_char "?" wildcard_chars = false
  /\ (forall c, LikeFun.Glob (String c "") "?" = true)
  /\ Match LikeFun.Glob (StringUtil.Split "data/file1.csv" "/")
       (StringUtil.Split "data/file?.csv" "/") = true.
Proof.
  intros Hparse _ Hstar Hbracket Hbackslash.
  split.
  - pose proof (no_wildcard_chars _ Hstar Hbracket Hbackslash) as Hnone.
    unfold Glob. rewrite Hparse.
    destruct (GetOrCreateStorageContext env opener path azure_url σ) as [[l|e] σ1].
    + rewrite Hnone. do 2 eexists. split; [reflexivity|].
      intros l' σ1' [= <- <-]. split; reflexivity.
    + do 2 eexists. split; [reflexivity|]. intros l σ1' [=].
  - split; [reflexivity|]. split; [intros c; reflexivity | reflexivity].
Qed.

Lemma Glob_question_mark_short_circuits_witness :
  ParseUrl SessionSamples.question_mark_path = Ok SessionSamples.question_mark_url
  /\ StdString.mem_char "?" (AzureParsedUrl.path SessionSamples.question_mark_url) = true
  /\ StdString.mem_char "*" (AzureParsedUrl.path SessionSamples.question_mark_url) = false
  /\ StdString.mem_char "[" (AzureParsedUrl.path SessionSamples.question_mark_url) = false
  /\ StdString.mem_char "\" (AzureParsedUrl.path SessionSamples.question_mark_url) = false
  /\ GetOrCreateStorageContext SessionSamples.env SessionSamples.opener
       SessionSamples.question_mark_path SessionSamples.question_mark_url
       SessionSamples.empty_session
     = (Ok 0%nat, SessionSamples.session_after_lookup)
  /\ Glob SessionSamples.env LikeFun.Glob SessionSamples.ListBlobs 0
       SessionSamples.question_mark_path (Some SessionSamples.opener)
       SessionSamples.empty_session
     = Some (Ok [SessionSamples.question_mark_path], SessionSamples.session_after_lookup, []).
Proof.
  assert (Hparse : ParseUrl SessionSamples.question_mark_path
                   = Ok SessionSamples.question_mark_url) by (vm_compute; reflexivity).
  assert (Hctx : GetOrCreateStorageContext SessionSamples.env SessionSamples.opener
                   SessionSamples.question_mark_path SessionSamples.question_mark_url
                   SessionSamples.empty_session
                 = (Ok 0%nat, SessionSamples.session_after_lookup))
    by (vm_compute; reflexivity).
  split; [exact Hparse|].
  split; [reflexivity|].
  split; [reflexivity|].
  split; [reflexivity|].
  split; [reflexivity|].
  split; [exact Hctx|].
  destruct (Glob_question_mark_short_circuits SessionSamples.env LikeFun.Glob
              SessionSamples.ListBlobs 0 SessionSamples.question_mark_path
              SessionSamples.opener SessionSamples.empty_session
              SessionSamples.question_mark_url
              Hparse eq_refl eq_refl eq_refl eq_refl) as [(r & σ' & Hglob & Hok) _].
  destruct (Hok 0%nat SessionSamples.session_after_lookup Hctx) as [-> ->].
  exact Hglob.
Defined.

End ListingFacts.

(** ** URL parser *)

Module UrlFacts.

Lemma string_app_cons (a : ascii) (s t : string) :
  (String a s ++ t)%string = String a (s ++ t)%string.
Proof. reflexivity. Qed.

Lemma string_app_nil (t : string) : ("" ++ t)%string = t.
Proof. reflexivity. Qed.

Lemma string_app_assoc (s t u : string) : ((s ++ t) ++ u = s ++ (t ++ u))%string.
Proof.
  induction s as [|a s IH]; [reflexivity|].
  rewrite !string_app_cons, IH. reflexivity.
Qed.

Lemma string_length_app (s t : string) :
  String.length (s ++ t)%string = String.length s + String.length t.
Proof.
  induction s as [|a s IH]; [reflexivity|].
  rewrite string_app_cons. cbn [String.length]. rewrite IH. reflexivity.
Qed.

Lemma prefix_empty (s : string) : String.prefix "" s = true.
Proof. destruct s; reflexivity. Qed.

Lemma prefix_char (c a : ascii) (s : string) :
  String.prefix (String c "") (String a s) = Ascii.eqb c a.
Proof.
  cbn. destruct (ascii_dec c a) as [->|Hne].
  - rewrite Ascii.eqb_refl. apply prefix_empty.
  - symmetry. apply Ascii.eqb_neq, Hne.
Qed.

Lemma index_skip (s t p : string) (n : nat) :
  String.index (String.length s + n) p (s ++ t)%string
  = option_map (Nat.add (String.length s)) (String.index n p t).
Proof.
  induction s as [|a s IH].
  - rewrite string_app_nil. cbn. destruct (String.index n p t); reflexivity.
  - rewrite string_app_cons. cbn [String.length Nat.add String.index]. rewrite IH.
    destruct (String.index n p t); reflexivity.
Qed.

(** A character that does not occur in [s] is found in [s ++ t] where it is
    found in [t]. *)
Lemma index_char_skip (c : ascii) (s t : string) :
  StdString.mem_char c s = false ->
  String.index 0 (String c "") (s ++ t)%string
  = option_map (Nat.add (String.length s)) (String.index 0 (String c "") t).
Proof.
  induction s as [|a s IH]; intros Hs.
  - rewrite string_app_nil. cbn. destruct (String.index 0 _ t); reflexivity.
  - cbn in Hs. destruct (Ascii.eqb c a) eqn:Hca; [discriminate|].
    rewrite string_app_cons. cbn [String.index String.length].
    rewrite prefix_char, Hca, (IH Hs).
    destruct (String.index 0 _ t); reflexivity.
Qed.

Lemma index_char_head (c : ascii) (t : string) :
  String.index 0 (String c "") (String c t) = Some 0.
Proof. cbn [String.index]. rewrite prefix_char, Ascii.eqb_refl. reflexivity. Qed.

Lemma index_char_here (c : ascii) (s t : string) :
  StdString.mem_char c s = false ->
  String.index 0 (String c "") (s ++ String c t)%string = Some (String.length s).
Proof.
  intros Hs. rewrite index_char_skip, index_char_head by exact Hs.
  cbn. rewrite Nat.add_0_r. reflexivity.
Qed.

Lemma index_char_absent (c : ascii) (s : string) :
  StdString.mem_char c s = false -> String.index 0 (String c "") s = None.
Proof.
  induction s as [|a s IH]; intros Hs; [reflexivity|].
  cbn in Hs. destruct (Ascii.eqb c a) eqn:Hca; [discriminate|].
  cbn [String.index]. rewrite prefix_char, Hca, (IH Hs). reflexivity.
Qed.

Lemma substring_skip (s t : string) (n m : nat) :
  String.substring (String.length s + n) m (s ++ t)%string = String.substring n m t.
Proof.
  induction s as [|a s IH]; [reflexivity|].
  rewrite string_app_cons. cbn [String.length Nat.add String.substring]. exact IH.
Qed.

Lemma substring_prefix (s t : string) :
  String.substring 0 (String.length s) (s ++ t)%string = s.
Proof.
  induction s as [|a s IH].
  - rewrite string_app_nil. destruct t; reflexivity.
  - rewrite string_app_cons. cbn [String.length String.substring]. rewrite IH. reflexivity.
Qed.

Lemma substring_all (s : string) : String.substring 0 (String.length s) s = s.
Proof. induction s as [|a s IH]; cbn; congruence. Qed.

Lemma find_char_skip (s t : string) (c : ascii) (k : nat) :
  StdString.find_char (s ++ t) c (String.length s + k)
  = option_map (Nat.add (String.length s)) (StdString.find_char t c k).
Proof. apply index_skip. Qed.

Lemma substr_skip (s t : string) (k m : nat) :
  StdString.substr (s ++ t) (String.length s + k) m = StdString.substr t k m.
Proof. apply substring_skip. Qed.

Lemma substr_from_skip (s t : string) (k : nat) :
  StdString.substr_from (s ++ t) (String.length s + k) = StdString.substr_from t k.
Proof.
  unfold StdString.substr_from. rewrite string_length_app, substring_skip.
  f_equal. lia.
Qed.

Lemma scheme_accepted (scheme rest : string) :
  valid_scheme scheme ->
  U64.mul (StdString.rfind0 (scheme ++ rest) "azure://")
          (StdString.rfind0 (scheme ++ rest) "az://") = 0%Z.
Proof. intros [-> | ->]; destruct rest; reflexivity. Qed.

Lemma scheme_end (scheme rest : string) :
  valid_scheme scheme ->
  StdString.find (scheme ++ rest) "//" 0 = Some (String.length scheme - 2).
Proof. intros [-> | ->]; destruct rest; reflexivity. Qed.

Lemma scheme_length (scheme : string) :
  valid_scheme scheme -> String.length scheme - 2 + 2 = String.length scheme + 0.
Proof. intros [-> | ->]; reflexivity. Qed.

(** [ParseUrl] on a URL with one of the two schemes. *)
Lemma ParseUrl_after_scheme (scheme rest : string) :
  valid_scheme scheme ->
  ParseUrl (scheme ++ rest)%string = parse_after_scheme scheme rest.
Proof.
  intros Hs. unfold ParseUrl, parse_after_scheme.
  rewrite (scheme_accepted _ _ Hs), (scheme_end _ _ Hs), (scheme_length _ Hs).
  cbn [Z.eqb negb]. cbv zeta.
  rewrite !find_char_skip.
  assert (Hprefix : StdString.substr (scheme ++ rest) 0 (String.length scheme + 0) = scheme).
  { unfold StdString.substr. rewrite Nat.add_0_r. apply substring_prefix. }
  rewrite Hprefix.
  set (L := String.length scheme).
  destruct (StdString.find_char rest "/" 0) as [slash|]; cbn [option_map]; [|reflexivity].
  replace (L + slash - (L + 0)) with slash by lia.
  rewrite <- (Nat.add_assoc L slash 1).
  unfold L. rewrite substr_skip, substr_from_skip. fold L.
  destruct (StdString.find_char rest "." 0) as [dot|]; cbn [option_map]; [|reflexivity].
  replace (L + dot <? L + slash)%nat with (dot <? slash)%nat
    by (destruct (Nat.ltb_spec dot slash), (Nat.ltb_spec (L + dot) (L + slash));
        reflexivity || lia).
  destruct (dot <? slash)%nat; [|reflexivity].
  unfold L. rewrite find_char_skip. fold L.
  destruct (StdString.find_char rest "/" dot) as [cs|]; cbn [option_map]; [|reflexivity].
  rewrite <- (Nat.add_assoc L cs 1). unfold L. rewrite find_char_skip. fold L.
  destruct (StdString.find_char rest "/" (cs + 1)) as [ps|]; cbn [option_map];
    [|reflexivity].
  replace (L + ps - (L + cs) - 1) with (ps - cs - 1) by lia.
  replace (L + dot - (L + 0)) with dot by lia.
  replace (L + cs - (L + dot) - 1) with (cs - dot - 1) by lia.
  rewrite <- (Nat.add_assoc L dot 1), <- (Nat.add_assoc L ps 1).
  unfold L. rewrite !substr_skip, substr_from_skip. reflexivity.
Qed.

Lemma find_char_here (c : ascii) (s t : string) :
  StdString.mem_char c s = false ->
  StdString.find_char (s ++ String c t) c 0 = Some (String.length s).
Proof. apply index_char_here. Qed.

Lemma find_char_not_before (c : ascii) (s t : string) (d : nat) :
  StdString.mem_char c s = false ->
  StdString.find_char (s ++ t) c 0 = Some d -> String.length s <= d.
Proof.
  unfold StdString.find_char. intros Hs. rewrite (index_char_skip _ _ _ Hs).
  destruct (String.index 0 _ t); cbn; intros [=]. lia.
Qed.

Lemma substr_prefix (s t : string) : StdString.substr (s ++ t) 0 (String.length s) = s.
Proof. apply substring_prefix. Qed.

Lemma substr_from_0 (s : string) : StdString.substr_from s 0 = s.
Proof. unfold StdString.substr_from. rewrite Nat.sub_0_r. apply substring_all. Qed.

Lemma substr_from_after (s t : string) (c : ascii) :
  StdString.substr_from (s ++ String c t) (String.length s + 1) = t.
Proof.
  rewrite substr_from_skip. unfold StdString.substr_from.
  cbn [String.length Nat.sub String.substring]. rewrite Nat.sub_0_r. apply substring_all.
Qed.

(** The short shape: [<container>/[<path>]] after the scheme. *)
Lemma parse_short_shape (scheme container path : string) :
  container ≠ "" ->
  StdString.mem_char "/" container = false ->
  StdString.mem_char "." container = false ->
  parse_after_scheme scheme (container ++ String "/" path)
  = Ok (AzureParsedUrl.Build container "" "" scheme path).
Proof.
  intros Hne Hslash Hdot. unfold parse_after_scheme.
  rewrite (find_char_here _ _ _ Hslash).
  rewrite substr_prefix, substr_from_after.
  apply empty_false_iff in Hne. rewrite Hne.
  destruct (StdString.find_char _ "." 0) as [d|] eqn:Hd; [|reflexivity].
  apply find_char_not_before in Hd; [|exact Hdot].
  destruct (Nat.ltb_spec d (String.length container)); [lia | reflexivity].
Qed.

(** The fully-qualified shape:
    [<storage account>.<endpoint>/<container>/[<path>]] after the scheme. *)
Lemma parse_fully_qualified_shape (scheme account endpoint container path : string) :
  StdString.mem_char "." account = false ->
  StdString.mem_char "/" account = false ->
  StdString.mem_char "/" endpoint = false ->
  StdString.mem_char "/" container = false ->
  parse_after_scheme scheme
    (account ++ String "." (endpoint ++ String "/" (container ++ String "/" path)))
  = Ok (AzureParsedUrl.Build container account endpoint scheme path).
Proof.
  intros Hadot Haslash Heslash Hcslash.
  set (C := (container ++ String "/" path)%string).
  set (E := (endpoint ++ String "/" C)%string).
  set (la := String.length account).
  set (le := String.length endpoint).
  set (lc := String.length container).
  assert (HE0 : StdString.find_char (String "." E) "/" 0 = Some (1 + le)).
  { unfold StdString.find_char. cbn [String.index]. rewrite prefix_char. cbn [Ascii.eqb].
    change (String.index 0 "/" E) with (StdString.find_char E "/" 0).
    unfold E. rewrite (find_char_here _ _ _ Heslash). reflexivity. }
  assert (H1 : StdString.find_char (account ++ String "." E) "/" 0 = Some (la + (1 + le))).
  { unfold StdString.find_char. rewrite (index_char_skip _ _ _ Haslash).
    change (String.index 0 "/" (String "." E))
      with (StdString.find_char (String "." E) "/" 0).
    rewrite HE0. reflexivity. }
  assert (H2 : StdString.find_char (account ++ String "." E) "." 0 = Some la)
    by apply (find_char_here _ _ _ Hadot).
  assert (H3 : StdString.find_char (account ++ String "." E) "/" (la + 0)
               = Some (la + (1 + le))).
  { unfold la. rewrite find_char_skip, HE0. reflexivity. }
  assert (HC1 : StdString.find_char (String "/" C) "/" 1 = Some (1 + lc)).
  { unfold StdString.find_char. cbn [String.index].
    change (String.index 0 "/" C) with (StdString.find_char C "/" 0).
    unfold C. rewrite (find_char_here _ _ _ Hcslash). reflexivity. }
  assert (H4 : StdString.find_char (account ++ String "." E) "/" (la + (1 + le + 1))
               = Some (la + (1 + le + (1 + lc)))).
  { unfold la. rewrite find_char_skip.
    unfold StdString.find_char. cbn [Nat.add String.index].
    change (String.index (le + 1) "/" E) with (StdString.find_char E "/" (le + 1)).
    unfold E, le. rewrite find_char_skip, HC1. cbn [option_map]. f_equal; lia. }
  assert (S1 : StdString.substr (account ++ String "." E) (la + (1 + le + 1)) lc = container).
  { unfold la. rewrite substr_skip. unfold StdString.substr.
    cbn [Nat.add String.substring].
    change (String.substring (le + 1) lc E) with (StdString.substr E (le + 1) lc).
    unfold E, le. rewrite substr_skip. unfold StdString.substr.
    cbn [String.substring]. unfold C, lc. apply substring_prefix. }
  assert (S2 : StdString.substr (account ++ String "." E) 0 la = account)
    by apply substr_prefix.
  assert (S3 : StdString.substr (account ++ String "." E) (la + 1) le = endpoint).
  { unfold la. rewrite substr_skip. unfold StdString.substr.
    cbn [String.substring]. unfold E, le. apply substring_prefix. }
  assert (S4 : StdString.substr_from (account ++ String "." E) (la + (1 + le + (1 + lc) + 1))
               = path).
  { unfold la. rewrite substr_from_skip.
    replace (1 + le + (1 + lc) + 1) with (String.length (String "." endpoint) + (1 + lc + 1))
      by (cbn [String.length]; unfold le; lia).
    change (String "." E) with (String "." endpoint ++ String "/" C)%string.
    rewrite substr_from_skip.
    replace (1 + lc + 1) with (String.length (String "/" container) + 1)
      by (cbn [String.length]; unfold lc; lia).
    change (String "/" C) with (String "/" container ++ String "/" path)%string.
    apply substr_from_after. }
  unfold parse_after_scheme. rewrite H1, H2.
  destruct (Nat.ltb_spec la (la + (1 + le))) as [_|]; [|lia].
  rewrite <- (Nat.add_0_r la) at 1. rewrite H3.
  replace (la + (1 + le) + 1) with (la + (1 + le + 1)) by lia. rewrite H4.
  replace (la + (1 + le + (1 + lc)) - (la + (1 + le)) - 1) with lc by lia.
  replace (la + (1 + le) - la - 1) with le by lia.
  replace (la + (1 + le + (1 + lc)) + 1) with (la + (1 + le + (1 + lc) + 1)) by lia.
  rewrite S1, S2, S3, S4. reflexivity.
Qed.

(** Every valid URL of the short shape parses into its parts, and the parts
    rebuild the URL. *)
Lemma ParseUrl_short_roundtrip (scheme container path : string) :
  valid_scheme scheme ->
  container ≠ "" ->
  StdString.mem_char "/" container = false ->
  StdString.mem_char "." container = false ->
  ParseUrl (scheme ++ container ++ String "/" path)
  = Ok (AzureParsedUrl.Build container "" "" scheme path)
  /\ result_full_url (AzureParsedUrl.Build container "" "" scheme path) path
     = (scheme ++ container ++ String "/" path)%string.
Proof.
  intros Hs Hne Hslash Hdot. split.
  - rewrite (ParseUrl_after_scheme _ _ Hs). apply parse_short_shape; assumption.
  - unfold result_full_url, path_result_prefix. cbn [AzureParsedUrl.storage_account_name
      AzureParsedUrl.prefix AzureParsedUrl.container StdString.empty].
    rewrite string_app_assoc. reflexivity.
Qed.

(** Every valid URL of the fully-qualified shape parses into its parts, and
    the parts rebuild the URL when the account is not empty. *)
Lemma ParseUrl_fully_qualified_roundtrip (scheme account endpoint container path : string) :
  valid_scheme scheme ->
  StdString.mem_char "." account = false ->
  StdString.mem_char "/" account = false ->
  StdString.mem_char "/" endpoint = false ->
  StdString.mem_char "/" container = false ->
  ParseUrl (scheme ++ account ++ String "." (endpoint ++ String "/"
                                               (container ++ String "/" path)))
  = Ok (AzureParsedUrl.Build container account endpoint scheme path)
  /\ (account ≠ "" ->
      result_full_url (AzureParsedUrl.Build container account endpoint scheme path) path
      = (scheme ++ account ++ String "." (endpoint ++ String "/"
                                            (container ++ String "/" path)))%string).
Proof.
  intros Hs Hadot Haslash Heslash Hcslash. split.
  - rewrite (ParseUrl_after_scheme _ _ Hs). apply parse_fully_qualified_shape; assumption.
  - intros Hne. unfold result_full_url, path_result_prefix.
    cbn [AzureParsedUrl.storage_account_name AzureParsedUrl.prefix
           AzureParsedUrl.container AzureParsedUrl.endpoint].
    apply empty_false_iff in Hne. rewrite Hne.
    rewrite !string_app_assoc. reflexivity.
Qed.

(** In the fully-qualified shape nothing asks for a container: the empty
    container of C7's failing input parses for every account and endpoint. *)
Lemma ParseUrl_fully_qualified_any_container (scheme account endpoint path : string) :
  valid_scheme scheme ->
  StdString.mem_char "." account = false ->
  StdString.mem_char "/" account = false ->
  StdString.mem_char "/" endpoint = false ->
  ParseUrl (scheme ++ account ++ String "." (endpoint ++ String "/" (String "/" path)))
  = Ok (AzureParsedUrl.Build "" account endpoint scheme path).
Proof.
  intros Hs Hadot Haslash Heslash.
  apply (ParseUrl_fully_qualified_roundtrip scheme account endpoint "" path);
    try assumption. reflexivity.
Qed.

Lemma ParseUrl_short_empty_container (scheme path : string) :
  valid_scheme scheme ->
  ParseUrl (scheme ++ String "/" path)
  = Throw (IOException (invalid_url_format (scheme ++ String "/" path))).
Proof.
  intros Hs. rewrite (ParseUrl_after_scheme _ _ Hs). unfold parse_after_scheme.
  assert (H0 : StdString.find_char (String "/" path) "/" 0 = Some 0)
    by apply index_char_head.
  rewrite H0.
  destruct (StdString.find_char (String "/" path) "." 0) as [d|]; reflexivity.
Qed.

Lemma ParseUrl_no_slash (scheme rest : string) :
  valid_scheme scheme ->
  StdString.mem_char "/" rest = false ->
  ParseUrl (scheme ++ rest) = Throw (IOException (invalid_url_format (scheme ++ rest))).
Proof.
  intros Hs Hrest. rewrite (ParseUrl_after_scheme _ _ Hs). unfold parse_after_scheme.
  unfold StdString.find_char at 1. rewrite (index_char_absent _ _ Hrest). reflexivity.
Qed.

Lemma ParseUrl_wrong_scheme (url : string) :
  String.prefix "azure://" url = false ->
  String.prefix "az://" url = false ->
  ParseUrl url = Throw (IOException invalid_scheme_message).
Proof.
  intros Hazure Haz. unfold ParseUrl, StdString.rfind0. rewrite Hazure, Haz. reflexivity.
Qed.

(** Whatever makes the parser fail, the failure is [InvalidFormat]. *)
Lemma ParseUrl_fails_InvalidFormat (url : string) (e : exception) :
  ParseUrl url = Throw e -> ErrorKind.InvalidFormat e.
Proof.
  unfold ParseUrl.
  repeat match goal with
         | |- context [if ?b then _ else _] => destruct b
         | |- context [match ?o with Some _ => _ | None => _ end] => destruct o
         end;
    intros [= <-]; (left; reflexivity) || (right; eexists; reflexivity).
Qed.

End UrlFacts.

(** C7 fails on the code for an empty container in the fully-qualified
    shape. The short shape rejects an empty container ([az:///file.csv]
    fails with [InvalidFormat]); the branch for
    [<storage account>.<endpoint>/<container>/[<path>]] has no such check,
    and [az://account.blob.core.windows.net//file.csv] parses, with an empty
    container. *)
Theorem ParseUrl_fully_qualified_accepts_empty_container :
  ParseUrl "az://account.blob.core.windows.net//file.csv"
  = Ok (AzureParsedUrl.Build "" "account" "blob.core.windows.net" "az://" "file.csv")
  /\ ParseUrl "az:///file.csv" = Throw (IOException (invalid_url_format "az:///file.csv"))
  /\ ErrorKind.InvalidFormat (IOException (invalid_url_format "az:///file.csv")).
Proof.
  split; [reflexivity|].
  split; [reflexivity|].
  right. eexists. reflexivity.
Qed.

(** ** URL parser: the accepted URLs *)

Module UrlShapeFacts.
Import UrlFacts.

Lemma prefix_split (p s : string) :
  String.prefix p s = true -> exists rest, s = (p ++ rest)%string.
Proof.
  revert s. induction p as [|a p IH]; intros s H.
  - exists s. reflexivity.
  - destruct s as [|b s]; [discriminate|].
    cbn in H. destruct (ascii_dec a b) as [->|]; [|discriminate].
    destruct (IH _ H) as [rest ->]. exists rest. reflexivity.
Qed.

Lemma prefix_app (p rest : string) : String.prefix p (p ++ rest) = true.
Proof.
  induction p as [|a p IH]; [apply prefix_empty|].
  rewrite string_app_cons. cbn. destruct (ascii_dec a a); [exact IH | contradiction].
Qed.

(** The first occurrence of a character that occurs. *)
Lemma mem_char_split (c : ascii) (s : string) :
  StdString.mem_char c s = true ->
  exists x y, s = (x ++ String c y)%string /\ StdString.mem_char c x = false.
Proof.
  induction s as [|a s IH]; [discriminate|]. cbn.
  destruct (Ascii.eqb_spec c a) as [->|Hne].
  - intros _. exists "", s. split; reflexivity.
  - intros H. destruct (IH H) as (x & y & -> & Hx).
    exists (String a x), y. split; [reflexivity|].
    cbn. destruct (Ascii.eqb_spec c a); [contradiction | exact Hx].
Qed.

Lemma mem_char_app (c : ascii) (s t : string) :
  StdString.mem_char c (s ++ t) = StdString.mem_char c s || StdString.mem_char c t.
Proof.
  induction s as [|a s IH]; [reflexivity|].
  rewrite string_app_cons. cbn. destruct (Ascii.eqb c a); [reflexivity | exact IH].
Qed.

Lemma mem_char_cons (c a : ascii) (s : string) :
  StdString.mem_char c (String a s) = Ascii.eqb c a || StdString.mem_char c s.
Proof. cbn. destruct (Ascii.eqb c a); reflexivity. Qed.

(** The fully-qualified branch without a slash after the container. *)
Lemma parse_fully_qualified_no_path (scheme account endpoint tail : string) :
  StdString.mem_char "." account = false ->
  StdString.mem_char "/" account = false ->
  StdString.mem_char "/" endpoint = false ->
  StdString.mem_char "/" tail = false ->
  parse_after_scheme scheme (account ++ String "." (endpoint ++ String "/" tail))
  = Throw (IOException (invalid_url_format
             (scheme ++ account ++ String "." (endpoint ++ String "/" tail)))).
Proof.
  intros Hadot Haslash Heslash Htail.
  set (E := (endpoint ++ String "/" tail)%string).
  set (la := String.length account).
  set (le := String.length endpoint).
  assert (HE0 : StdString.find_char (String "." E) "/" 0 = Some (1 + le)).
  { unfold StdString.find_char. cbn [String.index]. rewrite prefix_char. cbn [Ascii.eqb].
    change (String.index 0 "/" E) with (StdString.find_char E "/" 0).
    unfold E. rewrite (find_char_here _ _ _ Heslash). reflexivity. }
  assert (H1 : StdString.find_char (account ++ String "." E) "/" 0 = Some (la + (1 + le))).
  { unfold StdString.find_char. rewrite (index_char_skip _ _ _ Haslash).
    change (String.index 0 "/" (String "." E))
      with (StdString.find_char (String "." E) "/" 0).
    rewrite HE0. reflexivity. }
  assert (H2 : StdString.find_char (account ++ String "." E) "." 0 = Some la)
    by apply (find_char_here _ _ _ Hadot).
  assert (H3 : StdString.find_char (account ++ String "." E) "/" (la + 0)
               = Some (la + (1 + le))).
  { unfold la. rewrite find_char_skip, HE0. reflexivity. }
  assert (H4 : StdString.find_char (account ++ String "." E) "/" (la + (1 + le + 1)) = None).
  { unfold la. rewrite find_char_skip.
    unfold StdString.find_char. cbn [Nat.add String.index].
    change (String.index (le + 1) "/" E) with (StdString.find_char E "/" (le + 1)).
    unfold E, le. rewrite find_char_skip.
    unfold StdString.find_char. cbn [String.index].
    rewrite (index_char_absent _ _ Htail). reflexivity. }
  unfold parse_after_scheme. rewrite H1, H2.
  destruct (Nat.ltb_spec la (la + (1 + le))) as [_|]; [|lia].
  rewrite <- (Nat.add_0_r la) at 1. rewrite H3.
  replace (la + (1 + le) + 1) with (la + (1 + le + 1)) by lia. rewrite H4.
  reflexivity.
Qed.

Lemma parse_no_slash (scheme rest : string) :
  StdString.mem_char "/" rest = false ->
  parse_after_scheme scheme rest = Throw (IOException (invalid_url_format (scheme ++ rest))).
Proof.
  intros Hrest. unfold parse_after_scheme.
  unfold StdString.find_char at 1. rewrite (index_char_absent _ _ Hrest). reflexivity.
Qed.

Lemma parse_empty_container (scheme path : string) :
  parse_after_scheme scheme (String "/" path)
  = Throw (IOException (invalid_url_format (scheme ++ String "/" path))).
Proof.
  unfold parse_after_scheme.
  assert (H0 : StdString.find_char (String "/" path) "/" 0 = Some 0)
    by apply index_char_head.
  rewrite H0.
  destruct (StdString.find_char (String "/" path) "." 0) as [d|]; reflexivity.
Qed.

(** What follows the scheme of an accepted URL is of one of the two
    shapes. *)
Lemma parse_after_scheme_inv (scheme rest : string) (u : AzureParsedUrl.t) :
  parse_after_scheme scheme rest = Ok u ->
  (exists container path,
     rest = (container ++ String "/" path)%string
     /\ container ≠ ""
     /\ StdString.mem_char "/" container = false
     /\ StdString.mem_char "." container = false
     /\ u = AzureParsedUrl.Build container "" "" scheme path)
  \/ (exists account endpoint container path,
        rest = (account ++ String "." (endpoint ++ String "/" (container ++ String "/" path)))%string
        /\ StdString.mem_char "." account = false
        /\ StdString.mem_char "/" account = false
        /\ StdString.mem_char "/" endpoint = false
        /\ StdString.mem_char "/" container = false
        /\ u = AzureParsedUrl.Build container account endpoint scheme path).
Proof.
  intros H.
  destruct (StdString.mem_char "/" rest) eqn:Hslash;
    [|rewrite parse_no_slash in H by exact Hslash; discriminate].
  destruct (mem_char_split _ _ Hslash) as (a & b & -> & Ha).
  destruct (StdString.mem_char "." a) eqn:Hdot.
  - right.
    destruct (mem_char_split _ _ Hdot) as (account & endpoint & -> & Haccount).
    rewrite mem_char_app, mem_char_cons in Ha.
    apply orb_false_iff in Ha as [Haslash He]. apply orb_false_iff in He as [_ Heslash].
    rewrite string_app_assoc, string_app_cons in H |- *.
    destruct (StdString.mem_char "/" b) eqn:Hb.
    + destruct (mem_char_split _ _ Hb) as (container & path & -> & Hc).
      rewrite parse_fully_qualified_shape in H by assumption.
      injection H as <-. exists account, endpoint, container, path. repeat split; assumption.
    + rewrite parse_fully_qualified_no_path in H by assumption. discriminate.
  - left. destruct a as [|c a].
    + rewrite string_app_nil, parse_empty_container in H. discriminate.
    + rewrite parse_short_shape in H by (assumption || discriminate).
      injection H as <-. exists (String c a), b. repeat split; assumption || discriminate.
Qed.

Lemma scheme_of_accepted (url : string) :
  U64.mul (StdString.rfind0 url "azure://") (StdString.rfind0 url "az://") = 0%Z ->
  exists scheme rest, valid_scheme scheme /\ url = (scheme ++ rest)%string.
Proof.
  unfold StdString.rfind0.
  destruct (String.prefix "azure://" url) eqn:Hazure.
  - intros _. destruct (prefix_split _ _ Hazure) as [rest ->].
    exists "azure://", rest. split; [right; reflexivity | reflexivity].
  - destruct (String.prefix "az://" url) eqn:Haz.
    + intros _. destruct (prefix_split _ _ Haz) as [rest ->].
      exists "az://", rest. split; [left; reflexivity | reflexivity].
    + vm_compute. discriminate.
Qed.

Lemma ParseUrl_scheme (url : string) (u : AzureParsedUrl.t) :
  ParseUrl url = Ok u ->
  exists scheme rest,
    valid_scheme scheme /\ url = (scheme ++ rest)%string
    /\ parse_after_scheme scheme rest = Ok u.
Proof.
  intros H.
  assert (Hs : U64.mul (StdString.rfind0 url "azure://") (StdString.rfind0 url "az://") = 0%Z).
  { unfold ParseUrl in H.
    destruct (Z.eqb_spec (U64.mul (StdString.rfind0 url "azure://")
                            (StdString.rfind0 url "az://")) 0); [assumption | discriminate]. }
  destruct (scheme_of_accepted _ Hs) as (scheme & rest & Hv & ->).
  exists scheme, rest. split; [exact Hv|]. split; [reflexivity|].
  rewrite <- (ParseUrl_after_scheme _ _ Hv). exact H.
Qed.

(** An accepted URL is of one of the two shapes, with the parts returned. *)
Lemma ParseUrl_inv (url : string) (u : AzureParsedUrl.t) :
  ParseUrl url = Ok u -> short_shape url u \/ fully_qualified_shape url u.
Proof.
  intros H.
  destruct (ParseUrl_scheme _ _ H) as (scheme & rest & Hv & -> & Hp).
  destruct (parse_after_scheme_inv _ _ _ Hp)
    as [(container & path & -> & Hne & Hs & Hd & ->)
       |(account & endpoint & container & path & -> & Had & Has & Hes & Hcs & ->)].
  - left. unfold short_shape. cbn. repeat split; assumption.
  - right. unfold fully_qualified_shape. cbn. repeat split; assumption.
Qed.

Lemma ParseUrl_of_shape (url : string) (u : AzureParsedUrl.t) :
  short_shape url u \/ fully_qualified_shape url u -> ParseUrl url = Ok u.
Proof.
  destruct u as [container account endpoint scheme path].
  intros [(Hv & Ha & He & Hne & Hs & Hd & ->)|(Hv & Had & Has & Hes & Hcs & ->)];
    cbn in *.
  - subst. apply ParseUrl_short_roundtrip; assumption.
  - apply ParseUrl_fully_qualified_roundtrip; assumption.
Qed.

(** The URL rebuilt from the parts of a short-shaped URL and any key. *)
Lemma result_full_url_short (u : AzureParsedUrl.t) (url key : string) :
  short_shape url u ->
  result_full_url u (AzureParsedUrl.path u) = url
  /\ ParseUrl (result_full_url u key) = Ok (with_path u key).
Proof.
  destruct u as [container account endpoint scheme path].
  intros (Hv & Ha & He & Hne & Hs & Hd & ->). cbn in *. subst.
  unfold result_full_url, path_result_prefix, with_path. cbn.
  rewrite !string_app_assoc. split; [reflexivity|].
  apply (ParseUrl_short_roundtrip scheme container key); assumption.
Qed.

Lemma result_full_url_fully_qualified (u : AzureParsedUrl.t) (url key : string) :
  fully_qualified_shape url u ->
  AzureParsedUrl.storage_account_name u ≠ "" ->
  result_full_url u (AzureParsedUrl.path u) = url
  /\ ParseUrl (result_full_url u key) = Ok (with_path u key).
Proof.
  destruct u as [container account endpoint scheme path].
  intros (Hv & Had & Has & Hes & Hcs & ->) Hne. cbn in *.
  unfold result_full_url, path_result_prefix, with_path. cbn.
  apply empty_false_iff in Hne. rewrite Hne.
  rewrite !string_app_assoc. split; [reflexivity|].
  apply (ParseUrl_fully_qualified_roundtrip scheme account endpoint container key);
    assumption.
Qed.

Lemma result_full_url_parses (url : string) (u : AzureParsedUrl.t) (key : string) :
  ParseUrl url = Ok u ->
  AzureParsedUrl.storage_account_name u ≠ "" \/ short_shape url u ->
  result_full_url u (AzureParsedUrl.path u) = url
  /\ ParseUrl (result_full_url u key) = Ok (with_path u key).
Proof.
  intros H Hc.
  destruct Hc as [Hne|Hs]; [|apply result_full_url_short, Hs].
  apply ParseUrl_inv in H as [Hs|Hf].
  - apply result_full_url_short, Hs.
  - apply result_full_url_fully_qualified; assumption.
Qed.

Lemma CanHandleFile_prefix (fpath : string) :
  CanHandleFile fpath = String.prefix "azure://" fpath || String.prefix "az://" fpath.
Proof.
  unfold CanHandleFile, StdString.rfind0.
  destruct (String.prefix "azure://" fpath), (String.prefix "az://" fpath); reflexivity.
Qed.

End UrlShapeFacts.

(** X1. [ParseUrl] accepts exactly the URLs of the two shapes its error message
    names, and returns their parts: [(azure|az)://<container>/[<path>]] with
    a container that is not empty and has neither slash nor dot, and
    [(azure|az)://<storage account>.<endpoint>/<container>/[<path>]] with an
    account without dot or slash and an endpoint and a container without
    slash. *)
Theorem ParseUrl_accepts_exactly_the_two_shapes (url : string) (u : AzureParsedUrl.t) :
  ParseUrl url = Ok u <-> short_shape url u \/ fully_qualified_shape url u.
Proof.
  split; [apply UrlShapeFacts.ParseUrl_inv | apply UrlShapeFacts.ParseUrl_of_shape].
Qed.

(** X2. The URL that [Glob] rebuilds from the parts of a parsed URL is the URL
    that was parsed, and with any other key in place of the blob path it
    parses to the same container, account, endpoint and scheme, and to that
    key as path. This needs an account name that is not empty, or a URL of
    the short shape: with an empty account name before the dot, the rebuilt
    URL is of the short shape and drops the endpoint. *)
Theorem result_full_url_round_trip (url : string) (u : AzureParsedUrl.t) :
  ParseUrl url = Ok u ->
  AzureParsedUrl.storage_account_name u ≠ "" \/ short_shape url u ->
  result_full_url u (AzureParsedUrl.path u) = url
  /\ forall key, ParseUrl (result_full_url u key) = Ok (with_path u key).
Proof.
  intros H Hc. split.
  - apply (UrlShapeFacts.result_full_url_parses url u "" H Hc).
  - intros key. apply (UrlShapeFacts.result_full_url_parses url u key H Hc).
Qed.

Lemma result_full_url_round_trip_witness :
  ParseUrl SessionSamples.path = Ok SessionSamples.parsed_url
  /\ AzureParsedUrl.storage_account_name SessionSamples.parsed_url ≠ ""
  /\ result_full_url SessionSamples.parsed_url "data/**/*.csv" = SessionSamples.path
  /\ ParseUrl (result_full_url SessionSamples.parsed_url "data/a/x.csv")
     = Ok (with_path SessionSamples.parsed_url "data/a/x.csv").
Proof.
  assert (Hp : ParseUrl SessionSamples.path = Ok SessionSamples.parsed_url)
    by (vm_compute; reflexivity).
  assert (Hne : AzureParsedUrl.storage_account_name SessionSamples.parsed_url ≠ "")
    by discriminate.
  split; [exact Hp|]. split; [exact Hne|].
  destruct (result_full_url_round_trip SessionSamples.path SessionSamples.parsed_url
              Hp (or_introl Hne)) as [H1 H2].
  split; [exact H1 | exact (H2 "data/a/x.csv")].
Defined.

(** X3. [CanHandleFile] holds exactly for the names that start with [azure://]
    or [az://]: the product of the two 64-bit search results is zero only
    when one of them is, the product of two failed searches wrapping around
    to 1. It is the test [ParseUrl] starts with: a name that is claimed and
    fails to parse fails on its format, with the message for that URL; a
    name that is not claimed fails on its scheme. *)
Theorem CanHandleFile_scheme (fpath : string) :
  (CanHandleFile fpath = true
   <-> String.prefix "azure://" fpath = true \/ String.prefix "az://" fpath = true)
  /\ U64.mul StdString.npos StdString.npos = 1%Z
  /\ (forall u, ParseUrl fpath = Ok u -> CanHandleFile fpath = true)
  /\ (CanHandleFile fpath = false
      <-> ParseUrl fpath = Throw (IOException invalid_scheme_message))
  /\ (forall e, CanHandleFile fpath = true -> ParseUrl fpath = Throw e ->
        e = IOException (invalid_url_format fpath)).
Proof.
  split.
  { rewrite UrlShapeFacts.CanHandleFile_prefix. apply orb_true_iff. }
  split; [reflexivity|].
  unfold ParseUrl. fold (CanHandleFile fpath).
  destruct (CanHandleFile fpath); cbn [negb].
  - split; [reflexivity|]. split.
    + split; [discriminate|].
      repeat match goal with
             | |- context [if ?b then _ else _] => destruct b
             | |- context [match ?o with Some _ => _ | None => _ end] => destruct o
             end; discriminate.
    + intros e _.
      repeat match goal with
             | |- context [if ?b then _ else _] => destruct b
             | |- context [match ?o with Some _ => _ | None => _ end] => destruct o
             end; intros [= <-]; reflexivity.
  - split; [discriminate|]. split; [split; reflexivity|]. discriminate.
Qed.

(** ** Glob driver: what is returned, and failures of the listing *)

Module GlobResultFacts.
Import Listing.

Lemma ParseUrl_ok_CanHandleFile (url : string) (u : AzureParsedUrl.t) :
  ParseUrl url = Ok u -> CanHandleFile url = true.
Proof.
  unfold ParseUrl. fold (CanHandleFile url).
  destruct (CanHandleFile url); [reflexivity | discriminate].
Qed.

Lemma with_path_same (u : AzureParsedUrl.t) : with_path u (AzureParsedUrl.path u) = u.
Proof. destruct u; reflexivity. Qed.

Section FailureFacts.

Variable SegmentGlob : string -> string -> bool.
Variable ListBlobs :
  Azure.BlobServiceClient -> string -> ListBlobsOptions ->
  sdk_failure + ListBlobsPagedResponse.

Lemma Glob_loop_fails path client azure_url pattern_splits options requests e :
  pagination_fails ListBlobs client (AzureParsedUrl.container azure_url) options requests e ->
  forall fuel found trace,
    Glob_loop SegmentGlob ListBlobs (List.length requests + fuel) path client azure_url
      pattern_splits options found trace
    = Some (Throw (listing_exception path e), trace ++ requests).
Proof.
  induction 1 as [options e Hl | options res token requests e Hl Ht Hp IH];
    intros fuel found trace; cbn [List.length Nat.add Glob_loop]; rewrite Hl.
  - reflexivity.
  - rewrite Ht, IH, <- app_assoc. reflexivity.
Qed.

Lemma Glob_loop_throws path client azure_url pattern_splits fuel :
  forall options found trace ex trace',
    Glob_loop SegmentGlob ListBlobs fuel path client azure_url pattern_splits
      options found trace = Some (Throw ex, trace') ->
    exists requests e,
      pagination_fails ListBlobs client (AzureParsedUrl.container azure_url) options requests e
      /\ ex = listing_exception path e
      /\ trace' = trace ++ requests.
Proof.
  induction fuel as [|fuel IH]; intros options found trace ex trace'; cbn [Glob_loop];
    [discriminate|].
  destruct (ListBlobs client (AzureParsedUrl.container azure_url) options)
    as [e|page] eqn:Hl.
  - intros [= <- <-]. exists [options], e.
    split; [apply pagination_fails_here, Hl|]. split; reflexivity.
  - destruct (NextPageToken page) as [token|] eqn:Ht; [|discriminate].
    intros H. apply IH in H as (requests & e & Hp & -> & ->).
    exists (options :: requests), e.
    split; [eapply pagination_fails_later; eassumption|].
    split; [reflexivity|]. rewrite <- app_assoc. reflexivity.
Qed.

End FailureFacts.
End GlobResultFacts.

(** X4. Every URL that [Glob] returns is a name the filesystem claims, and
    parses to the container, account, endpoint and scheme of the pattern,
    with the key it was built from as blob path (for a URL whose account
    name is not empty, or of the short shape). *)
Theorem Glob_results_parse_back (env : ProcessEnv) (SegmentGlob : string -> string -> bool)
    (ListBlobs : Azure.BlobServiceClient -> string -> Listing.ListBlobsOptions ->
                 sdk_failure + Listing.ListBlobsPagedResponse)
    (fuel : nat) (path : string) (opener : FileOpener) (σ σ' : Session)
    (u : AzureParsedUrl.t) (res : list string) (trace : list Listing.ListBlobsOptions) :
  ParseUrl path = Ok u ->
  AzureParsedUrl.storage_account_name u ≠ "" \/ short_shape path u ->
  Listing.Glob env SegmentGlob ListBlobs fuel path (Some opener) σ = Some (Ok res, σ', trace) ->
  forall url, In url res ->
    exists key,
      url = result_full_url u key
      /\ ParseUrl url = Ok (with_path u key)
      /\ CanHandleFile url = true.
Proof.
  intros Hparse Hshape Hglob url Hin.
  assert (Hkey : forall key, ParseUrl (result_full_url u key) = Ok (with_path u key)
                             /\ CanHandleFile (result_full_url u key) = true).
  { intros key.
    destruct (UrlShapeFacts.result_full_url_parses path u key Hparse Hshape) as [_ Hk].
    split; [exact Hk | eapply GlobResultFacts.ParseUrl_ok_CanHandleFile, Hk]. }
  unfold Listing.Glob in Hglob. rewrite Hparse in Hglob.
  destruct (GetOrCreateStorageContext env opener path u σ) as [[l|e] σ1]; [|discriminate].
  destruct (StdString.find_first_of (AzureParsedUrl.path u) Listing.wildcard_chars)
    as [pos|].
  - destruct (contexts σ1 !! l) as [ctx|]; [|discriminate].
    destruct (Listing.Glob_loop _ _ _ _ _ _ _ _ _ _) as [[r tr]|] eqn:Hloop; [|discriminate].
    injection Hglob as -> <- <-.
    apply ListingFacts.Glob_loop_returns in Hloop as (pages & _ & _ & -> & _).
    cbn [app] in Hin. unfold Listing.matching_urls in Hin.
    apply in_map_iff in Hin as (key & <- & _).
    exists key. split; [reflexivity | apply Hkey].
  - injection Hglob as <- <- <-. destruct Hin as [<-|[]].
    exists (AzureParsedUrl.path u).
    destruct (UrlShapeFacts.result_full_url_parses path u "" Hparse Hshape) as [Hsame _].
    rewrite <- Hsame at 1 2 3. split; [reflexivity | apply Hkey].
Qed.

Lemma Glob_results_parse_back_witness :
  ParseUrl SessionSamples.path = Ok SessionSamples.parsed_url
  /\ AzureParsedUrl.storage_account_name SessionSamples.parsed_url ≠ ""
  /\ Listing.Glob SessionSamples.env LikeFun.Glob SessionSamples.ListBlobs 2
       SessionSamples.path (Some SessionSamples.opener) SessionSamples.empty_session
     = Some (Ok ["az://acct.ep/container/data/a/x.csv";
                 "az://acct.ep/container/data/b/c/y.csv"],
             SessionSamples.session_after_lookup,
             [SessionSamples.first_page_options; SessionSamples.second_page_options])
  /\ exists key,
       "az://acct.ep/container/data/b/c/y.csv" = result_full_url SessionSamples.parsed_url key
       /\ ParseUrl "az://acct.ep/container/data/b/c/y.csv"
          = Ok (with_path SessionSamples.parsed_url key)
       /\ CanHandleFile "az://acct.ep/container/data/b/c/y.csv" = true.
Proof.
  assert (Hp : ParseUrl SessionSamples.path = Ok SessionSamples.parsed_url)
    by (vm_compute; reflexivity).
  assert (Hne : AzureParsedUrl.storage_account_name SessionSamples.parsed_url ≠ "")
    by discriminate.
  assert (Hg : Listing.Glob SessionSamples.env LikeFun.Glob SessionSamples.ListBlobs 2
                 SessionSamples.path (Some SessionSamples.opener) SessionSamples.empty_session
               = Some (Ok ["az://acct.ep/container/data/a/x.csv";
                           "az://acct.ep/container/data/b/c/y.csv"],
                       SessionSamples.session_after_lookup,
                       [SessionSamples.first_page_options; SessionSamples.second_page_options]))
    by (vm_compute; reflexivity).
  split; [exact Hp|]. split; [exact Hne|]. split; [exact Hg|].
  exact (Glob_results_parse_back SessionSamples.env LikeFun.Glob SessionSamples.ListBlobs 2
           SessionSamples.path SessionSamples.opener SessionSamples.empty_session
           SessionSamples.session_after_lookup SessionSamples.parsed_url _ _
           Hp (or_introl Hne) Hg "az://acct.ep/container/data/b/c/y.csv"
           (or_intror (or_introl eq_refl))).
Defined.

(** X5. A listing call that fails, on the first page or on a later one, makes
    [Glob] fail as a whole: the matches of the pages before are not
    returned, and no page is requested after the failure. When the call
    threw a [StorageException] the result is the [IOException] that names the
    path, the error code and the reason phrase; an exception of another type
    leaves [Glob] as the call threw it. [Glob] fails in its listing loop in
    no other way. *)
Theorem Glob_listing_failure_discards_matches (env : ProcessEnv)
    (SegmentGlob : string -> string -> bool)
    (ListBlobs : Azure.BlobServiceClient -> string -> Listing.ListBlobsOptions ->
                 sdk_failure + Listing.ListBlobsPagedResponse)
    (path : string) (opener : FileOpener) (σ σ1 : Session) (u : AzureParsedUrl.t)
    (l : nat) (ctx : AzureContextState.t) (first_wildcard_pos : nat) :
  ParseUrl path = Ok u ->
  GetOrCreateStorageContext env opener path u σ = (Ok l, σ1) ->
  contexts σ1 !! l = Some ctx ->
  StdString.find_first_of (AzureParsedUrl.path u) Listing.wildcard_chars
  = Some first_wildcard_pos ->
  let first_request :=
    {| Listing.Prefix := StdString.substr (AzureParsedUrl.path u) 0 first_wildcard_pos;
       Listing.ContinuationToken := None |} in
  (forall requests e fuel,
     pagination_fails ListBlobs (AzureContextState.service_client ctx)
       (AzureParsedUrl.container u) first_request requests e ->
     Listing.Glob env SegmentGlob ListBlobs (List.length requests + fuel) path (Some opener) σ
     = Some (Throw match e with
                   | StorageFailure e' => IOException (Listing.list_failed_message path e')
                   | OtherFailure what => OtherException what
                   end, σ1, requests))
  /\ (forall fuel ex σ' trace,
        Listing.Glob env SegmentGlob ListBlobs fuel path (Some opener) σ
        = Some (Throw ex, σ', trace) ->
        exists e,
          pagination_fails ListBlobs (AzureContextState.service_client ctx)
            (AzureParsedUrl.container u) first_request trace e
          /\ ex = match e with
                  | StorageFailure e' => IOException (Listing.list_failed_message path e')
                  | OtherFailure what => OtherException what
                  end
          /\ σ' = σ1).
Proof.
  intros Hparse Hctx Hl Hpos first_request. split.
  - intros requests e fuel Hfail.
    rewrite (ListingFacts.Glob_wildcard env SegmentGlob ListBlobs _ _ _ _ _ _ _ _ _
               Hparse Hctx Hl Hpos).
    rewrite (GlobResultFacts.Glob_loop_fails SegmentGlob ListBlobs _ _ _ _ _ _ _ Hfail).
    reflexivity.
  - intros fuel ex σ' trace.
    rewrite (ListingFacts.Glob_wildcard env SegmentGlob ListBlobs _ _ _ _ _ _ _ _ _
               Hparse Hctx Hl Hpos).
    destruct (Listing.Glob_loop _ _ _ _ _ _ _ _ _ _) as [[r tr]|] eqn:Hloop; [|discriminate].
    intros [= -> <- <-].
    apply GlobResultFacts.Glob_loop_throws in Hloop as (requests & e & Hp & -> & ->).
    exists e. repeat split; assumption.
Qed.

Lemma Glob_listing_failure_discards_matches_witness :
  ParseUrl SessionSamples.path = Ok SessionSamples.parsed_url
  /\ GetOrCreateStorageContext SessionSamples.env SessionSamples.opener SessionSamples.path
       SessionSamples.parsed_url SessionSamples.empty_session
     = (Ok 0%nat, SessionSamples.session_after_lookup)
  /\ pagination_fails ListBlobs_failing_second_page
       (AzureContextState.service_client SessionSamples.context) "container"
       SessionSamples.first_page_options
       [SessionSamples.first_page_options; SessionSamples.second_page_options]
       (StorageFailure {| ErrorCode := "ServerBusy"; ReasonPhrase := "Service Unavailable";
                          Message := "" |})
  /\ Listing.Glob SessionSamples.env LikeFun.Glob ListBlobs_failing_second_page 2
       SessionSamples.path (Some SessionSamples.opener) SessionSamples.empty_session
     = Some (Throw (IOException
                      "AzureStorageFileSystem Read to az://acct.ep/container/data/**/*.csv failed with ServerBusy Reason Phrase: Service Unavailable"),
             SessionSamples.session_after_lookup,
             [SessionSamples.first_page_options; SessionSamples.second_page_options])
  /\ Listing.Glob SessionSamples.env LikeFun.Glob ListBlobs_unreachable 1
       SessionSamples.path (Some SessionSamples.opener) SessionSamples.empty_session
     = Some (Throw (OtherException "Couldn't resolve host name"),
             SessionSamples.session_after_lookup,
             [SessionSamples.first_page_options]).
Proof.
  assert (Hp : ParseUrl SessionSamples.path = Ok SessionSamples.parsed_url)
    by (vm_compute; reflexivity).
  assert (Hctx : GetOrCreateStorageContext SessionSamples.env SessionSamples.opener
                   SessionSamples.path SessionSamples.parsed_url SessionSamples.empty_session
                 = (Ok 0%nat, SessionSamples.session_after_lookup))
    by (vm_compute; reflexivity).
  assert (Hfail : pagination_fails ListBlobs_failing_second_page
                    (AzureContextState.service_client SessionSamples.context) "container"
                    SessionSamples.first_page_options
                    [SessionSamples.first_page_options; SessionSamples.second_page_options]
                    (StorageFailure {| ErrorCode := "ServerBusy";
                                       ReasonPhrase := "Service Unavailable";
                                       Message := "" |})).
  { eapply pagination_fails_later; [reflexivity | reflexivity |].
    apply pagination_fails_here. reflexivity. }
  split; [exact Hp|]. split; [exact Hctx|]. split; [exact Hfail|].
  split.
  - exact (proj1 (Glob_listing_failure_discards_matches SessionSamples.env LikeFun.Glob
                    ListBlobs_failing_second_page SessionSamples.path SessionSamples.opener
                    SessionSamples.empty_session SessionSamples.session_after_lookup
                    SessionSamples.parsed_url 0%nat SessionSamples.context 5%nat
                    Hp Hctx eq_refl eq_refl)
             [SessionSamples.first_page_options; SessionSamples.second_page_options]
             _ 0%nat Hfail).
  - exact (proj1 (Glob_listing_failure_discards_matches SessionSamples.env LikeFun.Glob
                    ListBlobs_unreachable SessionSamples.path SessionSamples.opener
                    SessionSamples.empty_session SessionSamples.session_after_lookup
                    SessionSamples.parsed_url 0%nat SessionSamples.context 5%nat
                    Hp Hctx eq_refl eq_refl)
             [SessionSamples.first_page_options]
             (OtherFailure "Couldn't resolve host name") 0%nat
             (pagination_fails_here ListBlobs_unreachable _ _ _ _ eq_refl)).
Defined.

(** ** Read engine: outcomes, bounds and bytes *)

Module ReadOutcomeFacts.
Import AzureStorageFileHandle ReadEngine ReadEngineFacts ReadOutcome.
Local Open Scope Z_scope.

Section OutcomeFacts.

Variable DownloadTo : Z -> Z -> option sdk_failure.

(** From an exhausted buffer the loop ends within two iterations, in one of
    the four ways of [exhausted_outcome]. *)
Lemma Read_loop_exhausted fuel location hfh to_read buffer_offset trace :
  idx_t (AzureReadOptions.buffer_size (read_options hfh)) ->
  0 < to_read -> buffer_available hfh = 0 ->
  exists r hfh' events,
    Read_loop DownloadTo (S (S fuel)) location hfh to_read buffer_offset trace
    = Some (r, hfh', trace ++ events)
    /\ exhausted_outcome location hfh to_read buffer_offset r hfh' events.
Proof.
  intros Hbs Hpos H0.
  destruct (Z.lt_ge_cases (new_buffer_available hfh) to_read) as [Hlt|Hge].
  - rewrite Read_loop_bypass by assumption.
    destruct (DownloadTo _ to_read); do 3 eexists; (split; [reflexivity|]).
    + apply bypass_failed, Hlt.
    + apply bypass_ok, Hlt.
  - destruct (DownloadTo (U64.to_int64 (file_offset hfh)) (new_buffer_available hfh)) eqn:Hd.
    + rewrite Read_loop_refill, Hd by assumption.
      do 3 eexists. split; [reflexivity|]. apply refill_failed, Hge.
    + rewrite Read_loop_refill_ok by assumption.
      do 3 eexists. split; [reflexivity|]. apply refill_ok, Hge.
Qed.

(** Every call of [Read] for a count that is not negative returns within
    two iterations of its loop, in one of the ways of [read_outcome]. *)
Lemma Read_outcome fuel hfh nr_bytes location :
  well_typed hfh -> idx_t location -> 0 <= nr_bytes < 2 ^ 63 ->
  exists r hfh' trace,
    Read DownloadTo (S (S fuel)) hfh nr_bytes location = Some (r, hfh', trace)
    /\ read_outcome hfh nr_bytes location r hfh' trace.
Proof.
  intros Hwt Hl Hn.
  assert (Hw : U64.wrap nr_bytes = nr_bytes) by (apply wrap_small; u64; lia).
  pose proof (position_well_typed hfh location Hwt Hl) as Hpwt.
  assert (Hbs : idx_t (AzureReadOptions.buffer_size (read_options (position hfh location))))
    by apply Hpwt.
  assert (Hav : idx_t (buffer_available (position hfh location))) by apply Hpwt.
  unfold Read. rewrite Hw.
  destruct (direct_io hfh) eqn:Hd; cbn [andb].
  - destruct (Z.ltb_spec 0 nr_bytes) as [Hpos|Hz].
    + unfold ReadRange.
      destruct (DownloadTo _ nr_bytes); do 3 eexists; (split; [reflexivity|]).
      * apply direct_failed; assumption.
      * apply direct_ok; assumption.
    + rewrite Read_loop_done by lia. do 3 eexists. split; [reflexivity|].
      apply nothing_to_read. lia.
  - destruct (Z.le_gt_cases nr_bytes 0) as [Hz|Hpos].
    { rewrite Read_loop_done by lia. do 3 eexists. split; [reflexivity|].
      apply nothing_to_read. lia. }
    destruct (Z.le_gt_cases nr_bytes (buffer_available (position hfh location)))
      as [Hle|Hgt].
    { rewrite Read_loop_from_buffer by (auto; lia).
      do 3 eexists. split; [reflexivity|]. apply from_buffer; [assumption | lia]. }
    destruct (Z.eq_dec (buffer_available (position hfh location)) 0) as [H0|Hne].
    { destruct (Read_loop_exhausted fuel location (position hfh location) nr_bytes 0 []
                  Hbs Hpos H0) as (r & hfh' & events & Hr & Ho).
      exists r, hfh', events. split; [exact Hr|]. apply exhausted; assumption. }
    assert (Hsome : 0 < buffer_available (position hfh location) < nr_bytes)
      by (unfold idx_t in Hav; lia).
    rewrite Read_loop_drain by (auto; u64; lia).
    fold (drained (position hfh location)).
    assert (Hbo : U64.add 0 (buffer_available (position hfh location))
                  = buffer_available (position hfh location))
      by (apply wrap_small; exact Hav).
    rewrite Hbo.
    destruct (Read_loop_exhausted fuel location (drained (position hfh location))
                (nr_bytes - buffer_available (position hfh location))
                (buffer_available (position hfh location))
                ([] ++ [Memcpy 0 (buffer_idx (position hfh location))
                          (buffer_available (position hfh location))]))
      as (r & hfh' & events & Hr & Ho); [exact Hbs | lia | reflexivity |].
    exists r, hfh', (Memcpy 0 (buffer_idx (position hfh location))
                       (buffer_available (position hfh location)) :: events).
    split; [exact Hr|]. apply buffer_then_exhausted; assumption.
Qed.

End OutcomeFacts.


Lemma wrap_le (z : Z) : 0 <= z -> 0 <= U64.wrap z <= z.
Proof.
  intros H. unfold U64.wrap, U64.modulus. split.
  - apply Z.mod_pos_bound. lia.
  - apply Z.mod_le; lia.
Qed.

Lemma well_typed_set hfh a i o s e :
  well_typed hfh -> idx_t a -> idx_t i -> idx_t o -> idx_t s -> idx_t e ->
  well_typed (set_read_info hfh a i o s e).
Proof.
  intros (H1 & _ & _ & _ & _ & _ & H7) Ha Hi Ho Hs He.
  unfold well_typed. cbn. repeat split; assumption || apply Ha || apply Hi || apply Ho
                                         || apply Hs || apply He || apply H1 || apply H7.
Qed.

(** The handle after the positioning step. *)
Lemma position_window hfh location :
  well_typed hfh -> idx_t location -> window_fits hfh ->
  well_typed (position hfh location)
  /\ FileSystem.same_file hfh (position hfh location)
  /\ buffer_start (position hfh location) = buffer_start hfh
  /\ buffer_end (position hfh location) = buffer_end hfh
  /\ file_offset (position hfh location) = location
  /\ 0 <= buffer_idx (position hfh location)
  /\ 0 <= buffer_available (position hfh location)
  /\ buffer_idx (position hfh location) + buffer_available (position hfh location)
     <= AzureReadOptions.buffer_size (read_options hfh)
  /\ (0 < buffer_available (position hfh location) ->
      buffer_start hfh + buffer_idx (position hfh location) = location
      /\ location + buffer_available (position hfh location) = buffer_end hfh).
Proof.
  intros Hwt Hl Hfit.
  split; [apply position_well_typed; assumption|].
  assert (Hbs : idx_t (AzureReadOptions.buffer_size (read_options hfh))) by apply Hwt.
  destruct (Z.le_gt_cases (buffer_start hfh) location) as [Hs|Hs];
    [destruct (Z.lt_ge_cases location (buffer_end hfh)) as [He|He]|].
  - rewrite position_inside by (auto; lia). cbn. unfold window_fits in Hfit.
    repeat split; try reflexivity; lia.
  - rewrite position_outside by lia. cbn. unfold idx_t in Hbs.
    repeat split; try reflexivity; lia.
  - rewrite position_outside by lia. cbn. unfold idx_t in Hbs.
    repeat split; try reflexivity; lia.
Qed.

(** From an exhausted buffer: the events stay in bounds, there is one
    fetch, and the handle keeps its typing and a window that fits. *)
Lemma exhausted_outcome_in_bounds location hfh to_read buffer_offset r hfh' events nr_bytes :
  well_typed hfh -> window_fits hfh ->
  0 < to_read -> 0 <= buffer_offset -> buffer_offset + to_read <= nr_bytes ->
  exhausted_outcome location hfh to_read buffer_offset r hfh' events ->
  Forall (event_in_bounds nr_bytes (AzureReadOptions.buffer_size (read_options hfh))) events
  /\ List.length (fetches events) = 1%nat
  /\ well_typed hfh' /\ window_fits hfh'
  /\ FileSystem.same_file hfh hfh'.
Proof.
  intros Hwt Hfit Hpos Hbo Hnr Ho.
  assert (Hbs : idx_t (AzureReadOptions.buffer_size (read_options hfh))) by apply Hwt.
  pose proof (new_buffer_available_idx_t hfh Hbs) as Hn.
  assert (Hnb : new_buffer_available hfh <= AzureReadOptions.buffer_size (read_options hfh))
    by (unfold new_buffer_available; lia).
  assert (Hfo : idx_t (file_offset hfh)) by apply Hwt.
  assert (Hsame : FileSystem.same_file hfh hfh) by (repeat split).
  destruct Ho as [Hlt | e Hlt | Hge | e Hge].
  - split; [repeat constructor; lia|]. split; [reflexivity|].
    split; [apply well_typed_set; try apply Hwt; try apply wrap_idx_t; u64; lia|].
    split; [exact Hfit | repeat split].
  - split; [repeat constructor; lia|]. split; [reflexivity|].
    split; [exact Hwt|]. split; [exact Hfit | exact Hsame].
  - split; [repeat constructor; unfold idx_t in Hn; lia|]. split; [reflexivity|].
    split; [apply well_typed_set; try apply Hwt; try apply wrap_idx_t; u64; lia|].
    split; [|repeat split].
    unfold window_fits. cbn.
    pose proof (wrap_le (file_offset hfh + new_buffer_available hfh)) as Hw.
    unfold U64.add. unfold idx_t in *. lia.
  - split; [repeat constructor; unfold idx_t in Hn; lia|]. split; [reflexivity|].
    split; [exact Hwt|]. split; [exact Hfit | exact Hsame].
Qed.

Lemma same_file_refl hfh : FileSystem.same_file hfh hfh.
Proof. repeat split. Qed.

Lemma same_file_trans h1 h2 h3 :
  FileSystem.same_file h1 h2 -> FileSystem.same_file h2 h3 -> FileSystem.same_file h1 h3.
Proof.
  intros (A1 & A2 & A3 & A4 & A5) (B1 & B2 & B3 & B4 & B5).
  unfold FileSystem.same_file. repeat split; congruence.
Qed.

(** Every way a read ends keeps its events in bounds. *)
Lemma read_outcome_in_bounds hfh nr_bytes location r hfh' trace :
  well_typed hfh -> idx_t location -> 0 <= nr_bytes < 2 ^ 63 -> window_fits hfh ->
  read_outcome hfh nr_bytes location r hfh' trace ->
  Forall (event_in_bounds nr_bytes (AzureReadOptions.buffer_size (read_options hfh))) trace
  /\ (List.length (fetches trace) <= 1)%nat
  /\ well_typed hfh' /\ window_fits hfh'
  /\ FileSystem.same_file hfh hfh'.
Proof.
  intros Hwt Hl Hn Hfit Ho.
  destruct (position_window hfh location Hwt Hl Hfit)
    as (Hpwt & Hpsame & Hps & Hpe & Hpo & Hi0 & Ha0 & Hia & Hin).
  assert (Hpfit : window_fits (position hfh location)).
  { unfold window_fits. rewrite Hps, Hpe. destruct Hpsame as (_ & _ & _ & _ & ->).
    exact Hfit. }
  assert (Hopts : read_options (position hfh location) = read_options hfh) by apply Hpsame.
  assert (Hbs : idx_t (AzureReadOptions.buffer_size (read_options hfh))) by apply Hwt.
  destruct Ho as [Hd Hpos | e Hd Hpos | Hz | Hd Hle | r hfh' trace Hd H0 Hpos Hex
                 | r hfh' trace Hd Hsome Hex].
  - split; [repeat constructor; lia|]. split; [cbn; lia|].
    split; [apply well_typed_set; try apply Hwt; try apply wrap_idx_t; u64; lia|].
    split; [exact Hfit | repeat split].
  - split; [repeat constructor; lia|]. split; [cbn; lia|].
    split; [exact Hwt|]. split; [exact Hfit | apply same_file_refl].
  - split; [constructor|]. split; [cbn; lia|]. auto.
  - split; [repeat constructor; lia|]. split; [cbn; lia|].
    split.
    { apply well_typed_set; try apply Hpwt; try apply wrap_idx_t.
      unfold idx_t in *. u64. lia. }
    split; [exact Hpfit|].
    eapply same_file_trans; [exact Hpsame | repeat split].
  - destruct (exhausted_outcome_in_bounds _ _ _ _ _ _ _ nr_bytes Hpwt Hpfit Hpos
                (Z.le_refl 0) (Z.le_refl _) Hex) as (Hb & Hf & Hwt' & Hfit' & Hsame).
    rewrite Hopts in Hb.
    split; [exact Hb|]. split; [lia|]. split; [exact Hwt'|]. split; [exact Hfit'|].
    eapply same_file_trans; eassumption.
  - assert (Hdwt : well_typed (drained (position hfh location))).
    { apply well_typed_set; try apply Hpwt; try apply wrap_idx_t. u64. lia. }
    assert (Hdfit : window_fits (drained (position hfh location))) by exact Hpfit.
    assert (Hrest : 0 < nr_bytes - buffer_available (position hfh location)) by lia.
    assert (Hsum : buffer_available (position hfh location)
                   + (nr_bytes - buffer_available (position hfh location)) <= nr_bytes) by lia.
    destruct (exhausted_outcome_in_bounds _ _ _ _ _ _ _ nr_bytes Hdwt Hdfit Hrest Ha0 Hsum Hex)
      as (Hb & Hf & Hwt' & Hfit' & Hsame).
    cbn [drained set_read_info read_options] in Hb. rewrite Hopts in Hb.
    split; [constructor; [cbn; lia | exact Hb]|].
    split; [cbn [fetches List.filter is_fetch]; fold (fetches trace); lia|].
    split; [exact Hwt'|]. split; [exact Hfit'|].
    eapply same_file_trans; [exact Hpsame|].
    eapply same_file_trans; [|exact Hsame]. repeat split.
Qed.

Section DataFacts.

Variable byte : Type.
Variable blob : Z -> byte.

Lemma write_range_inside (buffer : Z -> byte) at_ len src k :
  at_ <= k < at_ + len -> write_range buffer at_ len src k = src (k - at_).
Proof.
  intros H. unfold write_range.
  destruct (Z.leb_spec at_ k); [|lia]. destruct (Z.ltb_spec k (at_ + len)); [|lia].
  reflexivity.
Qed.

Lemma write_range_outside (buffer : Z -> byte) at_ len src k :
  ~ (at_ <= k < at_ + len) -> write_range buffer at_ len src k = buffer k.
Proof.
  intros H. unfold write_range.
  destruct (Z.leb_spec at_ k); [|reflexivity].
  destruct (Z.ltb_spec k (at_ + len)); [lia | reflexivity].
Qed.

(** From an exhausted buffer, a read that succeeds inside the file delivers
    the bytes of the blob that follow the handle's offset. *)
Lemma exhausted_outcome_data location hfh to_read buffer_offset hfh' events
    (m : memory byte) :
  well_typed hfh -> 0 < to_read -> 0 <= buffer_offset -> 0 <= location ->
  file_offset hfh = location + buffer_offset ->
  location + buffer_offset + to_read <= length hfh ->
  buffer_valid blob hfh m ->
  exhausted_outcome location hfh to_read buffer_offset (Ok tt) hfh' events ->
  (forall k, buffer_offset <= k < buffer_offset + to_read ->
             caller_buffer (run blob events m) k = blob (location + k))
  /\ (forall k, ~ (buffer_offset <= k < buffer_offset + to_read) ->
                caller_buffer (run blob events m) k = caller_buffer m k)
  /\ buffer_valid blob hfh' (run blob events m)
  /\ file_offset hfh' = location + buffer_offset + to_read.
Proof.
  intros Hwt Hpos Hbo Hloc Hfo Hin Hvalid Ho.
  assert (Hlen : idx_t (length hfh)) by apply Hwt.
  assert (Hadd : U64.add location buffer_offset = location + buffer_offset)
    by (apply wrap_small; u64; lia).
  assert (Hnext : U64.add (file_offset hfh) to_read = location + buffer_offset + to_read)
    by (rewrite Hfo; apply wrap_small; u64; lia).
  inversion Ho as [Hlt | | Hge | ]; subst; cbn [run List.fold_left apply_event caller_buffer read_buffer].
  - rewrite Hadd. split; [|split; [|split]].
    + intros k Hk. rewrite write_range_inside by exact Hk. f_equal. lia.
    + intros k Hk. apply write_range_outside, Hk.
    + exact Hvalid.
    + exact Hnext.
  - assert (Hsub : U64.sub (length hfh) (file_offset hfh) = length hfh - file_offset hfh)
      by (apply wrap_small; u64; lia).
    assert (Hn : new_buffer_available hfh <= length hfh - file_offset hfh)
      by (unfold new_buffer_available; rewrite Hsub; lia).
    assert (Hend : U64.add (file_offset hfh) (new_buffer_available hfh)
                   = file_offset hfh + new_buffer_available hfh)
      by (apply wrap_small; u64; lia).
    split; [|split; [|split]].
    + intros k Hk. rewrite write_range_inside by exact Hk.
      rewrite write_range_inside by lia. f_equal. lia.
    + intros k Hk. apply write_range_outside, Hk.
    + unfold buffer_valid. cbn. rewrite Hend. intros i Hi.
      rewrite write_range_inside by lia. f_equal. lia.
    + exact Hnext.
Qed.

(** A read that succeeds inside the file delivers the bytes of the blob at
    its offset, given a read-ahead buffer that holds the bytes of its
    window. *)
Lemma read_outcome_data hfh nr_bytes location hfh' trace (m : memory byte) :
  well_typed hfh -> window_fits hfh ->
  0 <= nr_bytes < 2 ^ 63 -> 0 <= location -> location + nr_bytes <= length hfh ->
  buffer_valid blob hfh m ->
  read_outcome hfh nr_bytes location (Ok tt) hfh' trace ->
  (forall k, 0 <= k < nr_bytes -> caller_buffer (run blob trace m) k = blob (location + k))
  /\ (forall k, ~ (0 <= k < nr_bytes) ->
                caller_buffer (run blob trace m) k = caller_buffer m k)
  /\ buffer_valid blob hfh' (run blob trace m)
  /\ file_offset hfh' = location + nr_bytes.
Proof.
  intros Hwt Hfit Hn Hloc Hin Hvalid Ho.
  assert (Hlen : idx_t (length hfh)) by apply Hwt.
  assert (Hl : idx_t location) by (u64; lia).
  destruct (position_window hfh location Hwt Hl Hfit)
    as (Hpwt & Hpsame & Hps & Hpe & Hpo & Hi0 & Ha0 & Hia & Hwin).
  assert (Hplen : length (position hfh location) = length hfh) by apply Hpsame.
  assert (Hpvalid : forall m0 : memory byte,
             read_buffer m0 = read_buffer m -> buffer_valid blob (position hfh location) m0).
  { intros m0 Hm0. unfold buffer_valid. rewrite Hps, Hpe, Hm0. exact Hvalid. }
  inversion Ho as [Hd Hpos | | Hz | Hd Hle | r0 h0 t0 Hd H0 Hpos Hex
                  | r0 h0 t0 Hd Hsome Hex]; subst;
    cbn [run List.fold_left apply_event caller_buffer read_buffer].
  - split; [|split; [|split]].
    + intros k Hk. rewrite write_range_inside by lia. f_equal. lia.
    + intros k Hk. apply write_range_outside. lia.
    + exact Hvalid.
    + cbn. apply wrap_small. u64. lia.
  - split; [intros k Hk; lia|]. split; [reflexivity|].
    split; [apply Hpvalid; reflexivity | lia].
  - destruct Hwin as [Hstart Hend]; [lia|].
    split; [|split; [|split]].
    + intros k Hk. rewrite write_range_inside by lia.
      rewrite Hvalid by lia. f_equal. lia.
    + intros k Hk. apply write_range_outside. lia.
    + unfold buffer_valid. cbn. rewrite Hps, Hpe. exact Hvalid.
    + cbn. rewrite Hpo. apply wrap_small. u64. lia.
  - destruct (exhausted_outcome_data location (position hfh location) nr_bytes 0 hfh' trace m)
      as (Hdata & Hrest & Hv & Hfo); try assumption; try lia.
    + apply Hpvalid. reflexivity.
    + split; [|split; [|split]]; [exact Hdata | exact Hrest | exact Hv | lia].
  - destruct Hwin as [Hstart Hend]; [lia|].
    set (A := buffer_available (position hfh location)) in *.
    set (I := buffer_idx (position hfh location)) in *.
    set (m1 := {| caller_buffer :=
                    write_range (caller_buffer m) 0 A (fun i => read_buffer m (I + i));
                  read_buffer := read_buffer m |}).
    assert (Hdwt : well_typed (drained (position hfh location))).
    { apply well_typed_set; try apply Hpwt; try apply wrap_idx_t. u64. lia. }
    assert (Hdfo : file_offset (drained (position hfh location)) = location + A).
    { cbn. rewrite Hpo. apply wrap_small. u64. lia. }
    destruct (exhausted_outcome_data location (drained (position hfh location))
                (nr_bytes - A) A hfh' t0 m1)
      as (Hdata & Hrest & Hv & Hfo); try assumption; try lia.
    + cbn [drained set_read_info length]. lia.
    + unfold buffer_valid. cbn. rewrite Hps, Hpe. exact Hvalid.
    + split; [|split; [|split]].
      * intros k Hk. destruct (Z.lt_ge_cases k A) as [Hlow|Hhigh].
        -- rewrite Hrest by lia. unfold m1. cbn [caller_buffer].
           rewrite write_range_inside by lia. rewrite Hvalid by lia. f_equal. lia.
        -- apply Hdata. lia.
      * intros k Hk. rewrite Hrest by lia. unfold m1. cbn [caller_buffer].
        apply write_range_outside. lia.
      * exact Hv.
      * lia.
Qed.

End DataFacts.

End ReadOutcomeFacts.

(** X7. A read of [nr_bytes >= 0] bytes returns within two iterations of its
    loop, whatever the downloads do, after at most one ranged fetch; every
    download and every copy stays inside the [nr_bytes] bytes of the
    caller's buffer and the [buffer_size] bytes of the read-ahead buffer;
    the handle keeps fields that are [idx_t] values and a window no larger
    than the buffer, and nothing of it changes but the read-info fields. *)
Theorem Read_stays_in_bounds (DownloadTo : Z -> Z -> option sdk_failure)
    (fuel : nat) (hfh : AzureStorageFileHandle.t) (nr_bytes location : Z) :
  ReadEngine.well_typed hfh -> ReadEngine.idx_t location -> (0 <= nr_bytes < 2 ^ 63)%Z ->
  ReadOutcome.window_fits hfh ->
  exists r hfh' trace,
    ReadEngine.Read DownloadTo (S (S fuel)) hfh nr_bytes location = Some (r, hfh', trace)
    /\ Forall (ReadOutcome.event_in_bounds nr_bytes
                 (AzureReadOptions.buffer_size (AzureStorageFileHandle.read_options hfh)))
              trace
    /\ (List.length (ReadEngine.fetches trace) <= 1)%nat
    /\ ReadEngine.well_typed hfh' /\ ReadOutcome.window_fits hfh'
    /\ FileSystem.same_file hfh hfh'.
Proof.
  intros Hwt Hl Hn Hfit.
  destruct (ReadOutcomeFacts.Read_outcome DownloadTo fuel hfh nr_bytes location Hwt Hl Hn)
    as (r & hfh' & trace & Hr & Ho).
  exists r, hfh', trace. split; [exact Hr|].
  eapply ReadOutcomeFacts.read_outcome_in_bounds; eassumption.
Qed.
(** ** Read engine: what a read leaves alone, and what it delivers *)

Module ReadFrameFacts.
Import AzureStorageFileHandle ReadEngine ReadEngineFacts ReadOutcome ReadOutcomeFacts.
Local Open Scope Z_scope.

Section FrameFacts.

Variable DownloadTo : Z -> Z -> option sdk_failure.

Lemma same_file_set hfh a i o s e : FileSystem.same_file hfh (set_read_info hfh a i o s e).
Proof. repeat split. Qed.

(** The loop writes to the read-info fields only, whatever the fuel and the
    count. *)
Lemma Read_loop_same_file fuel :
  forall location hfh to_read buffer_offset trace r hfh' trace',
    Read_loop DownloadTo fuel location hfh to_read buffer_offset trace = Some (r, hfh', trace') ->
    FileSystem.same_file hfh hfh'.
Proof.
  induction fuel as [|fuel IH]; intros location hfh to_read buffer_offset trace r hfh' trace';
    cbn [Read_loop].
  - destruct (negb _); [|discriminate]. intros [= _ <- _]. apply same_file_refl.
  - destruct (negb _); [intros [= _ <- _]; apply same_file_refl|].
    unfold copy_from_buffer.
    destruct (0 <? Z.min (buffer_available hfh) to_read).
    + match goal with
      | |- context [if ?c then _ else _] => destruct c
      end.
      * match goal with
        | |- context [if ?c then _ else _] => destruct c
        end; unfold ReadRange; destruct (DownloadTo _ _).
        -- intros [= _ <- _]. apply same_file_set.
        -- intros [= _ <- _].
           eapply same_file_trans; [apply same_file_set | apply same_file_set].
        -- intros [= _ <- _]. apply same_file_set.
        -- intros H. apply IH in H.
           eapply same_file_trans; [apply same_file_set|].
           eapply same_file_trans; [|exact H]. apply same_file_set.
      * intros H. apply IH in H.
        eapply same_file_trans; [apply same_file_set | exact H].
    + match goal with
      | |- context [if ?c then _ else _] => destruct c
      end.
      * match goal with
        | |- context [if ?c then _ else _] => destruct c
        end; unfold ReadRange; destruct (DownloadTo _ _).
        -- intros [= _ <- _]. apply same_file_refl.
        -- intros [= _ <- _]. apply same_file_set.
        -- intros [= _ <- _]. apply same_file_refl.
        -- intros H. apply IH in H.
           eapply same_file_trans; [|exact H]. apply same_file_set.
      * intros H. apply IH in H. exact H.
Qed.

Lemma position_same_file hfh location : FileSystem.same_file hfh (position hfh location).
Proof. unfold position. destruct (_ && _); apply same_file_set. Qed.

Lemma Read_same_file fuel hfh nr_bytes location r hfh' trace :
  Read DownloadTo fuel hfh nr_bytes location = Some (r, hfh', trace) ->
  FileSystem.same_file hfh hfh'.
Proof.
  unfold Read. destruct (direct_io hfh && _).
  - unfold ReadRange. destruct (DownloadTo _ _); intros [= _ <- _].
    + apply same_file_refl.
    + apply same_file_set.
  - intros H. apply Read_loop_same_file in H.
    eapply same_file_trans; [apply position_same_file | exact H].
Qed.

Lemma Read_at_offset_same_file fuel hfh nr_bytes r hfh' trace :
  Read_at_offset DownloadTo fuel hfh nr_bytes = Some (r, hfh', trace) ->
  FileSystem.same_file hfh hfh'.
Proof.
  unfold Read_at_offset.
  destruct (Read DownloadTo fuel hfh _ (file_offset hfh)) as [[[[[]|e] h0] t0]|] eqn:Hr;
    [| |discriminate]; intros [= _ <- _]; eapply Read_same_file, Hr.
Qed.

End FrameFacts.
Section DeliveryFacts.

Variable byte : Type.
Variable blob : Z -> byte.
Variable DownloadTo : Z -> Z -> option sdk_failure.

Lemma Read_ok_data fuel hfh hfh' nr_bytes location trace (m : memory byte) :
  well_typed hfh -> window_fits hfh ->
  0 <= nr_bytes < 2 ^ 63 -> 0 <= location -> location + nr_bytes <= length hfh ->
  buffer_valid blob hfh m ->
  Read DownloadTo (S (S fuel)) hfh nr_bytes location = Some (Ok tt, hfh', trace) ->
  (forall k, 0 <= k < nr_bytes -> caller_buffer (run blob trace m) k = blob (location + k))
  /\ (forall k, ~ (0 <= k < nr_bytes) ->
                caller_buffer (run blob trace m) k = caller_buffer m k)
  /\ buffer_valid blob hfh' (run blob trace m)
  /\ well_typed hfh' /\ window_fits hfh'
  /\ file_offset hfh' = location + nr_bytes.
Proof.
  intros Hwt Hfit Hn Hloc Hin Hvalid Hread.
  assert (Hl : idx_t location).
  { pose proof (proj1 Hwt) as Hlen. unfold idx_t in *. lia. }
  destruct (Read_outcome DownloadTo fuel hfh nr_bytes location Hwt Hl Hn)
    as (r & h0 & t0 & Hr & Ho).
  rewrite Hread in Hr. injection Hr as <- <- <-.
  destruct (read_outcome_data byte blob hfh nr_bytes location hfh' trace m
              Hwt Hfit Hn Hloc Hin Hvalid Ho) as (Hdata & Hrest & Hv & Hfo).
  destruct (read_outcome_in_bounds hfh nr_bytes location _ hfh' trace
              Hwt Hl Hn Hfit Ho) as (_ & _ & Hwt' & Hfit' & _).
  exact (conj Hdata (conj Hrest (conj Hv (conj Hwt' (conj Hfit' Hfo))))).
Qed.

(** The count that the offset-less form reads, before the end of the
    file. *)
Lemma clamped_count hfh nr_bytes :
  well_typed hfh -> file_offset hfh <= length hfh < 2 ^ 63 -> 0 <= nr_bytes < 2 ^ 63 ->
  U64.to_int64 (Z.min (U64.sub (length hfh) (file_offset hfh)) (U64.wrap nr_bytes))
  = Z.min (length hfh - file_offset hfh) nr_bytes.
Proof.
  intros Hwt Hlen Hn.
  assert (Hfo : idx_t (file_offset hfh)) by apply Hwt.
  rewrite (wrap_small nr_bytes) by (u64; lia).
  assert (U64.sub (length hfh) (file_offset hfh) = length hfh - file_offset hfh) as ->
    by (apply wrap_small; u64; lia).
  apply to_int64_small. u64. lia.
Qed.

End DeliveryFacts.
End ReadFrameFacts.

(** X11. No read and no seek changes the path, the flags, the length, the
    modification time or the read options of a handle, whatever the count,
    the offset and the outcome: [GetFileSize] and [GetLastModifiedTime]
    return after it what they returned before. A seek sets the file offset
    and leaves the buffer window and its cursor as they were. *)
Theorem Read_and_Seek_keep_size_and_time (DownloadTo : Z -> Z -> option sdk_failure)
    (hfh : AzureStorageFileHandle.t) :
  (forall location,
     FileSystem.same_file hfh (ReadEngine.Seek hfh location)
     /\ AzureStorageFileHandle.file_offset (ReadEngine.Seek hfh location) = location
     /\ AzureStorageFileHandle.buffer_available (ReadEngine.Seek hfh location)
        = AzureStorageFileHandle.buffer_available hfh
     /\ AzureStorageFileHandle.buffer_idx (ReadEngine.Seek hfh location)
        = AzureStorageFileHandle.buffer_idx hfh
     /\ AzureStorageFileHandle.buffer_start (ReadEngine.Seek hfh location)
        = AzureStorageFileHandle.buffer_start hfh
     /\ AzureStorageFileHandle.buffer_end (ReadEngine.Seek hfh location)
        = AzureStorageFileHandle.buffer_end hfh)
  /\ (forall fuel nr_bytes location r hfh' trace,
        ReadEngine.Read DownloadTo fuel hfh nr_bytes location = Some (r, hfh', trace) ->
        FileSystem.same_file hfh hfh'
        /\ FileSystem.GetFileSize hfh' = FileSystem.GetFileSize hfh
        /\ FileSystem.GetLastModifiedTime hfh' = FileSystem.GetLastModifiedTime hfh)
  /\ (forall fuel nr_bytes r hfh' trace,
        ReadEngine.Read_at_offset DownloadTo fuel hfh nr_bytes = Some (r, hfh', trace) ->
        FileSystem.same_file hfh hfh'
        /\ FileSystem.GetFileSize hfh' = FileSystem.GetFileSize hfh
        /\ FileSystem.GetLastModifiedTime hfh' = FileSystem.GetLastModifiedTime hfh).
Proof.
  split; [intros location; split; [repeat split | repeat split; reflexivity]|].
  split.
  - intros fuel nr_bytes location r hfh' trace H.
    apply ReadFrameFacts.Read_same_file in H.
    split; [exact H|]. destruct H as (_ & _ & Hlen & Htime & _).
    unfold FileSystem.GetFileSize, FileSystem.GetLastModifiedTime.
    rewrite Hlen, Htime. split; reflexivity.
  - intros fuel nr_bytes r hfh' trace H.
    apply ReadFrameFacts.Read_at_offset_same_file in H.
    split; [exact H|]. destruct H as (_ & _ & Hlen & Htime & _).
    unfold FileSystem.GetFileSize, FileSystem.GetLastModifiedTime.
    rewrite Hlen, Htime. split; reflexivity.
Qed.

Lemma Read_and_Seek_keep_size_and_time_witness :
  exists hfh',
    ReadEngine.Read Samples.download_ok 2 Samples.handle_after_first_read 11 5
    = Some (Ok tt, hfh',
            [ReadEngine.Memcpy 0 5 5; ReadEngine.Fetch 10 ReadEngine.ReadBuffer 10;
             ReadEngine.Memcpy 5 0 6])
    /\ FileSystem.GetFileSize hfh' = 100%Z
    /\ FileSystem.GetLastModifiedTime hfh' = 0%Z.
Proof.
  eexists. split; [reflexivity|].
  destruct (Read_and_Seek_keep_size_and_time Samples.download_ok
              Samples.handle_after_first_read) as (_ & Hread & _).
  destruct (Hread 2%nat 11%Z 5%Z _ _ _ eq_refl) as (_ & Hsize & Htime).
  split; [rewrite Hsize; reflexivity | rewrite Htime; reflexivity].
Defined.

Lemma Read_stays_in_bounds_witness :
  ReadEngine.well_typed Samples.handle_after_first_read
  /\ ReadEngine.idx_t 5
  /\ (0 <= 11 < 2 ^ 63)%Z
  /\ ReadOutcome.window_fits Samples.handle_after_first_read
  /\ exists r hfh' trace,
       ReadEngine.Read Samples.download_ok 2 Samples.handle_after_first_read 11 5
       = Some (r, hfh', trace)
       /\ Forall (ReadOutcome.event_in_bounds 11 10) trace
       /\ (List.length (ReadEngine.fetches trace) <= 1)%nat.
Proof.
  assert (Hwt : ReadEngine.well_typed Samples.handle_after_first_read)
    by (vm_compute; intuition discriminate).
  assert (Hl : ReadEngine.idx_t 5) by (vm_compute; intuition discriminate).
  assert (Hn : (0 <= 11 < 2 ^ 63)%Z) by lia.
  assert (Hfit : ReadOutcome.window_fits Samples.handle_after_first_read)
    by (vm_compute; discriminate).
  split; [exact Hwt|]. split; [exact Hl|]. split; [exact Hn|]. split; [exact Hfit|].
  destruct (Read_stays_in_bounds Samples.download_ok 0 Samples.handle_after_first_read
              11 5 Hwt Hl Hn Hfit) as (r & hfh' & trace & Hr & Hb & Hf & _).
  exists r, hfh', trace. split; [exact Hr|]. split; [exact Hb | exact Hf].
Defined.

(** X8. A read that succeeds inside the file puts into the caller's buffer the
    [nr_bytes] bytes of the blob at [location], and touches nothing else of
    the caller's buffer, provided that the read-ahead buffer holds the bytes
    of the blob in its window when the read starts; it holds them again when
    the read ends, and the handle's offset is then [location + nr_bytes].
    A download that succeeds is taken to deliver the bytes of the blob in
    the requested range; the file is shorter than [2^63] bytes, so that the
    conversion of an offset to [int64_t] changes nothing. *)
Theorem Read_delivers_blob_bytes (byte : Type) (blob : Z -> byte)
    (DownloadTo : Z -> Z -> option sdk_failure) (fuel : nat)
    (hfh hfh' : AzureStorageFileHandle.t) (nr_bytes location : Z)
    (trace : list ReadEngine.event) (m : ReadOutcome.memory byte) :
  ReadEngine.well_typed hfh -> ReadOutcome.window_fits hfh ->
  (0 <= nr_bytes < 2 ^ 63)%Z -> (0 <= location)%Z ->
  (location + nr_bytes <= AzureStorageFileHandle.length hfh < 2 ^ 63)%Z ->
  ReadOutcome.buffer_valid blob hfh m ->
  ReadEngine.Read DownloadTo (S (S fuel)) hfh nr_bytes location = Some (Ok tt, hfh', trace) ->
  (forall k, (0 <= k < nr_bytes)%Z ->
             ReadOutcome.caller_buffer (ReadOutcome.run blob trace m) k = blob (location + k)%Z)
  /\ (forall k, ~ (0 <= k < nr_bytes)%Z ->
                ReadOutcome.caller_buffer (ReadOutcome.run blob trace m) k
                = ReadOutcome.caller_buffer m k)
  /\ ReadOutcome.buffer_valid blob hfh' (ReadOutcome.run blob trace m)
  /\ ReadEngine.well_typed hfh' /\ ReadOutcome.window_fits hfh'
  /\ AzureStorageFileHandle.file_offset hfh' = (location + nr_bytes)%Z.
Proof.
  intros Hwt Hfit Hn Hloc [Hin _]. apply ReadFrameFacts.Read_ok_data; assumption.
Qed.

Lemma Read_delivers_blob_bytes_witness :
  ReadEngine.well_typed Samples.handle_after_first_read
  /\ ReadOutcome.window_fits Samples.handle_after_first_read
  /\ (5 + 11 <= AzureStorageFileHandle.length Samples.handle_after_first_read < 2 ^ 63)%Z
  /\ ReadOutcome.buffer_valid (fun offset => offset) Samples.handle_after_first_read
       {| ReadOutcome.caller_buffer := fun _ => 0%Z; ReadOutcome.read_buffer := fun i => i |}
  /\ exists hfh',
       ReadEngine.Read Samples.download_ok 2 Samples.handle_after_first_read 11 5
       = Some (Ok tt, hfh',
               [ReadEngine.Memcpy 0 5 5; ReadEngine.Fetch 10 ReadEngine.ReadBuffer 10;
                ReadEngine.Memcpy 5 0 6])
       /\ forall k, (0 <= k < 11)%Z ->
            ReadOutcome.caller_buffer
              (ReadOutcome.run (fun offset => offset)
                 [ReadEngine.Memcpy 0 5 5; ReadEngine.Fetch 10 ReadEngine.ReadBuffer 10;
                  ReadEngine.Memcpy 5 0 6]
                 {| ReadOutcome.caller_buffer := fun _ => 0%Z;
                    ReadOutcome.read_buffer := fun i => i |}) k
            = (5 + k)%Z.
Proof.
  assert (Hwt : ReadEngine.well_typed Samples.handle_after_first_read)
    by (vm_compute; intuition discriminate).
  assert (Hfit : ReadOutcome.window_fits Samples.handle_after_first_read)
    by (vm_compute; discriminate).
  assert (Hin : (5 + 11 <= AzureStorageFileHandle.length Samples.handle_after_first_read
                 < 2 ^ 63)%Z)
    by (vm_compute; split; [discriminate | reflexivity]).
  assert (Hvalid : ReadOutcome.buffer_valid (fun offset => offset)
                     Samples.handle_after_first_read
                     {| ReadOutcome.caller_buffer := fun _ => 0%Z;
                        ReadOutcome.read_buffer := fun i => i |})
    by (intros i _; reflexivity).
  split; [exact Hwt|]. split; [exact Hfit|]. split; [exact Hin|]. split; [exact Hvalid|].
  eexists. split; [reflexivity|].
  exact (proj1 (Read_delivers_blob_bytes Z (fun offset => offset) Samples.download_ok 0
                  Samples.handle_after_first_read _ 11 5 _ _
                  Hwt Hfit ltac:(lia) ltac:(lia) Hin Hvalid eq_refl)).
Defined.

(** X9. Reading with the form that takes no offset, from a handle whose offset
    is not past the end of the file: a call that succeeds returns the
    smaller of the count asked for and the bytes left, delivers as many
    bytes of the blob from the handle's offset on, and advances the offset by
    as much, so that the handle is again one this applies to: successive
    calls deliver consecutive ranges, and return 0 at the end of the file
    without any event. *)
Theorem Read_at_offset_sequential (byte : Type) (blob : Z -> byte)
    (DownloadTo : Z -> Z -> option sdk_failure) (fuel : nat)
    (hfh hfh' : AzureStorageFileHandle.t) (nr_bytes n : Z)
    (trace : list ReadEngine.event) (m : ReadOutcome.memory byte) :
  ReadEngine.well_typed hfh -> ReadOutcome.window_fits hfh ->
  (AzureStorageFileHandle.file_offset hfh <= AzureStorageFileHandle.length hfh < 2 ^ 63)%Z ->
  (0 <= nr_bytes < 2 ^ 63)%Z ->
  ReadOutcome.buffer_valid blob hfh m ->
  ReadEngine.Read_at_offset DownloadTo (S (S fuel)) hfh nr_bytes = Some (Ok n, hfh', trace) ->
  n = Z.min (AzureStorageFileHandle.length hfh - AzureStorageFileHandle.file_offset hfh)
        nr_bytes
  /\ (forall k, (0 <= k < n)%Z ->
                ReadOutcome.caller_buffer (ReadOutcome.run blob trace m) k
                = blob (AzureStorageFileHandle.file_offset hfh + k)%Z)
  /\ AzureStorageFileHandle.file_offset hfh'
     = (AzureStorageFileHandle.file_offset hfh + n)%Z
  /\ (n = 0%Z -> trace = [])
  /\ ReadEngine.well_typed hfh' /\ ReadOutcome.window_fits hfh'
  /\ (AzureStorageFileHandle.file_offset hfh' <= AzureStorageFileHandle.length hfh' < 2 ^ 63)%Z
  /\ ReadOutcome.buffer_valid blob hfh' (ReadOutcome.run blob trace m).
Proof.
  intros Hwt Hfit Hlen Hn Hvalid. unfold ReadEngine.Read_at_offset.
  rewrite (ReadFrameFacts.clamped_count hfh nr_bytes Hwt Hlen Hn).
  set (n0 := Z.min (AzureStorageFileHandle.length hfh
                    - AzureStorageFileHandle.file_offset hfh) nr_bytes).
  destruct (ReadEngine.Read DownloadTo (S (S fuel)) hfh n0
              (AzureStorageFileHandle.file_offset hfh)) as [[[[[]|e] h0] t0]|] eqn:Hr;
    [|discriminate|discriminate].
  intros [= <- <- <-].
  assert (Hfo : ReadEngine.idx_t (AzureStorageFileHandle.file_offset hfh)) by apply Hwt.
  pose proof (ReadFrameFacts.Read_same_file DownloadTo _ _ _ _ _ _ _ Hr)
    as (_ & _ & Hsame & _).
  destruct (ReadFrameFacts.Read_ok_data byte blob DownloadTo fuel hfh h0 n0
              (AzureStorageFileHandle.file_offset hfh) t0 m)
    as (Hdata & _ & Hv & Hwt' & Hfit' & Hfo'); try assumption;
    try (unfold ReadEngine.idx_t in Hfo; lia).
  split; [reflexivity|]. split; [exact Hdata|]. split; [exact Hfo'|].
  split.
  { intros Hz. unfold ReadEngine.Read in Hr. rewrite Hz in Hr.
    change (U64.wrap 0) with 0%Z in Hr. cbn [Z.ltb Z.compare] in Hr.
    rewrite andb_false_r, ReadEngineFacts.Read_loop_done in Hr by lia. congruence. }
  split; [exact Hwt'|]. split; [exact Hfit'|].
  split; [rewrite Hfo', Hsame; lia | exact Hv].
Qed.

Lemma Read_at_offset_sequential_witness :
  ReadEngine.well_typed (ReadEngine.Seek Samples.fresh_handle 95)
  /\ ReadOutcome.window_fits (ReadEngine.Seek Samples.fresh_handle 95)
  /\ ReadOutcome.buffer_valid (fun offset => offset) (ReadEngine.Seek Samples.fresh_handle 95)
       {| ReadOutcome.caller_buffer := fun _ => 0%Z; ReadOutcome.read_buffer := fun _ => 0%Z |}
  /\ exists hfh',
       ReadEngine.Read_at_offset Samples.download_ok 2 (ReadEngine.Seek Samples.fresh_handle 95)
         10
       = Some (Ok 5%Z, hfh',
               [ReadEngine.Fetch 95 ReadEngine.ReadBuffer 5; ReadEngine.Memcpy 0 0 5])
       /\ AzureStorageFileHandle.file_offset hfh' = (95 + 5)%Z
       /\ forall k, (0 <= k < 5)%Z ->
            ReadOutcome.caller_buffer
              (ReadOutcome.run (fun offset => offset)
                 [ReadEngine.Fetch 95 ReadEngine.ReadBuffer 5; ReadEngine.Memcpy 0 0 5]
                 {| ReadOutcome.caller_buffer := fun _ => 0%Z;
                    ReadOutcome.read_buffer := fun _ => 0%Z |}) k
            = (95 + k)%Z.
Proof.
  assert (Hwt : ReadEngine.well_typed (ReadEngine.Seek Samples.fresh_handle 95))
    by (vm_compute; intuition discriminate).
  assert (Hfit : ReadOutcome.window_fits (ReadEngine.Seek Samples.fresh_handle 95))
    by (vm_compute; discriminate).
  assert (Hvalid : ReadOutcome.buffer_valid (fun offset => offset)
                     (ReadEngine.Seek Samples.fresh_handle 95)
                     {| ReadOutcome.caller_buffer := fun _ => 0%Z;
                        ReadOutcome.read_buffer := fun _ => 0%Z |})
    by (intros i Hi; cbn in Hi; lia).
  split; [exact Hwt|]. split; [exact Hfit|]. split; [exact Hvalid|].
  eexists. split; [reflexivity|].
  destruct (Read_at_offset_sequential Z (fun offset => offset) Samples.download_ok 0
              (ReadEngine.Seek Samples.fresh_handle 95) _ 10 5 _ _
              Hwt Hfit ltac:(vm_compute; split; [discriminate | reflexivity])
              ltac:(lia) Hvalid eq_refl) as (_ & Hdata & Hfo & _).
  split; [exact Hfo | exact Hdata].
Defined.

(** ** Read engine: failures *)

Module ReadFailureFacts.
Import AzureStorageFileHandle ReadEngine ReadEngineFacts ReadOutcomeFacts.
Local Open Scope Z_scope.

Section FailureFacts.

Variable DownloadTo : Z -> Z -> option sdk_failure.

(** The loop ends on the first download that fails, with the error of that
    download; a loop that succeeds has had no download fail. *)
Lemma Read_loop_downloads fuel :
  forall location hfh to_read buffer_offset trace r hfh' trace',
    Read_loop DownloadTo fuel location hfh to_read buffer_offset trace = Some (r, hfh', trace') ->
    exists events,
      trace' = trace ++ events
      /\ match r with
         | Ok _ => Forall (download_succeeds DownloadTo) events
         | Throw ex =>
             exists before file_offset buffer_out len e,
               events = before ++ [Fetch file_offset buffer_out len]
               /\ Forall (download_succeeds DownloadTo) before
               /\ DownloadTo (U64.to_int64 file_offset) len = Some e
               /\ ex = download_exception (path hfh) e
         end.
Proof.
  induction fuel as [|fuel IH]; intros location hfh to_read buffer_offset trace r hfh' trace';
    cbn [Read_loop].
  - destruct (negb _); [|discriminate]. intros [= <- _ <-].
    exists []. split; [symmetry; apply app_nil_r | constructor].
  - destruct (negb _).
    { intros [= <- _ <-]. exists []. split; [symmetry; apply app_nil_r | constructor]. }
    unfold copy_from_buffer.
    set (copied := if 0 <? Z.min (buffer_available hfh) to_read
                   then [Memcpy buffer_offset (buffer_idx hfh)
                           (Z.min (buffer_available hfh) to_read)]
                   else []).
    assert (Hcopied : Forall (download_succeeds DownloadTo) copied).
    { unfold copied. destruct (0 <? _); repeat constructor. }
    assert (Hfinish : forall h1 tr1 T1 bo1,
               path h1 = path hfh ->
               tr1 = trace ++ copied ->
               (if (0 <? T1) && (buffer_available h1 =? 0)
                then
                  if new_buffer_available h1 <? T1
                  then
                    let '(r, ev) := ReadRange DownloadTo h1 (U64.add location bo1)
                                      (CallerBuffer bo1) T1 in
                    match r with
                    | Ok _ =>
                        Some (Ok tt,
                              set_read_info h1 0 0 (U64.add (file_offset h1) T1)
                                (buffer_start h1) (buffer_end h1), tr1 ++ ev)
                    | Throw e => Some (Throw e, h1, tr1 ++ ev)
                    end
                  else
                    let '(r, ev) := ReadRange DownloadTo h1 (file_offset h1) ReadBuffer
                                      (new_buffer_available h1) in
                    match r with
                    | Ok _ =>
                        Read_loop DownloadTo fuel location
                          (set_read_info h1 (new_buffer_available h1) 0 (file_offset h1)
                             (file_offset h1)
                             (U64.add (file_offset h1) (new_buffer_available h1)))
                          T1 bo1 (tr1 ++ ev)
                    | Throw e => Some (Throw e, h1, tr1 ++ ev)
                    end
                else Read_loop DownloadTo fuel location h1 T1 bo1 tr1)
               = Some (r, hfh', trace') ->
               exists events,
                 trace' = trace ++ events
                 /\ match r with
                    | Ok _ => Forall (download_succeeds DownloadTo) events
                    | Throw ex =>
                        exists before file_offset buffer_out len e,
                          events = before ++ [Fetch file_offset buffer_out len]
                          /\ Forall (download_succeeds DownloadTo) before
                          /\ DownloadTo (U64.to_int64 file_offset) len = Some e
                          /\ ex = download_exception (path hfh) e
                    end).
    { intros h1 tr1 T1 bo1 Hpath ->.
      assert (Hcont : forall h2 ev,
                 path h2 = path hfh ->
                 Forall (download_succeeds DownloadTo) ev ->
                 Read_loop DownloadTo fuel location h2 T1 bo1 ((trace ++ copied) ++ ev)
                 = Some (r, hfh', trace') ->
                 exists events,
                   trace' = trace ++ events
                   /\ match r with
                      | Ok _ => Forall (download_succeeds DownloadTo) events
                      | Throw ex =>
                          exists before file_offset buffer_out len e,
                            events = before ++ [Fetch file_offset buffer_out len]
                            /\ Forall (download_succeeds DownloadTo) before
                            /\ DownloadTo (U64.to_int64 file_offset) len = Some e
                            /\ ex = download_exception (path hfh) e
                      end).
      { intros h2 ev Hp2 Hev H. apply IH in H as (events & -> & Hr).
        exists (copied ++ ev ++ events). split; [rewrite <- !app_assoc; reflexivity|].
        destruct r as [[]|ex].
        - apply Forall_app. split; [exact Hcopied|]. apply Forall_app. split; assumption.
        - destruct Hr as (before & fo & out & len & e & -> & Hb & Hd & ->).
          exists (copied ++ ev ++ before), fo, out, len, e.
          split; [rewrite <- !app_assoc; reflexivity|].
          split; [apply Forall_app; split; [exact Hcopied|];
                  apply Forall_app; split; assumption|].
          split; [exact Hd | rewrite Hp2; reflexivity]. }
      destruct ((0 <? T1) && (buffer_available h1 =? 0)).
      - destruct (new_buffer_available h1 <? T1); unfold ReadRange.
        + destruct (DownloadTo _ T1) as [e|] eqn:Hd; intros [= <- _ <-].
          * exists (copied ++ [Fetch (U64.add location bo1) (CallerBuffer bo1) T1]).
            split; [rewrite <- app_assoc; reflexivity|].
            exists copied, (U64.add location bo1), (CallerBuffer bo1), T1, e.
            split; [reflexivity|]. split; [exact Hcopied|].
            split; [exact Hd | rewrite Hpath; reflexivity].
          * exists (copied ++ [Fetch (U64.add location bo1) (CallerBuffer bo1) T1]).
            split; [rewrite <- app_assoc; reflexivity|].
            apply Forall_app. split; [exact Hcopied|]. repeat constructor. exact Hd.
        + destruct (DownloadTo _ (new_buffer_available h1)) as [e|] eqn:Hd.
          * intros [= <- _ <-].
            exists (copied ++ [Fetch (file_offset h1) ReadBuffer (new_buffer_available h1)]).
            split; [rewrite <- app_assoc; reflexivity|].
            exists copied, (file_offset h1), ReadBuffer, (new_buffer_available h1), e.
            split; [reflexivity|]. split; [exact Hcopied|].
            split; [exact Hd | rewrite Hpath; reflexivity].
          * apply Hcont; [exact Hpath | repeat constructor; exact Hd].
      - intros H. apply (Hcont h1 []); [exact Hpath | constructor|].
        rewrite app_nil_r. exact H. }
    unfold copied. destruct (0 <? Z.min (buffer_available hfh) to_read).
    + apply Hfinish; reflexivity.
    + apply Hfinish; [reflexivity | symmetry; apply app_nil_r].
Qed.

End FailureFacts.
End ReadFailureFacts.

(** X10. A read fails exactly when a download fails, and the failed download
    is the last event of the read; what was copied out of the read-ahead
    buffer before stays copied. When the download threw a
    [StorageException] the failure is the [IOException] for its error code
    and reason phrase, with the path of the handle; an exception of another
    type leaves [Read] as the download threw it. In a read that succeeds
    every download has succeeded. *)
Theorem Read_fails_on_the_failed_download (DownloadTo : Z -> Z -> option sdk_failure)
    (fuel : nat) (hfh hfh' : AzureStorageFileHandle.t) (nr_bytes location : Z)
    (r : result unit) (trace : list ReadEngine.event) :
  ReadEngine.Read DownloadTo fuel hfh nr_bytes location = Some (r, hfh', trace) ->
  match r with
  | Ok _ => Forall (download_succeeds DownloadTo) trace
  | Throw ex =>
      exists before file_offset buffer_out len e,
        trace = before ++ [ReadEngine.Fetch file_offset buffer_out len]
        /\ Forall (download_succeeds DownloadTo) before
        /\ DownloadTo (U64.to_int64 file_offset) len = Some e
        /\ ex = match e with
                | StorageFailure e' =>
                    IOException
                      (ReadEngine.read_failed_message (AzureStorageFileHandle.path hfh) e')
                | OtherFailure what => OtherException what
                end
  end.
Proof.
  unfold ReadEngine.Read.
  destruct (ReadEngine.direct_io hfh && _).
  - unfold ReadEngine.ReadRange.
    destruct (DownloadTo _ _) as [e|] eqn:Hd; intros [= <- _ <-].
    + exists [], location, (ReadEngine.CallerBuffer 0), (U64.wrap nr_bytes), e.
      split; [reflexivity|]. split; [constructor|]. split; [exact Hd | reflexivity].
    + repeat constructor. exact Hd.
  - intros H. apply ReadFailureFacts.Read_loop_downloads in H as (events & -> & Hr).
    destruct r as [[]|ex]; [exact Hr|].
    destruct Hr as (before & fo & out & len & e & -> & Hb & Hd & ->).
    exists before, fo, out, len, e.
    split; [reflexivity|]. split; [exact Hb|]. split; [exact Hd|].
    destruct (ReadFrameFacts.position_same_file hfh location) as (-> & _). reflexivity.
Qed.

Lemma Read_fails_on_the_failed_download_witness :
  ReadEngine.Read download_fails_at_10 2 Samples.handle_after_first_read 11 5
  = Some (Throw (IOException
                   "AzureStorageFileSystem Read to az://container/blob failed with ServerBusyReason Phrase: Service Unavailable"),
          AzureStorageFileHandle.Build "az://container/blob" FileFlags.FILE_FLAGS_READ 100 0
            0 10 10 0 10 Samples.small_buffer_options,
          [ReadEngine.Memcpy 0 5 5; ReadEngine.Fetch 10 ReadEngine.ReadBuffer 10])
  /\ (exists before file_offset buffer_out len e,
        [ReadEngine.Memcpy 0 5 5; ReadEngine.Fetch 10 ReadEngine.ReadBuffer 10]
        = before ++ [ReadEngine.Fetch file_offset buffer_out len]
        /\ download_fails_at_10 (U64.to_int64 file_offset) len = Some e)
  /\ ReadEngine.Read download_unreachable 2 Samples.fresh_handle 10 0
     = Some (Throw (OtherException "Couldn't resolve host name"), Samples.fresh_handle,
             [ReadEngine.Fetch 0 ReadEngine.ReadBuffer 10]).
Proof.
  assert (H : ReadEngine.Read download_fails_at_10 2 Samples.handle_after_first_read 11 5
              = Some (Throw (IOException
                               "AzureStorageFileSystem Read to az://container/blob failed with ServerBusyReason Phrase: Service Unavailable"),
                      AzureStorageFileHandle.Build "az://container/blob"
                        FileFlags.FILE_FLAGS_READ 100 0 0 10 10 0 10
                        Samples.small_buffer_options,
                      [ReadEngine.Memcpy 0 5 5; ReadEngine.Fetch 10 ReadEngine.ReadBuffer 10]))
    by (vm_compute; reflexivity).
  split; [exact H|].
  split; [|vm_compute; reflexivity].
  destruct (Read_fails_on_the_failed_download _ _ _ _ _ _ _ _ H)
    as (before & fo & out & len & e & Ht & _ & Hd & _).
  exists before, fo, out, len, e. split; [exact Ht | exact Hd].
Defined.

(** ** Context cache: what a lookup does to the session *)

Section SessionEffectFacts.

Variable env : ProcessEnv.

Lemma GetOrCreateStorageContext_failure opener path parsed_url σ e σ1 :
  GetOrCreateStorageContext env opener path parsed_url σ = (Throw e, σ1) -> σ1 = σ.
Proof.
  unfold GetOrCreateStorageContext.
  repeat match goal with
         | |- context [if ?b then _ else _] => destruct b
         | |- context [match ?o with Some _ => _ | None => _ end] => destruct o
         | |- context [match ?o with Ok _ => _ | Throw _ => _ end] => destruct o
         end; cbn; intros [= ]; subst; reflexivity.
Qed.

(** A lookup leaves the session alone, or builds a context from the
    resolver's client at the address [make_shared] picks. *)
Lemma GetOrCreateStorageContext_cases opener path parsed_url σ r σ1 :
  GetOrCreateStorageContext env opener path parsed_url σ = (r, σ1) ->
  (σ1 = σ
   /\ ((exists e, r = Throw e)
       \/ exists l c,
            r = Ok l /\ azure_context_caching opener = true
            /\ registered_state σ !! AzureParsedUrl.storage_account_name parsed_url = Some l
            /\ contexts σ !! l = Some c /\ AzureContextState.IsValid c = true))
  \/ (exists client,
        ConnectToStorageAccount env opener path parsed_url = Ok client
        /\ r = Ok (fresh (in_use σ))
        /\ contexts σ1
           = <[fresh (in_use σ) := AzureContextState.make client (ParseAzureReadOptions opener)]>
               (contexts σ)
        /\ registered_state σ1
           = if azure_context_caching opener
             then <[AzureParsedUrl.storage_account_name parsed_url := fresh (in_use σ)]>
                    (registered_state σ)
             else registered_state σ).
Proof.
  unfold GetOrCreateStorageContext, CreateStorageContext.
  destruct (azure_context_caching opener) eqn:Hcaching.
  - destruct (client_context opener) as [ctx|]; [|intros [= <- <-]; left; eauto].
    destruct (registered_state σ !! _) as [l1|] eqn:Hreg.
    + destruct (contexts σ !! l1) as [c1|] eqn:Hl1; [|intros [= <- <-]; left; eauto].
      destruct (AzureContextState.IsValid c1) eqn:Hvalid; cbn [negb].
      * intros [= <- <-]. left. split; [reflexivity|]. right. exists l1, c1. auto.
      * destruct (ConnectToStorageAccount env opener path parsed_url) as [client|e];
          cbn; intros [= <- <-]; [right; exists client; auto | left; eauto].
    + destruct (ConnectToStorageAccount env opener path parsed_url) as [client|e];
        cbn; intros [= <- <-]; [right; exists client; auto | left; eauto].
  - destruct (ConnectToStorageAccount env opener path parsed_url) as [client|e];
      cbn; intros [= <- <-]; [right; exists client; auto | left; eauto].
Qed.

End SessionEffectFacts.

(** X16. A lookup of the storage context changes the session in one way only.
    Either nothing changes: the lookup has failed, or it has returned the
    valid context registered under the account name of the URL. Or a context
    was built from the client of the credential resolver and the read
    options of the opener: it is put at an address that held no context and
    was registered under no name, and, with caching, this address is
    registered under the account name of the URL; without caching nothing is
    registered. No lookup touches the entry of another account or a context
    that exists. *)
Theorem GetOrCreateStorageContext_session_effects (env : ProcessEnv) (opener : FileOpener)
    (path : string) (parsed_url : AzureParsedUrl.t) (σ σ1 : Session) (r : result nat) :
  GetOrCreateStorageContext env opener path parsed_url σ = (r, σ1) ->
  ((σ1 = σ
    /\ ((exists e, r = Throw e)
        \/ exists l c,
             r = Ok l /\ azure_context_caching opener = true
             /\ registered_state σ !! AzureParsedUrl.storage_account_name parsed_url = Some l
             /\ contexts σ !! l = Some c /\ AzureContextState.IsValid c = true))
   \/ (exists client l,
         ConnectToStorageAccount env opener path parsed_url = Ok client
         /\ r = Ok l
         /\ contexts σ !! l = None
         /\ (forall key, registered_state σ !! key ≠ Some l)
         /\ contexts σ1
            = <[l := AzureContextState.make client (ParseAzureReadOptions opener)]> (contexts σ)
         /\ registered_state σ1
            = if azure_context_caching opener
              then <[AzureParsedUrl.storage_account_name parsed_url := l]> (registered_state σ)
              else registered_state σ))
  /\ (forall key, key ≠ AzureParsedUrl.storage_account_name parsed_url ->
                  registered_state σ1 !! key = registered_state σ !! key)
  /\ (forall l0 c0, contexts σ !! l0 = Some c0 -> contexts σ1 !! l0 = Some c0).
Proof.
  intros H.
  destruct (GetOrCreateStorageContext_cases env _ _ _ _ _ _ H)
    as [[-> Hsame]|(client & Hcr & -> & Hctx & Hreg)].
  - split; [left; split; [reflexivity | exact Hsame]|]. split; reflexivity || auto.
  - assert (Hnone : contexts σ !! fresh (in_use σ) = None)
      by apply not_elem_of_dom, fresh_context_address.
    split.
    { right. exists client, (fresh (in_use σ)).
      split; [exact Hcr|]. split; [reflexivity|]. split; [exact Hnone|].
      split; [intros key; apply fresh_address_not_registered|].
      split; [exact Hctx | exact Hreg]. }
    split.
    + intros key Hne. rewrite Hreg.
      destruct (azure_context_caching opener); [|reflexivity].
      apply lookup_insert_ne. congruence.
    + intros l0 c0 Hl0. rewrite Hctx, lookup_insert_ne; [exact Hl0|].
      intros <-. congruence.
Qed.

Lemma GetOrCreateStorageContext_session_effects_witness :
  GetOrCreateStorageContext SessionSamples.env SessionSamples.opener SessionSamples.path
    SessionSamples.parsed_url SessionSamples.empty_session
  = (Ok 0%nat, SessionSamples.session_after_lookup)
  /\ (forall key, key ≠ "acct" ->
                  registered_state SessionSamples.session_after_lookup !! key
                  = registered_state SessionSamples.empty_session !! key)
  /\ registered_state SessionSamples.session_after_lookup !! "acct" = Some 0%nat
  /\ GetOrCreateStorageContext SessionSamples.env SessionSamples.opener SessionSamples.path
       SessionSamples.parsed_url session_with_other_state
     = (Ok 1%nat,
        {| registered_state := {[ "acct" := 1%nat; "http_state" := 0%nat ]};
           contexts := {[ 1%nat := SessionSamples.context ]} |}).
Proof.
  assert (H : GetOrCreateStorageContext SessionSamples.env SessionSamples.opener
                SessionSamples.path SessionSamples.parsed_url SessionSamples.empty_session
              = (Ok 0%nat, SessionSamples.session_after_lookup)) by (vm_compute; reflexivity).
  split; [exact H|].
  split; [exact (proj1 (proj2 (GetOrCreateStorageContext_session_effects _ _ _ _ _ _ _ H)))|].
  split; [reflexivity | vm_compute; reflexivity].
Defined.

(** ** Opening files *)

Module FileSystemFacts.
Import FileSystem.

Section OpenFacts.

Variable env : ProcessEnv.
Variable GetProperties : Azure.BlobServiceClient -> string -> string -> sdk_failure + Z.
Variable Allocate : Z -> option string.

(** [CreateHandle] once the URL is parsed and the context is there. *)
Lemma CreateHandle_with_context path flags opener σ u l σ1 ctx :
  ParseUrl path = Ok u ->
  GetOrCreateStorageContext env opener path u σ = (Ok l, σ1) ->
  contexts σ1 !! l = Some ctx ->
  CreateHandle env GetProperties Allocate path flags (Some opener) σ
  = (let '(r, events) :=
       new_handle GetProperties Allocate path flags (AzureContextState.service_client ctx)
         (AzureParsedUrl.container u) (AzureParsedUrl.path u)
         (AzureContextState.read_options ctx) in
     (r, σ1, events)).
Proof. unfold CreateHandle. intros -> -> ->. reflexivity. Qed.

(** The ways [CreateHandle] ends: before the constructor is reached, with an
    exception and the session as it was, or in the constructor. *)
Lemma CreateHandle_outcome path flags opener σ r σ1 events :
  CreateHandle env GetProperties Allocate path flags opener σ = (r, σ1, events) ->
  (exists e, r = Throw e /\ σ1 = σ /\ events = []
             /\ (opener = None -> e = InternalException missing_opener_message)
             /\ (forall o, opener = Some o -> ParseUrl path = Throw e
                            \/ exists u, ParseUrl path = Ok u
                                 /\ GetOrCreateStorageContext env o path u σ = (Throw e, σ)))
  \/ (exists o u l ctx,
         opener = Some o /\ ParseUrl path = Ok u
         /\ GetOrCreateStorageContext env o path u σ = (Ok l, σ1)
         /\ contexts σ1 !! l = Some ctx
         /\ new_handle GetProperties Allocate path flags (AzureContextState.service_client ctx)
              (AzureParsedUrl.container u) (AzureParsedUrl.path u)
              (AzureContextState.read_options ctx) = (r, events)).
Proof.
  unfold CreateHandle.
  destruct opener as [o|].
  2:{ intros [= <- <- <-]. left. eexists. repeat split; try reflexivity. discriminate. }
  destruct (ParseUrl path) as [u|e] eqn:Hp.
  2:{ intros [= <- <- <-]. left. exists e. repeat split; try discriminate.
      intros o' _. left. reflexivity. }
  destruct (GetOrCreateStorageContext env o path u σ) as [[l|e] σ2] eqn:Hg.
  2:{ intros [= <- <- <-].
      pose proof (GetOrCreateStorageContext_failure _ _ _ _ _ _ _ Hg) as ->.
      left. exists e. repeat split; try discriminate.
      intros o' [= <-]. right. exists u. split; [reflexivity | exact Hg]. }
  destruct (ListingFacts.GetOrCreateStorageContext_returns_context env _ _ _ _ _ _ Hg)
    as [ctx Hctx].
  rewrite Hctx. destruct (new_handle _ _ _ _ _ _ _ _) as [r' events'] eqn:Hn.
  intros [= <- <- <-].
  right. exists o, u, l, ctx. repeat split; assumption || reflexivity.
Qed.

(** The ways the constructor ends. *)
Lemma new_handle_outcome path flags client container blob read_options r events :
  new_handle GetProperties Allocate path flags client container blob read_options
  = (r, events) ->
  let request :=
    GetPropertiesCall {| request_client := client; request_container := container;
                         request_blob := blob |} in
  let size := AzureReadOptions.buffer_size read_options in
  (exists failure,
     GetProperties client container blob = inl failure
     /\ events = [request]
     /\ r = Throw (IOException
                     match failure with
                     | StorageFailure e => open_failed_message path e
                     | OtherFailure what => open_unknown_error_message path what
                     end))
  \/ (exists blob_size,
        GetProperties client container blob = inr blob_size
        /\ ((has_read_flag flags = true
             /\ events = [request; NewReadBuffer size]
             /\ ((Allocate size = None
                  /\ r = Ok (AzureStorageFileHandle.make path flags (U64.wrap blob_size)
                               read_options))
                 \/ exists what, Allocate size = Some what /\ r = Throw (OtherException what)))
            \/ (has_read_flag flags = false
                /\ events = [request]
                /\ r = Ok (AzureStorageFileHandle.make path flags (U64.wrap blob_size)
                             read_options)))).
Proof.
  unfold new_handle.
  destruct (GetProperties client container blob) as [[e|what]|blob_size].
  - intros [= <- <-]. left. eauto.
  - intros [= <- <-]. left. eauto.
  - right. exists blob_size. split; [reflexivity|].
    destruct (has_read_flag flags).
    + left. split; [reflexivity|].
      destruct (Allocate _) as [what|] eqn:Ha; injection H as <- <-;
        (split; [reflexivity|]); [right; eauto | left; auto].
    + right. injection H as <- <-. auto.
Qed.

End OpenFacts.
End FileSystemFacts.

(** X12. [FileExists] answers [false] for every file name, without any request
    and without touching the session: it calls [OpenFile] without an
    opener, [CreateHandle] refuses to work without one, and the exception
    is turned into [false]. With an opener the same [OpenFile] may well
    succeed: on the sample session it opens a blob of 100 bytes. *)
Theorem FileExists_is_always_false (env : ProcessEnv)
    (GetProperties : Azure.BlobServiceClient -> string -> string -> sdk_failure + Z)
    (Allocate : Z -> option string) (filename : string) (σ : Session) :
  FileSystem.FileExists env GetProperties Allocate filename σ = (Ok false, σ, [])
  /\ FileSystem.OpenFile env GetProperties Allocate filename FileFlags.FILE_FLAGS_READ None σ
     = (Throw (InternalException FileSystem.missing_opener_message), σ, [])
  /\ (exists sfh events,
        FileSystem.OpenFile SessionSamples.env GetProperties_100 Allocate_ok
          "az://acct.ep/container/data/a/x.csv" FileFlags.FILE_FLAGS_READ
          (Some SessionSamples.opener) SessionSamples.empty_session
        = (Ok sfh, SessionSamples.session_after_lookup, events)
        /\ AzureStorageFileHandle.length sfh = 100%Z)
  /\ FileSystem.FileExists SessionSamples.env GetProperties_100 Allocate_ok
       "az://acct.ep/container/data/a/x.csv" SessionSamples.empty_session
     = (Ok false, SessionSamples.empty_session, []).
Proof.
  split; [reflexivity|]. split; [reflexivity|].
  split; [|reflexivity].
  do 2 eexists. split; [vm_compute; reflexivity | reflexivity].
Qed.

(** X13. [OpenFile] fails in one of three ways. Either nothing has happened: no
    request was made and the session is as it was; this is so for a write
    flag ([NotImplementedException]), for a missing opener
    ([InternalException]), for a URL that does not parse and for
    credentials that do not resolve. Or the one [GetProperties] request for
    the container and the blob path of the URL, on the client of the
    context, has failed, and the failure is an [IOException] that names the
    path. Or that request has succeeded, the read flag is set, and the
    allocation of the read-ahead buffer, of the buffer size of the context's
    read options, has failed: its exception leaves [OpenFile] as it was
    thrown. *)
Theorem OpenFile_failure (env : ProcessEnv)
    (GetProperties : Azure.BlobServiceClient -> string -> string -> sdk_failure + Z)
    (Allocate : Z -> option string)
    (path : string) (flags : Z) (opener : option FileOpener) (σ σ1 : Session)
    (e : exception) (events : list FileSystem.open_event) :
  FileSystem.OpenFile env GetProperties Allocate path flags opener σ = (Throw e, σ1, events) ->
  (events = [] /\ σ1 = σ
   /\ (Z.land flags FileFlags.FILE_FLAGS_WRITE ≠ 0%Z ->
       e = NotImplementedException FileSystem.write_not_supported_message)
   /\ (Z.land flags FileFlags.FILE_FLAGS_WRITE = 0%Z -> opener = None ->
       e = InternalException FileSystem.missing_opener_message)
   /\ (forall o, Z.land flags FileFlags.FILE_FLAGS_WRITE = 0%Z -> opener = Some o ->
                 ParseUrl path = Throw e
                 \/ exists u, ParseUrl path = Ok u
                      /\ GetOrCreateStorageContext env o path u σ = (Throw e, σ)))
  \/ (exists o u l ctx,
        opener = Some o
        /\ ParseUrl path = Ok u
        /\ GetOrCreateStorageContext env o path u σ = (Ok l, σ1)
        /\ contexts σ1 !! l = Some ctx
        /\ let request :=
             FileSystem.GetPropertiesCall
               {| FileSystem.request_client := AzureContextState.service_client ctx;
                  FileSystem.request_container := AzureParsedUrl.container u;
                  FileSystem.request_blob := AzureParsedUrl.path u |} in
           let size := AzureReadOptions.buffer_size (AzureContextState.read_options ctx) in
           (exists failure,
              events = [request]
              /\ GetProperties (AzureContextState.service_client ctx)
                   (AzureParsedUrl.container u) (AzureParsedUrl.path u) = inl failure
              /\ e = IOException
                       match failure with
                       | StorageFailure e' => FileSystem.open_failed_message path e'
                       | OtherFailure what => FileSystem.open_unknown_error_message path what
                       end)
           \/ (exists blob_size what,
                 events = [request; FileSystem.NewReadBuffer size]
                 /\ GetProperties (AzureContextState.service_client ctx)
                      (AzureParsedUrl.container u) (AzureParsedUrl.path u) = inr blob_size
                 /\ FileSystem.has_read_flag flags = true
                 /\ Allocate size = Some what
                 /\ e = OtherException what)).
Proof.
  unfold FileSystem.OpenFile.
  destruct (Z.eqb_spec (Z.land flags FileFlags.FILE_FLAGS_WRITE) 0) as [Hflag|Hflag];
    cbn [negb].
  2:{ intros [= <- <- <-]. left. repeat split; try reflexivity; try contradiction. }
  intros H.
  destruct (FileSystemFacts.CreateHandle_outcome env GetProperties Allocate _ _ _ _ _ _ _ H)
    as [(e0 & [= <-] & -> & -> & Hnone & Hsome)
       |(o & u & l & ctx & -> & Hp & Hg & Hctx & Hn)].
  - left. repeat split; try reflexivity; try contradiction.
    + intros _. exact Hnone.
    + intros o _. apply Hsome.
  - right. exists o, u, l, ctx.
    split; [reflexivity|]. split; [exact Hp|]. split; [exact Hg|]. split; [exact Hctx|].
    destruct (FileSystemFacts.new_handle_outcome _ _ _ _ _ _ _ _ _ _ Hn)
      as [(failure & Hf & -> & [= ->])
         |(blob_size & Hsize & [(Hread & -> & [[_ [=]]|(what & Ha & [= ->])])
                              |(_ & _ & [=])])].
    + left. exists failure. auto.
    + right. exists blob_size, what. auto.
Qed.

Lemma OpenFile_failure_witness :
  FileSystem.OpenFile SessionSamples.env GetProperties_not_found Allocate_ok
    "az://acct.ep/container/data/a/x.csv" FileFlags.FILE_FLAGS_READ
    (Some SessionSamples.opener) SessionSamples.empty_session
  = (Throw (IOException
              "AzureStorageFileSystem open file 'az://acct.ep/container/data/a/x.csv' failed with code'BlobNotFound',Reason Phrase: 'The specified blob does not exist.', Message: 'Not Found'"),
     SessionSamples.session_after_lookup,
     [FileSystem.GetPropertiesCall
        {| FileSystem.request_client := SessionSamples.client;
           FileSystem.request_container := "container";
           FileSystem.request_blob := "data/a/x.csv" |}])
  /\ (exists u, ParseUrl "az://acct.ep/container/data/a/x.csv" = Ok u
                /\ AzureParsedUrl.path u = "data/a/x.csv")
  /\ exists σ1,
       FileSystem.OpenFile SessionSamples.env GetProperties_100 Allocate_up_to_1GiB
         "az://acct.ep/container/data/a/x.csv" FileFlags.FILE_FLAGS_READ
         (Some opener_huge_buffer) SessionSamples.empty_session
       = (Throw (OtherException "std::bad_alloc"), σ1,
          [FileSystem.GetPropertiesCall
             {| FileSystem.request_client := SessionSamples.client;
                FileSystem.request_container := "container";
                FileSystem.request_blob := "data/a/x.csv" |};
           FileSystem.NewReadBuffer (2 ^ 40)]).
Proof.
  assert (H : FileSystem.OpenFile SessionSamples.env GetProperties_not_found Allocate_ok
                "az://acct.ep/container/data/a/x.csv" FileFlags.FILE_FLAGS_READ
                (Some SessionSamples.opener) SessionSamples.empty_session
              = (Throw (IOException
                          "AzureStorageFileSystem open file 'az://acct.ep/container/data/a/x.csv' failed with code'BlobNotFound',Reason Phrase: 'The specified blob does not exist.', Message: 'Not Found'"),
                 SessionSamples.session_after_lookup,
                 [FileSystem.GetPropertiesCall
                    {| FileSystem.request_client := SessionSamples.client;
                       FileSystem.request_container := "container";
                       FileSystem.request_blob := "data/a/x.csv" |}]))
    by (vm_compute; reflexivity).
  split; [exact H|].
  split.
  - destruct (OpenFile_failure _ _ _ _ _ _ _ _ _ _ H)
      as [([=] & _)|(o & u & l & ctx & _ & Hp & _)].
    exists u. split; [exact Hp|].
    assert (Hu : Ok u = Ok (AzureParsedUrl.Build "container" "acct" "ep" "az://"
                              "data/a/x.csv")) by (rewrite <- Hp; vm_compute; reflexivity).
    injection Hu as ->. reflexivity.
  - eexists. vm_compute. reflexivity.
Defined.

(** X14. A handle that [OpenFile] returns: the flags have no write bit, there
    was an opener, the URL parsed, the context was obtained, and the one
    [GetProperties] request, made on the context's client for the container
    and the blob path of the URL, gave the blob size. With the read flag the
    read-ahead buffer was then allocated, with the buffer size of the
    context's read options; without it nothing was allocated. The handle has
    the blob size as length, so that [GetFileSize] returns it, a
    modification time of 0, the offset 0, an empty buffer window and the
    read options of the context: it is a handle the read engine's properties
    apply to. *)
Theorem OpenFile_handle (env : ProcessEnv)
    (GetProperties : Azure.BlobServiceClient -> string -> string -> sdk_failure + Z)
    (Allocate : Z -> option string)
    (path : string) (flags : Z) (opener : option FileOpener) (σ σ1 : Session)
    (handle : AzureStorageFileHandle.t) (events : list FileSystem.open_event) :
  FileSystem.OpenFile env GetProperties Allocate path flags opener σ = (Ok handle, σ1, events) ->
  Z.land flags FileFlags.FILE_FLAGS_WRITE = 0%Z
  /\ (exists o u l ctx blob_size,
        opener = Some o
        /\ ParseUrl path = Ok u
        /\ GetOrCreateStorageContext env o path u σ = (Ok l, σ1)
        /\ contexts σ1 !! l = Some ctx
        /\ events
           = FileSystem.GetPropertiesCall
               {| FileSystem.request_client := AzureContextState.service_client ctx;
                  FileSystem.request_container := AzureParsedUrl.container u;
                  FileSystem.request_blob := AzureParsedUrl.path u |}
             :: (if FileSystem.has_read_flag flags
                 then [FileSystem.NewReadBuffer
                         (AzureReadOptions.buffer_size (AzureContextState.read_options ctx))]
                 else [])
        /\ (FileSystem.has_read_flag flags = true ->
            Allocate (AzureReadOptions.buffer_size (AzureContextState.read_options ctx)) = None)
        /\ GetProperties (AzureContextState.service_client ctx) (AzureParsedUrl.container u)
             (AzureParsedUrl.path u) = inr blob_size
        /\ handle = AzureStorageFileHandle.make path flags (U64.wrap blob_size)
                      (AzureContextState.read_options ctx)
        /\ FileSystem.GetFileSize handle = U64.to_int64 (U64.wrap blob_size)
        /\ ((0 <= blob_size < 2 ^ 63)%Z -> FileSystem.GetFileSize handle = blob_size))
  /\ FileSystem.GetLastModifiedTime handle = 0%Z
  /\ AzureStorageFileHandle.file_offset handle = 0%Z
  /\ (ReadEngine.idx_t
        (AzureReadOptions.buffer_size (AzureStorageFileHandle.read_options handle)) ->
      ReadEngine.well_typed handle /\ ReadOutcome.window_fits handle)
  /\ (forall (byte : Type) (blob : Z -> byte) (m : ReadOutcome.memory byte),
        ReadOutcome.buffer_valid blob handle m).
Proof.
  unfold FileSystem.OpenFile.
  destruct (Z.eqb_spec (Z.land flags FileFlags.FILE_FLAGS_WRITE) 0) as [Hflag|Hflag];
    cbn [negb]; [|discriminate].
  intros H. split; [exact Hflag|].
  destruct (FileSystemFacts.CreateHandle_outcome env GetProperties Allocate _ _ _ _ _ _ _ H)
    as [(e0 & [=] & _)|(o & u & l & ctx & -> & Hp & Hg & Hctx & Hn)].
  assert (Hhandle : exists blob_size,
             GetProperties (AzureContextState.service_client ctx) (AzureParsedUrl.container u)
               (AzureParsedUrl.path u) = inr blob_size
             /\ handle = AzureStorageFileHandle.make path flags (U64.wrap blob_size)
                           (AzureContextState.read_options ctx)
             /\ events
                = FileSystem.GetPropertiesCall
                    {| FileSystem.request_client := AzureContextState.service_client ctx;
                       FileSystem.request_container := AzureParsedUrl.container u;
                       FileSystem.request_blob := AzureParsedUrl.path u |}
                  :: (if FileSystem.has_read_flag flags
                      then [FileSystem.NewReadBuffer
                              (AzureReadOptions.buffer_size
                                 (AzureContextState.read_options ctx))]
                      else [])
             /\ (FileSystem.has_read_flag flags = true ->
                 Allocate (AzureReadOptions.buffer_size (AzureContextState.read_options ctx))
                 = None)).
  { destruct (FileSystemFacts.new_handle_outcome _ _ _ _ _ _ _ _ _ _ Hn)
      as [(failure & _ & _ & [=])
         |(blob_size & Hsize & [(Hread & -> & [[Ha [= ->]]|(what & _ & [=])])
                              |(Hread & -> & [= ->])])];
      exists blob_size; rewrite Hread; (split; [exact Hsize|]); (split; [reflexivity|]);
      (split; [reflexivity|]); [intros _; exact Ha | discriminate]. }
  destruct Hhandle as (size & Hsize & -> & -> & Halloc).
  split.
  { exists o, u, l, ctx, size.
    repeat (split; [assumption || reflexivity|]).
    intros Hrange. unfold FileSystem.GetFileSize. cbn.
    rewrite ReadEngineFacts.wrap_small, ReadEngineFacts.to_int64_small;
      [reflexivity | lia |]. unfold ReadEngine.idx_t, U64.modulus. lia. }
  split; [reflexivity|]. split; [reflexivity|].
  split.
  - cbn. intros Hbs. split.
    + unfold ReadEngine.well_typed. cbn.
      repeat split; try apply ReadEngineFacts.wrap_idx_t; try apply Hbs;
        unfold U64.modulus; lia.
    + unfold ReadOutcome.window_fits. cbn. unfold ReadEngine.idx_t in Hbs. lia.
  - intros byte blob m i Hi. cbn in Hi. lia.
Qed.

Lemma OpenFile_handle_witness :
  exists handle,
    FileSystem.OpenFile SessionSamples.env GetProperties_100 Allocate_ok
      "az://acct.ep/container/data/a/x.csv" FileFlags.FILE_FLAGS_READ
      (Some SessionSamples.opener) SessionSamples.empty_session
    = (Ok handle, SessionSamples.session_after_lookup,
       [FileSystem.GetPropertiesCall
          {| FileSystem.request_client := SessionSamples.client;
             FileSystem.request_container := "container";
             FileSystem.request_blob := "data/a/x.csv" |};
        FileSystem.NewReadBuffer (1 * 1024 * 1024)])
    /\ FileSystem.GetLastModifiedTime handle = 0%Z
    /\ AzureStorageFileHandle.file_offset handle = 0%Z.
Proof.
  eexists.
  assert (H : FileSystem.OpenFile SessionSamples.env GetProperties_100 Allocate_ok
                "az://acct.ep/container/data/a/x.csv" FileFlags.FILE_FLAGS_READ
                (Some SessionSamples.opener) SessionSamples.empty_session
              = (Ok (AzureStorageFileHandle.make "az://acct.ep/container/data/a/x.csv"
                       FileFlags.FILE_FLAGS_READ 100
                       (AzureReadOptions.Build 5 (1 * 1024 * 1024) (1 * 1024 * 1024))),
                 SessionSamples.session_after_lookup,
                 [FileSystem.GetPropertiesCall
                    {| FileSystem.request_client := SessionSamples.client;
                       FileSystem.request_container := "container";
                       FileSystem.request_blob := "data/a/x.csv" |};
                  FileSystem.NewReadBuffer (1 * 1024 * 1024)]))
    by (vm_compute; reflexivity).
  split; [exact H|].
  destruct (OpenFile_handle _ _ _ _ _ _ _ _ _ _ H) as (_ & _ & Htime & Hoffset & _).
  split; [exact Htime | exact Hoffset].
Defined.

(** X15. On a cache hit [OpenFile] works with the cached context, whatever the
    opener says now: the request goes to the client that was built when the
    context was created, no credential is resolved, the session does not
    change, and the handle gets the read options that were parsed then, not
    those of the opener. *)
Theorem OpenFile_uses_cached_context (env : ProcessEnv)
    (GetProperties : Azure.BlobServiceClient -> string -> string -> sdk_failure + Z)
    (Allocate : Z -> option string)
    (path : string) (flags : Z) (opener : FileOpener) (σ : Session) (u : AzureParsedUrl.t)
    (ctx : ClientContext) (l : nat) (c : AzureContextState.t) :
  Z.land flags FileFlags.FILE_FLAGS_WRITE = 0%Z ->
  ParseUrl path = Ok u ->
  azure_context_caching opener = true ->
  client_context opener = Some ctx ->
  registered_state σ !! AzureParsedUrl.storage_account_name u = Some l ->
  contexts σ !! l = Some c ->
  AzureContextState.IsValid c = true ->
  FileSystem.OpenFile env GetProperties Allocate path flags (Some opener) σ
  = (let '(r, events) :=
       FileSystem.new_handle GetProperties Allocate path flags
         (AzureContextState.service_client c)
         (AzureParsedUrl.container u) (AzureParsedUrl.path u)
         (AzureContextState.read_options c) in
     (r, σ, events))
  /\ forall r events,
       FileSystem.OpenFile env GetProperties Allocate path flags (Some opener) σ
       = (r, σ, events) ->
       (exists rest,
          events
          = FileSystem.GetPropertiesCall
              {| FileSystem.request_client := AzureContextState.service_client c;
                 FileSystem.request_container := AzureParsedUrl.container u;
                 FileSystem.request_blob := AzureParsedUrl.path u |} :: rest)
       /\ forall handle,
            r = Ok handle ->
            AzureStorageFileHandle.read_options handle = AzureContextState.read_options c.
Proof.
  intros Hflag Hp Hcaching Hctx Hreg Hl Hvalid.
  assert (Hopen : FileSystem.OpenFile env GetProperties Allocate path flags (Some opener) σ
                  = (let '(r, events) :=
                       FileSystem.new_handle GetProperties Allocate path flags
                         (AzureContextState.service_client c)
                         (AzureParsedUrl.container u) (AzureParsedUrl.path u)
                         (AzureContextState.read_options c) in
                     (r, σ, events))).
  { unfold FileSystem.OpenFile. rewrite Hflag. cbn [Z.eqb negb].
    apply (FileSystemFacts.CreateHandle_with_context env GetProperties Allocate path flags
             opener σ u l σ c Hp); [|exact Hl].
    eapply GetOrCreateStorageContext_hit; eassumption. }
  split; [exact Hopen|].
  intros r events. rewrite Hopen.
  destruct (FileSystem.new_handle _ _ _ _ _ _ _ _) as [r' events'] eqn:Hn.
  intros [= <- <-].
  destruct (FileSystemFacts.new_handle_outcome _ _ _ _ _ _ _ _ _ _ Hn)
    as [(failure & _ & -> & ->)
       |(blob_size & _ & [(_ & -> & [[_ ->]|(what & _ & ->)])|(_ & -> & ->)])];
    (split; [eexists; reflexivity|]); intros handle [= <-]; reflexivity.
Qed.

Lemma OpenFile_uses_cached_context_witness :
  ParseAzureReadOptions opener_small_buffer = AzureReadOptions.Build 5 (1 * 1024 * 1024) 10
  /\ FileSystem.OpenFile SessionSamples.env GetProperties_100 Allocate_ok
       "az://acct.ep/container/data/a/x.csv" FileFlags.FILE_FLAGS_READ
       (Some opener_small_buffer) SessionSamples.session_after_lookup
     = (Ok (AzureStorageFileHandle.make "az://acct.ep/container/data/a/x.csv"
              FileFlags.FILE_FLAGS_READ 100
              (AzureReadOptions.Build 5 (1 * 1024 * 1024) (1 * 1024 * 1024))),
        SessionSamples.session_after_lookup,
        [FileSystem.GetPropertiesCall
           {| FileSystem.request_client := SessionSamples.client;
              FileSystem.request_container := "container";
              FileSystem.request_blob := "data/a/x.csv" |};
         FileSystem.NewReadBuffer (1 * 1024 * 1024)]).
Proof.
  split; [vm_compute; reflexivity|].
  exact (proj1 (OpenFile_uses_cached_context SessionSamples.env GetProperties_100 Allocate_ok
                  "az://acct.ep/container/data/a/x.csv" FileFlags.FILE_FLAGS_READ
                  opener_small_buffer SessionSamples.session_after_lookup
                  (AzureParsedUrl.Build "container" "acct" "ep" "az://" "data/a/x.csv")
                  SessionSamples.no_secrets 0%nat SessionSamples.context
                  eq_refl eq_refl eq_refl eq_refl eq_refl eq_refl eq_refl)).
Defined.

(** ** Context cache and glob driver: sharing and prefixes *)

(** X17. The context cache is keyed by the account name of the URL, which is
    empty for every URL of the short shape: with caching on, all URLs of the
    short shape share one context in a session, registered under the empty
    name, whatever their containers are and whatever secrets their paths
    would find. *)
Theorem short_urls_share_one_context (env : ProcessEnv) (opener : FileOpener)
    (path1 path2 : string) (u1 u2 : AzureParsedUrl.t) (σ σ1 : Session) (l : nat) :
  azure_context_caching opener = true ->
  short_shape path1 u1 -> short_shape path2 u2 ->
  GetOrCreateStorageContext env opener path1 u1 σ = (Ok l, σ1) ->
  GetOrCreateStorageContext env opener path2 u2 σ1 = (Ok l, σ1)
  /\ registered_state σ1 !! "" = Some l.
Proof.
  intros Hcaching (_ & Ha1 & _) (_ & Ha2 & _) H1.
  destruct (GetOrCreateStorageContext_caching_ok env _ _ _ _ _ _ Hcaching H1)
    as ([ctx Hctx] & Hreg & c & Hl & Hv).
  rewrite Ha1 in Hreg. split; [|exact Hreg].
  eapply GetOrCreateStorageContext_hit; try eassumption.
  rewrite Ha2. exact Hreg.
Qed.

Lemma short_urls_share_one_context_witness :
  short_shape "az://first/x.csv" (AzureParsedUrl.Build "first" "" "" "az://" "x.csv")
  /\ short_shape "az://second/y.csv" (AzureParsedUrl.Build "second" "" "" "az://" "y.csv")
  /\ ConnectToStorageAccount SessionSamples.env opener_two_secrets "az://first/x.csv"
       (AzureParsedUrl.Build "first" "" "" "az://" "x.csv")
     = Ok (Azure.AnonymousClient "https://one.blob.core.windows.net"
             SessionSamples.default_blob_options)
  /\ ConnectToStorageAccount SessionSamples.env opener_two_secrets "az://second/y.csv"
       (AzureParsedUrl.Build "second" "" "" "az://" "y.csv")
     = Ok (Azure.AnonymousClient "https://two.blob.core.windows.net"
             SessionSamples.default_blob_options)
  /\ exists σ1,
       GetOrCreateStorageContext SessionSamples.env opener_two_secrets "az://first/x.csv"
         (AzureParsedUrl.Build "first" "" "" "az://" "x.csv") SessionSamples.empty_session
       = (Ok 0%nat, σ1)
       /\ GetOrCreateStorageContext SessionSamples.env opener_two_secrets "az://second/y.csv"
            (AzureParsedUrl.Build "second" "" "" "az://" "y.csv") σ1
          = (Ok 0%nat, σ1)
       /\ AzureContextState.service_client <$> contexts σ1 !! 0%nat
          = Some (Azure.AnonymousClient "https://one.blob.core.windows.net"
                    SessionSamples.default_blob_options).
Proof.
  assert (Hs1 : short_shape "az://first/x.csv"
                  (AzureParsedUrl.Build "first" "" "" "az://" "x.csv")).
  { unfold short_shape, valid_scheme. cbn. repeat split; auto; discriminate. }
  assert (Hs2 : short_shape "az://second/y.csv"
                  (AzureParsedUrl.Build "second" "" "" "az://" "y.csv")).
  { unfold short_shape, valid_scheme. cbn. repeat split; auto; discriminate. }
  split; [exact Hs1|]. split; [exact Hs2|].
  split; [vm_compute; reflexivity|]. split; [vm_compute; reflexivity|].
  eexists.
  assert (H1 : GetOrCreateStorageContext SessionSamples.env opener_two_secrets
                 "az://first/x.csv" (AzureParsedUrl.Build "first" "" "" "az://" "x.csv")
                 SessionSamples.empty_session
               = (Ok 0%nat,
                  {| registered_state := {[ "" := 0%nat ]};
                     contexts :=
                       {[ 0%nat :=
                            AzureContextState.make
                              (Azure.AnonymousClient "https://one.blob.core.windows.net"
                                 SessionSamples.default_blob_options)
                              (AzureReadOptions.Build 5 (1 * 1024 * 1024) (1 * 1024 * 1024)) ]}
                  |})) by (vm_compute; reflexivity).
  split; [exact H1|].
  split; [|vm_compute; reflexivity].
  exact (proj1 (short_urls_share_one_context SessionSamples.env opener_two_secrets
                  "az://first/x.csv" "az://second/y.csv" _ _ _ _ 0%nat
                  eq_refl Hs1 Hs2 H1)).
Defined.

Module GlobPrefixFacts.
Import Listing.

Section PrefixFacts.

Variable ListBlobs :
  Azure.BlobServiceClient -> string -> ListBlobsOptions ->
  sdk_failure + ListBlobsPagedResponse.

(** Every request of a listing walk carries the prefix of the first. *)
Lemma pagination_keeps_prefix client container options pages :
  pagination ListBlobs client container options pages ->
  Forall (fun page => Prefix (fst page) = Prefix options) pages.
Proof.
  induction 1 as [options res Hl Ht | options res token pages Hl Ht Hp IH].
  - repeat constructor.
  - constructor; [reflexivity | exact IH].
Qed.

Lemma listed_keys_have_prefix client container options pages :
  (forall client container options res,
     ListBlobs client container options = inr res ->
     Forall (fun key => String.prefix (Prefix options) key = true) (Blobs res)) ->
  pagination ListBlobs client container options pages ->
  Forall (fun key => String.prefix (Prefix options) key = true) (listed pages).
Proof.
  intros Hhonest Hp.
  remember (Prefix options) as shared eqn:Hshared.
  revert Hshared.
  induction Hp as [options res Hl Ht | options res token pages Hl Ht Hp IH]; intros ->;
    unfold listed; cbn [flat_map snd].
  - rewrite app_nil_r. eapply Hhonest, Hl.
  - apply Forall_app. split; [eapply Hhonest, Hl|]. apply IH. reflexivity.
Qed.

End PrefixFacts.
End GlobPrefixFacts.

(** X6. Given a listing that returns only blobs whose names start with the
    prefix it was asked for, every URL that [Glob] returns for a pattern
    with a wildcard is built from a key that starts with the text of the
    blob path before its first [*], [[] or [\], and that the matcher accepts
    for the whole pattern. In particular a question mark before them is
    matched by a question mark only. *)
Theorem Glob_results_keep_the_literal_prefix (env : ProcessEnv)
    (SegmentGlob : string -> string -> bool)
    (ListBlobs : Azure.BlobServiceClient -> string -> Listing.ListBlobsOptions ->
                 sdk_failure + Listing.ListBlobsPagedResponse)
    (fuel : nat) (path : string) (opener : FileOpener) (σ σ' : Session)
    (u : AzureParsedUrl.t) (first_wildcard_pos : nat) (res : list string)
    (trace : list Listing.ListBlobsOptions) :
  (forall client container options page,
     ListBlobs client container options = inr page ->
     Forall (fun key => String.prefix (Listing.Prefix options) key = true)
       (Listing.Blobs page)) ->
  ParseUrl path = Ok u ->
  StdString.find_first_of (AzureParsedUrl.path u) Listing.wildcard_chars
  = Some first_wildcard_pos ->
  Listing.Glob env SegmentGlob ListBlobs fuel path (Some opener) σ = Some (Ok res, σ', trace) ->
  forall url, In url res ->
    exists key,
      url = result_full_url u key
      /\ String.prefix (StdString.substr (AzureParsedUrl.path u) 0 first_wildcard_pos) key
         = true
      /\ Match SegmentGlob (StringUtil.Split key "/")
           (StringUtil.Split (AzureParsedUrl.path u) "/") = true.
Proof.
  intros Hhonest Hparse Hpos Hglob url Hin.
  unfold Listing.Glob in Hglob. rewrite Hparse in Hglob.
  destruct (GetOrCreateStorageContext env opener path u σ) as [[l|e] σ1]; [|discriminate].
  rewrite Hpos in Hglob.
  destruct (contexts σ1 !! l) as [ctx|]; [|discriminate].
  destruct (Listing.Glob_loop _ _ _ _ _ _ _ _ _ _) as [[r tr]|] eqn:Hloop; [|discriminate].
  injection Hglob as -> <- <-.
  apply ListingFacts.Glob_loop_returns in Hloop as (pages & Hp & _ & -> & _).
  pose proof (GlobPrefixFacts.listed_keys_have_prefix ListBlobs _ _ _ _ Hhonest Hp) as Hkeys.
  cbn [app Listing.Prefix] in Hin, Hkeys. unfold Listing.matching_urls in Hin.
  apply in_map_iff in Hin as (key & <- & Hkey).
  apply filter_In in Hkey as [Hlisted Hmatch].
  exists key. split; [reflexivity|]. split; [|exact Hmatch].
  exact (proj1 (List.Forall_forall _ _) Hkeys key Hlisted).
Qed.

Lemma Glob_results_keep_the_literal_prefix_witness :
  (forall client container options page,
     SessionSamples.ListBlobs client container options = inr page ->
     Forall (fun key => String.prefix (Listing.Prefix options) key = true)
       (Listing.Blobs page))
  /\ StdString.find_first_of (AzureParsedUrl.path SessionSamples.parsed_url)
       Listing.wildcard_chars = Some 5%nat
  /\ exists key,
       "az://acct.ep/container/data/a/x.csv" = result_full_url SessionSamples.parsed_url key
       /\ String.prefix
            (StdString.substr (AzureParsedUrl.path SessionSamples.parsed_url) 0 5) key
          = true.
Proof.
  assert (Hhonest : forall client container options page,
             SessionSamples.ListBlobs client container options = inr page ->
             Forall (fun key => String.prefix (Listing.Prefix options) key = true)
               (Listing.Blobs page)).
  { intros client container options page. unfold SessionSamples.ListBlobs.
    destruct (String.eqb container "container"); cbn [andb]; [|discriminate].
    destruct (String.eqb_spec (Listing.Prefix options) "data/") as [->|]; [|discriminate].
    destruct (Listing.ContinuationToken options) as [token|].
    - destruct (String.eqb token "page-2"); [|discriminate].
      intros [= <-]. repeat constructor.
    - intros [= <-]. repeat constructor. }
  assert (Hp : ParseUrl SessionSamples.path = Ok SessionSamples.parsed_url)
    by (vm_compute; reflexivity).
  assert (Hg : Listing.Glob SessionSamples.env LikeFun.Glob SessionSamples.ListBlobs 2
                 SessionSamples.path (Some SessionSamples.opener) SessionSamples.empty_session
               = Some (Ok ["az://acct.ep/container/data/a/x.csv";
                           "az://acct.ep/container/data/b/c/y.csv"],
                       SessionSamples.session_after_lookup,
                       [SessionSamples.first_page_options; SessionSamples.second_page_options]))
    by (vm_compute; reflexivity).
  split; [exact Hhonest|]. split; [reflexivity|].
  destruct (Glob_results_keep_the_literal_prefix SessionSamples.env LikeFun.Glob
              SessionSamples.ListBlobs 2 SessionSamples.path SessionSamples.opener
              SessionSamples.empty_session SessionSamples.session_after_lookup
              SessionSamples.parsed_url 5 _ _ Hhonest Hp eq_refl Hg
              "az://acct.ep/container/data/a/x.csv" (or_introl eq_refl))
    as (key & Hurl & Hprefix & _).
  exists key. split; [exact Hurl | exact Hprefix].
Defined.

(** ** Glob matcher: where it agrees with the zero-or-more reading *)

Section MatchCharacterisation.

Variable Glob : string -> string -> bool.

Lemma existsb_pointwise {A : Type} (f g : A -> bool) (l : list A) :
  (forall x, f x = g x) -> existsb f l = existsb g l.
Proof. intros H. induction l as [|a l IH]; cbn; [reflexivity | rewrite H, IH; reflexivity]. Qed.

Lemma match_spec_double_star (key ps : list string) :
  match_spec Glob key ("**" :: ps)
  = existsb (fun suffix => match_spec Glob suffix ps) (suffixes key).
Proof. reflexivity. Qed.

Lemma match_spec_segment (key : list string) (p : string) (ps : list string) :
  p ≠ "**" ->
  match_spec Glob key (p :: ps)
  = match key with
    | [] => false
    | k :: ks => Glob k p && match_spec Glob ks ps
    end.
Proof.
  intros Hp. change (match_spec Glob key (p :: ps))
    with (if String.eqb p "**"
          then existsb (fun suffix => match_spec Glob suffix ps) (suffixes key)
          else match key with
               | [] => false
               | k :: ks => Glob k p && match_spec Glob ks ps
               end).
  destruct (String.eqb_spec p "**"); [contradiction | reflexivity].
Qed.

End MatchCharacterisation.

(** X18. For a pattern whose last segment is not [**], [Match] is the matcher of
    the specification's reading, in which [**] stands for zero or more whole
    key segments: the two differ on patterns that end in [**] only. *)
Theorem Match_agrees_unless_double_star_is_last (Glob : string -> string -> bool)
    (key pattern : list string) :
  List.last pattern "" ≠ "**" ->
  Match Glob key pattern = match_spec Glob key pattern.
Proof.
  revert key. induction pattern as [|p ps IH]; intros key Hlast.
  - destruct key; reflexivity.
  - assert (Hps : List.last ps "" ≠ "**").
    { destruct ps as [|q qs]; [discriminate | exact Hlast]. }
    destruct (String.eqb_spec p "**") as [->|Hp].
    + destruct ps as [|q qs]; [contradiction|].
      destruct key as [|k ks].
      * rewrite match_spec_double_star. cbn [suffixes existsb].
        rewrite <- (IH [] Hps). reflexivity.
      * rewrite Match_double_star_inner, match_spec_double_star.
        apply existsb_pointwise. intros suffix. apply IH, Hps.
    + rewrite match_spec_segment by exact Hp. destruct key as [|k ks].
      * reflexivity.
      * rewrite Match_segment by exact Hp. rewrite (IH ks Hps). reflexivity.
Qed.

Lemma Match_agrees_unless_double_star_is_last_witness :
  List.last ["a"; "**"; "b"] "" ≠ "**"
  /\ Match LikeFun.Glob ["a"; "b"] ["a"; "**"; "b"]
     = match_spec LikeFun.Glob ["a"; "b"] ["a"; "**"; "b"]
  /\ match_spec LikeFun.Glob ["a"; "b"] ["a"; "**"; "b"] = true.
Proof.
  assert (H : List.last ["a"; "**"; "b"] "" ≠ "**") by discriminate.
  split; [exact H|].
  split; [exact (Match_agrees_unless_double_star_is_last LikeFun.Glob ["a"; "b"]
                   ["a"; "**"; "b"] H) | reflexivity].
Defined.

(** X19. Without any [**] segment in the pattern, a key matches exactly when it
    has as many segments as the pattern and each of its segments matches
    the pattern segment at the same place. *)
Theorem Match_without_double_star (Glob : string -> string -> bool)
    (key pattern : list string) :
  Forall (fun p => p ≠ "**") pattern ->
  (Match Glob key pattern = true <-> Forall2 (fun k p => Glob k p = true) key pattern)
  /\ (Match Glob key pattern = true -> List.length key = List.length pattern).
Proof.
  intros H.
  assert (Hiff : forall key,
             Match Glob key pattern = true
             <-> Forall2 (fun k p => Glob k p = true) key pattern).
  { clear key. induction H as [|p ps Hp Hps IH]; intros key.
    - destruct key as [|k ks]; cbn; split; intros H; try constructor; try discriminate.
      inversion H.
    - destruct key as [|k ks].
      + split; [discriminate | intros H; inversion H].
      + rewrite Match_segment by exact Hp. rewrite andb_true_iff, IH. split.
        * intros [Hk Hks]. constructor; assumption.
        * intros H. inversion H; subst. split; assumption. }
  split; [apply Hiff|].
  intros Hm. apply Hiff in Hm. clear H Hiff. induction Hm; cbn; congruence.
Qed.

Lemma Match_without_double_star_witness :
  Forall (fun p => p ≠ "**") ["data"; "*.csv"]
  /\ (Match LikeFun.Glob ["data"; "a"; "x.csv"] ["data"; "*.csv"] = true ->
      List.length ["data"; "a"; "x.csv"] = List.length ["data"; "*.csv"])
  /\ Match LikeFun.Glob ["data"; "a"; "x.csv"] ["data"; "*.csv"] = false
  /\ Match LikeFun.Glob ["data"; "x.csv"] ["data"; "*.csv"] = true.
Proof.
  assert (H : Forall (fun p => p ≠ "**") ["data"; "*.csv"])
    by (repeat constructor; discriminate).
  split; [exact H|].
  split; [exact (proj2 (Match_without_double_star LikeFun.Glob ["data"; "a"; "x.csv"]
                          ["data"; "*.csv"] H))|].
  split; reflexivity.
Defined.

(** ** Credential resolver: chains, providers and precedence *)

Module ResolverFacts.

Lemma chain_sources_cons (item : string) (rest : list string) (t : Azure.TransportOptions) :
  chain_sources (item :: rest) t
  = match chain_source item t with
    | None => Throw (InvalidInputException (unknown_credential_provider_message item))
    | Some source =>
        match chain_sources rest t with
        | Ok sources => Ok (source :: sources)
        | Throw e => Throw e
        end
    end.
Proof.
  cbn [chain_sources]. unfold chain_source.
  repeat match goal with
         | |- context [if ?b then _ else _] => destruct b
         end; reflexivity.
Qed.

Lemma chain_sources_ok (t : Azure.TransportOptions) (items : list string) :
  forall sources,
    chain_sources items t = Ok sources
    <-> Forall2 (fun item source => chain_source item t = Some source) items sources.
Proof.
  induction items as [|item rest IH]; intros sources.
  - cbn. split.
    + intros [= <-]. constructor.
    + intros H. inversion H. reflexivity.
  - rewrite chain_sources_cons. split.
    + destruct (chain_source item t) as [source|] eqn:Hi; [|discriminate].
      destruct (chain_sources rest t) as [rest_sources|e] eqn:Hr; [|discriminate].
      intros [= <-]. constructor; [exact Hi | apply IH; reflexivity].
    + intros H. inversion H as [|? source ? rest_sources Hi Hr]; subst.
      rewrite Hi. apply IH in Hr. rewrite Hr. reflexivity.
Qed.

Lemma chain_sources_throw (t : Azure.TransportOptions) (items : list string) (e : exception) :
  chain_sources items t = Throw e
  <-> exists before item after,
        items = before ++ item :: after
        /\ Forall (fun known => is_Some (chain_source known t)) before
        /\ chain_source item t = None
        /\ e = InvalidInputException (unknown_credential_provider_message item).
Proof.
  induction items as [|item rest IH].
  - cbn. split; [discriminate|].
    intros (before & i & after & H & _). destruct before; discriminate.
  - rewrite chain_sources_cons. split.
    + destruct (chain_source item t) as [source|] eqn:Hi.
      * destruct (chain_sources rest t) as [rest_sources|e0] eqn:Hr; [discriminate|].
        intros [= <-].
        destruct (proj1 IH eq_refl) as (before & i & after & -> & Hb & Hn & ->).
        exists (item :: before), i, after.
        split; [reflexivity|]. split; [constructor; [rewrite Hi; eauto | exact Hb]|].
        split; [exact Hn | reflexivity].
      * intros [= <-]. exists [], item, rest.
        split; [reflexivity|]. split; [constructor|]. split; [exact Hi | reflexivity].
    + intros (before & i & after & Heq & Hb & Hn & ->).
      destruct before as [|b before]; cbn in Heq; injection Heq as <- ->.
      * rewrite Hn. reflexivity.
      * inversion Hb as [|? ? [source Hs] Hb']; subst. rewrite Hs.
        assert (Hrest : chain_sources (before ++ i :: after) t
                        = Throw (InvalidInputException
                                   (unknown_credential_provider_message i))).
        { apply IH. exists before, i, after. repeat split; assumption. }
        rewrite Hrest. reflexivity.
Qed.

Lemma chain_source_known (item : string) (t : Azure.TransportOptions) :
  chain_source item t = None
  <-> ~ In item ["cli"; "managed_identity"; "env"; "default"].
Proof.
  unfold chain_source.
  destruct (String.eqb_spec item "cli") as [->|H1];
    [split; [discriminate | intros H; exfalso; apply H; cbn; auto]|].
  destruct (String.eqb_spec item "managed_identity") as [->|H2];
    [split; [discriminate | intros H; exfalso; apply H; cbn; auto]|].
  destruct (String.eqb_spec item "env") as [->|H3];
    [split; [discriminate | intros H; exfalso; apply H; cbn; auto]|].
  destruct (String.eqb_spec item "default") as [->|H4];
    [split; [discriminate | intros H; exfalso; apply H; cbn; auto]|].
  split; [|reflexivity].
  intros _ [H|[H|[H|[H|[]]]]]; congruence.
Qed.

End ResolverFacts.

(** X20. A credential chain resolves exactly when every item of the
    semicolon-separated list is one of [cli], [managed_identity], [env] and
    [default]; the chained credential then has one source per item, in the
    order of the list. Otherwise the failure is an [InvalidInputException]
    that names the first item that is none of the four. *)
Theorem credential_chain_items (chain : string) (t : Azure.TransportOptions) :
  (forall credential,
     CreateChainedTokenCredential chain t = Ok credential
     <-> exists sources,
           credential = Azure.ChainedTokenCredential sources
           /\ Forall2 (fun item source => chain_source item t = Some source)
                (split_lines chain ";" "") sources)
  /\ (forall e,
        CreateChainedTokenCredential chain t = Throw e
        <-> exists before item after,
              split_lines chain ";" "" = before ++ item :: after
              /\ Forall (fun known => is_Some (chain_source known t)) before
              /\ chain_source item t = None
              /\ e = InvalidInputException (unknown_credential_provider_message item))
  /\ (forall item,
        chain_source item t = None
        <-> ~ In item ["cli"; "managed_identity"; "env"; "default"]).
Proof.
  unfold CreateChainedTokenCredential.
  split; [|split].
  - intros credential. split.
    + destruct (chain_sources _ t) as [sources|e] eqn:Hs; cbn; [|discriminate].
      intros [= <-]. exists sources. split; [reflexivity|].
      apply ResolverFacts.chain_sources_ok, Hs.
    + intros (sources & -> & Hs). apply ResolverFacts.chain_sources_ok in Hs.
      rewrite Hs. reflexivity.
  - intros e. rewrite <- ResolverFacts.chain_sources_throw.
    destruct (chain_sources _ t) as [sources|e0]; cbn; split; intros H;
      (discriminate H || (injection H as ->; reflexivity)).
  - intros item. apply ResolverFacts.chain_source_known.
Qed.

Section SecretFacts.

Variable env : ProcessEnv.

(** The secret path reads two things of the opener: the transport type and
    the HTTP statistics state. *)
Lemma GetStorageAccountClient_secret_reads opener opener' secret account endpoint :
  TryGetCurrentSetting opener' "azure_transport_option_type"
  = TryGetCurrentSetting opener "azure_transport_option_type" ->
  GetHttpState opener' = GetHttpState opener ->
  GetStorageAccountClient_secret env opener' secret account endpoint
  = GetStorageAccountClient_secret env opener secret account endpoint.
Proof.
  intros Htype Hstate.
  unfold GetStorageAccountClient_secret, GetStorageAccountClientFromConfigProvider,
    GetStorageAccountClientFromCredentialChainProvider,
    GetStorageAccountClientFromServicePrincipalProvider, GetTransportOptions_secret.
  rewrite Htype, Hstate. reflexivity.
Qed.

Lemma supported_provider_cases (p : string) :
  supported_provider p
  <-> String.eqb p "config" || String.eqb p "credential_chain"
      || String.eqb p "service_principal" = true.
Proof.
  unfold supported_provider.
  destruct (String.eqb_spec p "config"), (String.eqb_spec p "credential_chain"),
    (String.eqb_spec p "service_principal"); cbn; intuition congruence.
Qed.

Lemma transport_failure_first opener secret account endpoint ex :
  supported_provider (provider secret) ->
  GetTransportOptions_secret env opener secret = Throw ex ->
  GetStorageAccountClient_secret env opener secret account endpoint = Throw ex.
Proof.
  intros Hp Ht.
  unfold GetStorageAccountClient_secret, GetStorageAccountClientFromConfigProvider,
    GetStorageAccountClientFromCredentialChainProvider,
    GetStorageAccountClientFromServicePrincipalProvider.
  rewrite Ht. cbn.
  destruct Hp as [-> | [-> | ->]]; reflexivity.
Qed.

End SecretFacts.

(** X21. When the secret manager has a secret for the path, the client is
    resolved from the secret alone: of the opener only the transport type
    and the HTTP statistics state are read, and the connection string, the
    account name, the endpoint, the credential chain and the proxy of the
    session variables have no influence on the result. *)
Theorem secret_takes_precedence (env : ProcessEnv) (opener opener' : FileOpener)
    (path : string) (azure_parsed_url : AzureParsedUrl.t) (context : ClientContext)
    (secret : KeyValueSecret) :
  client_context opener = Some context ->
  client_context opener' = Some context ->
  LookupSecret context path = Some secret ->
  TryGetCurrentSetting opener' "azure_transport_option_type"
  = TryGetCurrentSetting opener "azure_transport_option_type" ->
  GetHttpState opener' = GetHttpState opener ->
  ConnectToStorageAccount env opener path azure_parsed_url
  = GetStorageAccountClient_secret env opener secret
      (AzureParsedUrl.storage_account_name azure_parsed_url)
      (AzureParsedUrl.endpoint azure_parsed_url)
  /\ ConnectToStorageAccount env opener' path azure_parsed_url
     = ConnectToStorageAccount env opener path azure_parsed_url.
Proof.
  intros Hc Hc' Hs Htype Hstate.
  unfold ConnectToStorageAccount. rewrite Hc, Hc', Hs.
  split; [reflexivity|].
  apply GetStorageAccountClient_secret_reads; assumption.
Qed.

Lemma secret_takes_precedence_witness :
  TryGetCurrentSetting opener_with_secret_and_variables "azure_storage_connection_string"
  = "AccountName=oth;AccountKey=a2V5"
  /\ ConnectToStorageAccount SessionSamples.env opener_with_secret
       "az://oth.ep/container/x.csv"
       (AzureParsedUrl.Build "container" "oth" "ep" "az://" "x.csv")
     = Ok (Azure.CreateFromConnectionString SessionSamples.other_connection_string
             SessionSamples.default_blob_options)
  /\ ConnectToStorageAccount SessionSamples.env opener_with_secret_and_variables
       "az://oth.ep/container/x.csv"
       (AzureParsedUrl.Build "container" "oth" "ep" "az://" "x.csv")
     = ConnectToStorageAccount SessionSamples.env opener_with_secret
         "az://oth.ep/container/x.csv"
         (AzureParsedUrl.Build "container" "oth" "ep" "az://" "x.csv").
Proof.
  split; [reflexivity|]. split; [vm_compute; reflexivity|].
  exact (proj2 (secret_takes_precedence SessionSamples.env opener_with_secret
                  opener_with_secret_and_variables "az://oth.ep/container/x.csv"
                  (AzureParsedUrl.Build "container" "oth" "ep" "az://" "x.csv")
                  secret_context SessionSamples.config_secret
                  eq_refl eq_refl eq_refl eq_refl eq_refl)).
Defined.

(** X22. The order of the failures on the secret path. A secret whose provider
    is none of [config], [credential_chain] and [service_principal] fails
    with an [InvalidInputException] that names the provider, before anything
    else is looked at. For the three providers the transport options come
    first: a transport type other than [default] and [curl] fails with the
    [InvalidInputException] for that type, whatever the secret lacks. *)
Theorem secret_provider_failures (env : ProcessEnv) (opener : FileOpener)
    (secret : KeyValueSecret) (account endpoint : string) :
  (~ supported_provider (provider secret) ->
   GetStorageAccountClient_secret env opener secret account endpoint
   = Throw (InvalidInputException (unsupported_provider_message (provider secret))))
  /\ (supported_provider (provider secret) ->
      TryGetCurrentSetting opener "azure_transport_option_type" ≠ "default" ->
      TryGetCurrentSetting opener "azure_transport_option_type" ≠ "curl" ->
      GetStorageAccountClient_secret env opener secret account endpoint
      = Throw (InvalidInputException
                 (invalid_transport_message
                    (TryGetCurrentSetting opener "azure_transport_option_type"))))
  /\ (is_ok (GetStorageAccountClient_secret env opener secret account endpoint) = true ->
      supported_provider (provider secret)
      /\ (TryGetCurrentSetting opener "azure_transport_option_type" = "default"
          \/ TryGetCurrentSetting opener "azure_transport_option_type" = "curl")).
Proof.
  assert (Hunsupported :
            ~ supported_provider (provider secret) ->
            GetStorageAccountClient_secret env opener secret account endpoint
            = Throw (InvalidInputException (unsupported_provider_message (provider secret)))).
  { intros Hn. unfold GetStorageAccountClient_secret.
    destruct (String.eqb_spec (provider secret) "config") as [H|_];
      [exfalso; apply Hn; left; exact H|].
    destruct (String.eqb_spec (provider secret) "credential_chain") as [H|_];
      [exfalso; apply Hn; right; left; exact H|].
    destruct (String.eqb_spec (provider secret) "service_principal") as [H|_];
      [exfalso; apply Hn; right; right; exact H|].
    reflexivity. }
  assert (Htransport :
            supported_provider (provider secret) ->
            TryGetCurrentSetting opener "azure_transport_option_type" ≠ "default" ->
            TryGetCurrentSetting opener "azure_transport_option_type" ≠ "curl" ->
            GetStorageAccountClient_secret env opener secret account endpoint
            = Throw (InvalidInputException
                       (invalid_transport_message
                          (TryGetCurrentSetting opener "azure_transport_option_type")))).
  { intros Hp Hd Hc. apply transport_failure_first; [exact Hp|].
    unfold GetTransportOptions_secret, GetTransportOptions.
    destruct (String.eqb_spec (TryGetCurrentSetting opener "azure_transport_option_type")
                "default"); [contradiction|].
    destruct (String.eqb_spec (TryGetCurrentSetting opener "azure_transport_option_type")
                "curl"); [contradiction|].
    reflexivity. }
  split; [exact Hunsupported|]. split; [exact Htransport|].
  intros Hok.
  assert (Hp : supported_provider (provider secret)).
  { apply supported_provider_cases.
    destruct (String.eqb (provider secret) "config" || String.eqb (provider secret)
                "credential_chain" || String.eqb (provider secret) "service_principal")
      eqn:Hb; [reflexivity|].
    rewrite Hunsupported in Hok; [discriminate|].
    intros H. apply supported_provider_cases in H. congruence. }
  split; [exact Hp|].
  destruct (String.eqb_spec (TryGetCurrentSetting opener "azure_transport_option_type")
              "default") as [Hd|Hd]; [left; exact Hd|].
  destruct (String.eqb_spec (TryGetCurrentSetting opener "azure_transport_option_type")
              "curl") as [Hc|Hc]; [right; exact Hc|].
  rewrite (Htransport Hp Hd Hc) in Hok. discriminate.
Qed.

Lemma secret_provider_failures_witness :
  ~ supported_provider "managed_identity"
  /\ GetStorageAccountClient_secret SessionSamples.env SessionSamples.opener
       {| provider := "managed_identity"; secret_map := ∅ |} "acct" "ep"
     = Throw (InvalidInputException "Unsupported provider type managed_identity for azure")
  /\ supported_provider (provider SessionSamples.service_principal_without_tenant)
  /\ GetStorageAccountClient_secret SessionSamples.env
       {| bool_settings := ∅; int_settings := ∅; string_settings := ∅;
          client_context := None; http_state := None |}
       SessionSamples.service_principal_without_tenant "acct" "ep"
     = Throw (InvalidInputException "transport_option_type cannot take value ''").
Proof.
  assert (Hn : ~ supported_provider "managed_identity")
    by (intros [H|[H|H]]; discriminate H).
  assert (Hp : supported_provider (provider SessionSamples.service_principal_without_tenant))
    by (right; right; reflexivity).
  split; [exact Hn|].
  split.
  { exact (proj1 (secret_provider_failures SessionSamples.env SessionSamples.opener
                    {| provider := "managed_identity"; secret_map := ∅ |} "acct" "ep") Hn). }
  split; [exact Hp|].
  refine (proj1 (proj2 (secret_provider_failures SessionSamples.env
                          {| bool_settings := ∅; int_settings := ∅; string_settings := ∅;
                             client_context := None; http_state := None |}
                          SessionSamples.service_principal_without_tenant "acct" "ep"))
            Hp _ _); vm_compute; discriminate.
Defined.

(** X23. The credential of a [service_principal] secret: a client secret that is
    not empty gives a client-secret credential, whether or not a certificate
    path is given as well; a certificate path is used only when the client
    secret is absent or empty. *)
Theorem service_principal_credential (env : ProcessEnv) (opener : FileOpener)
    (secret : KeyValueSecret) (account endpoint tenant client account_url : string)
    (t : Azure.TransportOptions) :
  provider secret = "service_principal" ->
  GetTransportOptions_secret env opener secret = Ok t ->
  TryGetValue secret "tenant_id" = Some tenant ->
  TryGetValue secret "client_id" = Some client ->
  AccountUrl secret account endpoint = Ok account_url ->
  (forall client_secret,
     TryGetValue secret "client_secret" = Some client_secret -> client_secret ≠ "" ->
     GetStorageAccountClient_secret env opener secret account endpoint
     = Ok (Azure.CredentialClient account_url
             (Azure.ClientSecretCredential tenant client client_secret t)
             (ToBlobClientOptions t (GetHttpState opener))))
  /\ (forall certificate,
        default "" (TryGetValue secret "client_secret") = "" ->
        TryGetValue secret "client_certificate_path" = Some certificate ->
        certificate ≠ "" ->
        GetStorageAccountClient_secret env opener secret account endpoint
        = Ok (Azure.CredentialClient account_url
                (Azure.ClientCertificateCredential tenant client certificate t)
                (ToBlobClientOptions t (GetHttpState opener)))).
Proof.
  intros Hp Ht Htenant Hclient Hurl.
  rewrite (service_principal_dispatch env _ _ _ _ Hp).
  unfold GetStorageAccountClientFromServicePrincipalProvider, TryGetValue_required.
  unfold TryGetValue in Htenant, Hclient. rewrite Ht, Htenant, Hclient, Hurl.
  unfold CreateClientCredential. split.
  - intros cs Hcs Hne. rewrite Hcs. cbn [default from_option id].
    apply empty_false_iff in Hne. rewrite Hne. reflexivity.
  - intros cert Hcs Hcert Hne. rewrite Hcs, Hcert.
    cbn [default from_option id StdString.empty negb].
    apply empty_false_iff in Hne. rewrite Hne. reflexivity.
Qed.

Lemma service_principal_credential_witness :
  TryGetValue service_principal_with_both "client_certificate_path" = Some "/cert.pem"
  /\ GetStorageAccountClient_secret SessionSamples.env SessionSamples.opener
       service_principal_with_both "acct" "ep"
     = Ok (Azure.CredentialClient "https://acct.ep"
             (Azure.ClientSecretCredential "tenant" "client" "secret"
                (Azure.blob_Transport SessionSamples.default_blob_options))
             (ToBlobClientOptions (Azure.blob_Transport SessionSamples.default_blob_options)
                (GetHttpState SessionSamples.opener))).
Proof.
  split; [reflexivity|].
  refine (proj1 (service_principal_credential SessionSamples.env SessionSamples.opener
                   service_principal_with_both "acct" "ep" "tenant" "client"
                   "https://acct.ep" (Azure.blob_Transport SessionSamples.default_blob_options)
                   eq_refl eq_refl eq_refl eq_refl eq_refl) "secret" eq_refl _).
  discriminate.
Defined.

Module ConnectionStringPrefixFacts.

Lemma substring_of_rest (s : string) :
  forall pos n,
    String.substring pos n s
    = String.substring 0 n (String.substring pos (String.length s - pos) s).
Proof.
  induction s as [|c s IH]; intros pos n.
  - destruct pos, n; reflexivity.
  - destruct pos as [|pos].
    + rewrite Nat.sub_0_r, UrlFacts.substring_all. reflexivity.
    + cbn [String.length Nat.sub String.substring]. apply IH.
Qed.

Lemma compare_eq_prefix (s other : string) (pos : nat) :
  StdString.compare_eq s pos (String.length other) other
  = String.prefix other (StdString.substr_from s pos).
Proof.
  unfold StdString.compare_eq, StdString.substr, StdString.substr_from.
  rewrite substring_of_rest.
  destruct (String.prefix other _) eqn:Hp.
  - apply String.prefix_correct in Hp. rewrite Hp. apply String.eqb_refl.
  - apply String.eqb_neq. intros Heq. apply String.prefix_correct in Heq. congruence.
Qed.

End ConnectionStringPrefixFacts.

(** X24. The account check of a connection string accepts exactly the account
    names that are a prefix of the text that follows the first
    [AccountName=]: the name in the connection string, but also every
    shorter beginning of it and every longer text that goes on into what
    follows the name. *)
Theorem connection_string_check_accepts_prefixes (connection_string account : string)
    (pos : nat) :
  account ≠ "" ->
  StdString.find connection_string "AccountName=" 0 = Some pos ->
  ConnectionStringMatchStorageAccountName connection_string account
  = Ok (String.prefix account (StdString.substr_from connection_string (pos + 12))).
Proof.
  intros Hne Hpos. unfold ConnectionStringMatchStorageAccountName.
  apply empty_false_iff in Hne. rewrite Hne, Hpos.
  rewrite ConnectionStringPrefixFacts.compare_eq_prefix. reflexivity.
Qed.

Lemma connection_string_check_accepts_prefixes_witness :
  StdString.find SessionSamples.other_connection_string "AccountName=" 0 = Some 31%nat
  /\ StdString.substr_from SessionSamples.other_connection_string (31 + 12)
     = "other;AccountKey=a2V5;EndpointSuffix=core.windows.net"
  /\ ConnectionStringMatchStorageAccountName SessionSamples.other_connection_string
       "other;Account"
     = Ok (String.prefix "other;Account"
             (StdString.substr_from SessionSamples.other_connection_string (31 + 12)))
  /\ String.prefix "other;Account"
       "other;AccountKey=a2V5;EndpointSuffix=core.windows.net" = true.
Proof.
  assert (Hpos : StdString.find SessionSamples.other_connection_string "AccountName=" 0
                 = Some 31%nat) by reflexivity.
  split; [exact Hpos|]. split; [reflexivity|].
  split; [|reflexivity].
  apply (connection_string_check_accepts_prefixes SessionSamples.other_connection_string
           "other;Account" 31); [discriminate | exact Hpos].
Defined.

(** X25. What the fallback on the session variables can return. A client built
    without the connection string is for [https://<account>.<endpoint>] with
    an account name and an endpoint that are not empty: the account name of
    the URL or else of the [azure_account_name] variable, the endpoint of
    the URL or else of the [azure_endpoint] variable or else the default
    one; it is anonymous exactly when the [azure_credential_chain] variable
    is empty. The secret path makes no such check: a [config] secret with an
    empty account name gives a client for [https://.blob.core.windows.net]. *)
Theorem fallback_client_shape (env : ProcessEnv) (opener : FileOpener)
    (account endpoint : string) (client : Azure.BlobServiceClient) :
  GetStorageAccountClient env opener account endpoint = Ok client ->
  ((exists options,
      client = Azure.CreateFromConnectionString
                 (TryGetCurrentSetting opener "azure_storage_connection_string") options
      /\ TryGetCurrentSetting opener "azure_storage_connection_string" ≠ "")
   \/ (exists name host options,
         name ≠ "" /\ host ≠ ""
         /\ name = (if StdString.empty account
                    then TryGetCurrentSetting opener "azure_account_name" else account)
         /\ host = (if StdString.empty endpoint
                    then if StdString.empty (TryGetCurrentSetting opener "azure_endpoint")
                         then DEFAULT_ENDPOINT
                         else TryGetCurrentSetting opener "azure_endpoint"
                    else endpoint)
         /\ ((client = Azure.AnonymousClient ("https://" ++ name ++ "." ++ host) options
              /\ TryGetCurrentSetting opener "azure_credential_chain" = "")
             \/ (exists credential,
                   client = Azure.CredentialClient ("https://" ++ name ++ "." ++ host)
                              credential options
                   /\ TryGetCurrentSetting opener "azure_credential_chain" ≠ ""))))
  /\ GetStorageAccountClient_secret SessionSamples.env SessionSamples.opener
       config_secret_empty_account "" ""
     = Ok (Azure.AnonymousClient "https://.blob.core.windows.net"
             SessionSamples.default_blob_options).
Proof.
  intros H. split; [|reflexivity].
  revert H. unfold GetStorageAccountClient.
  destruct (GetTransportOptions_opener env opener) as [t|e]; cbn; [|discriminate].
  destruct (StdString.empty (TryGetCurrentSetting opener "azure_storage_connection_string"))
    eqn:Hcs; cbn [negb].
  - cbn. intros H. right. revert H.
    set (name := if StdString.empty account
                 then TryGetCurrentSetting opener "azure_account_name" else account).
    set (host := if StdString.empty endpoint
                 then if StdString.empty (TryGetCurrentSetting opener "azure_endpoint")
                      then DEFAULT_ENDPOINT
                      else TryGetCurrentSetting opener "azure_endpoint"
                 else endpoint).
    assert (Hhost : host ≠ "").
    { unfold host. destruct (StdString.empty endpoint) eqn:He;
        [|apply empty_false_iff, He].
      destruct (StdString.empty (TryGetCurrentSetting opener "azure_endpoint")) eqn:Hs;
        [discriminate | apply empty_false_iff, Hs]. }
    destruct (StdString.empty name) eqn:Hname; [discriminate|].
    apply empty_false_iff in Hname.
    destruct (StdString.empty (TryGetCurrentSetting opener "azure_credential_chain"))
      eqn:Hchain; cbn [negb].
    + intros [= <-]. exists name, host. eexists.
      repeat (split; [assumption || reflexivity|]).
      left. split; [reflexivity | apply empty_true_iff, Hchain].
    + destruct (CreateChainedTokenCredential _ t) as [credential|e]; cbn; [|discriminate].
      intros [= <-]. exists name, host. eexists.
      repeat (split; [assumption || reflexivity|]).
      right. exists credential. split; [reflexivity | apply empty_false_iff, Hchain].
  - destruct (ConnectionStringMatchStorageAccountName _ account) as [[|]|e]; cbn;
      [| |discriminate].
    + intros [= <-]. left. eexists. split; [reflexivity | apply empty_false_iff, Hcs].
    + intros H. right. revert H.
      set (name := if StdString.empty account
                   then TryGetCurrentSetting opener "azure_account_name" else account).
      set (host := if StdString.empty endpoint
                   then if StdString.empty (TryGetCurrentSetting opener "azure_endpoint")
                        then DEFAULT_ENDPOINT
                        else TryGetCurrentSetting opener "azure_endpoint"
                   else endpoint).
      assert (Hhost : host ≠ "").
      { unfold host. destruct (StdString.empty endpoint) eqn:He;
          [|apply empty_false_iff, He].
        destruct (StdString.empty (TryGetCurrentSetting opener "azure_endpoint")) eqn:Hs;
          [discriminate | apply empty_false_iff, Hs]. }
      destruct (StdString.empty name) eqn:Hname; [discriminate|].
      apply empty_false_iff in Hname.
      destruct (StdString.empty (TryGetCurrentSetting opener "azure_credential_chain"))
        eqn:Hchain; cbn [negb].
      * intros [= <-]. exists name, host. eexists.
        repeat (split; [assumption || reflexivity|]).
        left. split; [reflexivity | apply empty_true_iff, Hchain].
      * destruct (CreateChainedTokenCredential _ t) as [credential|e]; cbn; [|discriminate].
        intros [= <-]. exists name, host. eexists.
        repeat (split; [assumption || reflexivity|]).
        right. exists credential. split; [reflexivity | apply empty_false_iff, Hchain].
Qed.

Lemma fallback_client_shape_witness :
  GetStorageAccountClient SessionSamples.env SessionSamples.opener "acct" "ep"
  = Ok (Azure.AnonymousClient "https://acct.ep" SessionSamples.default_blob_options)
  /\ GetStorageAccountClient SessionSamples.env SessionSamples.opener "" "ep"
     = Throw (InvalidInputException no_credentials_message)
  /\ ((exists options,
         Azure.AnonymousClient "https://acct.ep" SessionSamples.default_blob_options
         = Azure.CreateFromConnectionString
             (TryGetCurrentSetting SessionSamples.opener "azure_storage_connection_string")
             options
         /\ TryGetCurrentSetting SessionSamples.opener "azure_storage_connection_string" ≠ "")
      \/ (exists name host options,
            name ≠ "" /\ host ≠ ""
            /\ name = (if StdString.empty "acct"
                       then TryGetCurrentSetting SessionSamples.opener "azure_account_name"
                       else "acct")
            /\ host = (if StdString.empty "ep"
                       then if StdString.empty
                                 (TryGetCurrentSetting SessionSamples.opener "azure_endpoint")
                            then DEFAULT_ENDPOINT
                            else TryGetCurrentSetting SessionSamples.opener "azure_endpoint"
                       else "ep")
            /\ ((Azure.AnonymousClient "https://acct.ep" SessionSamples.default_blob_options
                 = Azure.AnonymousClient ("https://" ++ name ++ "." ++ host) options
                 /\ TryGetCurrentSetting SessionSamples.opener "azure_credential_chain" = "")
                \/ (exists credential,
                      Azure.AnonymousClient "https://acct.ep"
                        SessionSamples.default_blob_options
                      = Azure.CredentialClient ("https://" ++ name ++ "." ++ host)
                          credential options
                      /\ TryGetCurrentSetting SessionSamples.opener "azure_credential_chain"
                         ≠ "")))).
Proof.
  assert (H : GetStorageAccountClient SessionSamples.env SessionSamples.opener "acct" "ep"
              = Ok (Azure.AnonymousClient "https://acct.ep"
                      SessionSamples.default_blob_options)) by reflexivity.
  split; [exact H|]. split; [reflexivity|].
  exact (proj1 (fallback_client_shape SessionSamples.env SessionSamples.opener "acct" "ep"
                  _ H)).
Defined.

(** ** Credential resolver: account URL and transport *)

Module TransportFacts.

Lemma find_first {A : Type} (f : A -> bool) (l : list A) (x : A) :
  List.find f l = Some x
  <-> exists before after,
        l = before ++ x :: after /\ f x = true /\ Forall (fun y => f y = false) before.
Proof.
  induction l as [|a l IH]; cbn.
  - split; [discriminate|]. intros (before & after & H & _). destruct before; discriminate.
  - destruct (f a) eqn:Ha.
    + split.
      * intros [= <-]. exists [], l. split; [reflexivity|]. split; [exact Ha | constructor].
      * intros (before & after & Heq & Hx & Hb).
        destruct before as [|b before]; cbn in Heq; injection Heq as <- ->.
        -- reflexivity.
        -- inversion Hb; congruence.
    + rewrite IH. split.
      * intros (before & after & -> & Hx & Hb).
        exists (a :: before), after. split; [reflexivity|]. split; [exact Hx|].
        constructor; assumption.
      * intros (before & after & Heq & Hx & Hb).
        destruct before as [|b before]; cbn in Heq; injection Heq as <- ->.
        -- congruence.
        -- inversion Hb; subst. exists before, after. repeat split; assumption.
Qed.

Lemma find_none {A : Type} (f : A -> bool) (l : list A) :
  List.find f l = None <-> Forall (fun y => f y = false) l.
Proof.
  induction l as [|a l IH]; cbn.
  - split; [constructor | reflexivity].
  - destruct (f a) eqn:Ha.
    + split; [discriminate|]. intros H. inversion H; congruence.
    + rewrite IH. split; [constructor; assumption|]. intros H. inversion H; assumption.
Qed.

End TransportFacts.

(** X26. The CA bundle of the curl transport: the [CURL_CA_INFO] variable when it
    is set, without looking at any file; otherwise, on a platform that is
    neither Windows nor macOS (neither [_WIN32] nor [__APPLE__] defined),
    the first of the six well-known bundle files that can be opened for
    reading, in their fixed order, and none when none can be opened; on
    Windows and on macOS no file is probed and there is none. *)
Theorem curl_ca_bundle_choice (env : ProcessEnv) (proxy proxy_username proxy_password : string) :
  (forall ca, getenv env "CURL_CA_INFO" = Some ca ->
              Azure.curl_CAInfo (CreateCurlTransport env proxy proxy_username proxy_password)
              = Some ca)
  /\ (getenv env "CURL_CA_INFO" = None -> _WIN32 env = true \/ __APPLE__ env = true ->
      Azure.curl_CAInfo (CreateCurlTransport env proxy proxy_username proxy_password) = None)
  /\ (getenv env "CURL_CA_INFO" = None -> _WIN32 env = false -> __APPLE__ env = false ->
      (forall ca,
         Azure.curl_CAInfo (CreateCurlTransport env proxy proxy_username proxy_password)
         = Some ca
         <-> exists before after,
               ca_bundle_candidates = before ++ ca :: after
               /\ fopen_readable env ca = true
               /\ Forall (fun earlier => fopen_readable env earlier = false) before)
      /\ (Azure.curl_CAInfo (CreateCurlTransport env proxy proxy_username proxy_password)
          = None
          <-> Forall (fun candidate => fopen_readable env candidate = false)
                ca_bundle_candidates)).
Proof.
  unfold CreateCurlTransport. cbn [Azure.curl_CAInfo].
  split; [intros ca ->; reflexivity|].
  split.
  { intros -> [-> | ->]; [reflexivity|]. rewrite andb_false_r. reflexivity. }
  intros -> -> ->. cbn [negb andb]. split.
  - intros ca. apply TransportFacts.find_first.
  - apply TransportFacts.find_none.
Qed.

Lemma curl_ca_bundle_choice_witness :
  getenv {| getenv := fun _ => None;
            fopen_readable := String.eqb "/etc/ssl/ca-bundle.pem";
            _WIN32 := false; __APPLE__ := false |} "CURL_CA_INFO" = None
  /\ Azure.curl_CAInfo
       (CreateCurlTransport
          {| getenv := fun _ => None;
             fopen_readable := String.eqb "/etc/ssl/ca-bundle.pem";
             _WIN32 := false; __APPLE__ := false |} "" "" "")
     = Some "/etc/ssl/ca-bundle.pem"
  /\ (exists before after,
        ca_bundle_candidates = before ++ "/etc/ssl/ca-bundle.pem" :: after
        /\ Forall (fun earlier => String.eqb "/etc/ssl/ca-bundle.pem" earlier = false) before)
  /\ Azure.curl_CAInfo
       (CreateCurlTransport
          {| getenv := fun _ => None;
             fopen_readable := String.eqb "/etc/ssl/ca-bundle.pem";
             _WIN32 := false; __APPLE__ := true |} "" "" "")
     = None.
Proof.
  split; [reflexivity|]. split; [reflexivity|].
  split.
  - destruct (proj1 (proj1 (proj2 (proj2 (curl_ca_bundle_choice
                                     {| getenv := fun _ => None;
                                        fopen_readable := String.eqb "/etc/ssl/ca-bundle.pem";
                                        _WIN32 := false; __APPLE__ := false |} "" "" ""))
                       eq_refl eq_refl eq_refl) "/etc/ssl/ca-bundle.pem") eq_refl)
      as (before & after & Heq & _ & Hb).
    exists before, after. split; [exact Heq | exact Hb].
  - exact (proj1 (proj2 (curl_ca_bundle_choice
                           {| getenv := fun _ => None;
                              fopen_readable := String.eqb "/etc/ssl/ca-bundle.pem";
                              _WIN32 := false; __APPLE__ := true |} "" "" ""))
             eq_refl (or_intror eq_refl)).
Defined.

(** X27. On the secret path, a client that is not built from a connection string
    is for [https://<account>.<endpoint>], where the account is that of the
    URL or else the [account_name] of the secret, and the endpoint that of
    the URL or else the [endpoint] of the secret or else the default one; it
    is anonymous for a [config] secret and carries a credential for the two
    other providers. A [config] secret with a connection string gives the
    client of that connection string, whatever else it holds. *)
Theorem secret_client_account_url (env : ProcessEnv) (opener : FileOpener)
    (secret : KeyValueSecret) (account endpoint : string) (client : Azure.BlobServiceClient) :
  GetStorageAccountClient_secret env opener secret account endpoint = Ok client ->
  ((exists connection_string options,
      provider secret = "config"
      /\ TryGetValue secret "connection_string" = Some connection_string
      /\ client = Azure.CreateFromConnectionString connection_string options)
   \/ (exists name options,
         (if StdString.empty account
          then TryGetValue secret "account_name" = Some name
          else name = account)
         /\ ((provider secret = "config"
              /\ TryGetValue secret "connection_string" = None
              /\ client = Azure.AnonymousClient
                            ("https://" ++ name ++ "." ++ KVSEndpoint secret endpoint)
                            options)
             \/ (provider secret ≠ "config"
                 /\ exists credential,
                      client = Azure.CredentialClient
                                 ("https://" ++ name ++ "." ++ KVSEndpoint secret endpoint)
                                 credential options))))
  /\ KVSEndpoint secret endpoint
     = (if StdString.empty endpoint
        then default DEFAULT_ENDPOINT (TryGetValue secret "endpoint")
        else endpoint).
Proof.
  intros H. split.
  2:{ unfold KVSEndpoint. destruct (StdString.empty endpoint); [|reflexivity].
      destruct (TryGetValue secret "endpoint"); reflexivity. }
  assert (Hurl : forall url, AccountUrl secret account endpoint = Ok url ->
                   exists name,
                     (if StdString.empty account
                      then TryGetValue secret "account_name" = Some name
                      else name = account)
                     /\ url = ("https://" ++ name ++ "." ++ KVSEndpoint secret endpoint)%string).
  { intros url. unfold AccountUrl, KVSStorageAccount, TryGetValue_required, TryGetValue.
    destruct (StdString.empty account).
    - destruct (secret_map secret !! "account_name") as [name|]; cbn; [|discriminate].
      intros [= <-]. exists name. split; reflexivity.
    - cbn. intros [= <-]. exists account. split; reflexivity. }
  revert H. unfold GetStorageAccountClient_secret.
  destruct (String.eqb_spec (provider secret) "config") as [Hconfig|Hconfig].
  - unfold GetStorageAccountClientFromConfigProvider.
    destruct (GetTransportOptions_secret env opener secret) as [t|e]; cbn; [|discriminate].
    destruct (TryGetValue secret "connection_string") as [cs|] eqn:Hcs.
    + destruct (ConnectionStringMatchStorageAccountName cs account) as [[|]|e]; cbn;
        [|discriminate|discriminate].
      intros [= <-]. left. exists cs. eexists. repeat split; assumption.
    + destruct (AccountUrl secret account endpoint) as [url|e] eqn:Ha; cbn; [|discriminate].
      intros [= <-]. right. destruct (Hurl url eq_refl) as (name & Hname & ->).
      exists name. eexists. split; [exact Hname|]. left. repeat split; assumption.
  - destruct (String.eqb (provider secret) "credential_chain").
    + unfold GetStorageAccountClientFromCredentialChainProvider.
      destruct (GetTransportOptions_secret env opener secret) as [t|e]; cbn; [|discriminate].
      destruct (CreateChainedTokenCredential _ t) as [credential|e]; cbn; [|discriminate].
      destruct (AccountUrl secret account endpoint) as [url|e] eqn:Ha; cbn; [|discriminate].
      intros [= <-]. right. destruct (Hurl url eq_refl) as (name & Hname & ->).
      exists name. eexists. split; [exact Hname|]. right. split; [exact Hconfig|].
      exists credential. reflexivity.
    + destruct (String.eqb (provider secret) "service_principal"); [|discriminate].
      unfold GetStorageAccountClientFromServicePrincipalProvider.
      destruct (GetTransportOptions_secret env opener secret) as [t|e]; cbn; [|discriminate].
      destruct (TryGetValue_required secret "tenant_id") as [tenant|e]; cbn; [|discriminate].
      destruct (TryGetValue_required secret "client_id") as [cl|e]; cbn; [|discriminate].
      destruct (CreateClientCredential _ _ _ _ t) as [credential|e]; cbn; [|discriminate].
      destruct (AccountUrl secret account endpoint) as [url|e] eqn:Ha; cbn; [|discriminate].
      intros [= <-]. right. destruct (Hurl url eq_refl) as (name & Hname & ->).
      exists name. eexists. split; [exact Hname|]. right. split; [exact Hconfig|].
      exists credential. reflexivity.
Qed.

Lemma secret_client_account_url_witness :
  GetStorageAccountClient_secret SessionSamples.env SessionSamples.opener
    (secret_for_account "one") "" ""
  = Ok (Azure.AnonymousClient "https://one.blob.core.windows.net"
          SessionSamples.default_blob_options)
  /\ GetStorageAccountClient_secret SessionSamples.env SessionSamples.opener
       (secret_for_account "one") "acct" "ep"
     = Ok (Azure.AnonymousClient "https://acct.ep" SessionSamples.default_blob_options)
  /\ KVSEndpoint (secret_for_account "one") "ep" = "ep".
Proof.
  assert (H : GetStorageAccountClient_secret SessionSamples.env SessionSamples.opener
                (secret_for_account "one") "acct" "ep"
              = Ok (Azure.AnonymousClient "https://acct.ep"
                      SessionSamples.default_blob_options)) by (vm_compute; reflexivity).
  split; [vm_compute; reflexivity|]. split; [exact H|].
  exact (proj2 (secret_client_account_url _ _ _ _ _ _ H)).
Defined.

